(** * openedx/core/lib/edx_api_utils.py: [get_edx_api_data] and [_traverse_pagination]

    A shallow embedding of the two functions of the module and the properties
    proved about them.  The collaborators of the module (Django's cache, the
    OAuth2 [Client] table, [JwtBuilder], [EdxRestApiClient] and the endpoints
    it exposes, the logger) are outside the module: they are modelled as
    oracles that either return a value or raise, and every call made to them
    is recorded, in order, in a log.

    Python objects that the code shares and mutates in place (the caller's
    [querystring] dict, the [no_data] object, the list bound to [results])
    live in a small store, and the local names that refer to them are
    references into it.  Every response of an endpoint is a fresh object.

    The values are typed as the docstring and the responses of the API have
    them: [cache_key] a string, [resource_id] an int or a string,
    [querystring] a dict, ['results'] a list when present, ['next'] null or
    a string.  Truthiness is Python's on these types.  The [while] loop
    takes fuel: [OutOfFuel] stands for a loop that has not ended yet. *)

From Stdlib Require Import ZArith.
From stdpp Require Import base option list gmap strings pretty.

Open Scope string_scope.
Open Scope list_scope.

(** ** Python values *)

(** Truthiness, as tested by [if x:], [if not x:] and [while x:]. *)
Class Truthy (A : Type) := truthy : A -> bool.

#[export] Instance truthy_string : Truthy string :=
  fun s => match s with EmptyString => false | String _ _ => true end.

#[export] Instance truthy_list {A : Type} : Truthy (list A) :=
  fun l => match l with [] => false | _ :: _ => true end.

#[export] Instance truthy_gmap {V : Type} : Truthy (gmap string V) :=
  fun m => negb (bool_decide (map_to_list m = [])).

(** [None] is Python's [None]. *)
#[export] Instance truthy_option {A : Type} `{Truthy A} : Truthy (option A) :=
  fun o => match o with Some a => truthy a | None => false end.

(** The elements of a [results] list are opaque to the module. *)
Definition item := string.

(** A response of the API: a mapping, of which the module reads the keys
    ['results'] and ['next'].  [results = None] and [next = None]: the key is
    absent; [next = Some None]: the key is present and null. *)
Record response := Response {
  results : option (list item);
  next : option (option string);
  extra : gmap string string }.

(** The dict literal [{}]. *)
Definition empty_dict : response :=
  {| results := None; next := None; extra := ∅ |}.

#[export] Instance truthy_response : Truthy response :=
  fun r => match results r, next r with
           | None, None => truthy (extra r)
           | _, _ => true
           end.

(** [response.get('next')] *)
Definition get_next (r : response) : option string :=
  match next r with Some v => v | None => None end.

(** What the function returns and caches: a list of results, or a raw
    response. *)
Inductive data :=
| DList (l : list item)
| DDict (r : response).

#[export] Instance truthy_data : Truthy data :=
  fun d => match d with DList l => truthy l | DDict r => truthy r end.

(** [resource_id (int or str)] *)
Inductive resource_id_t :=
| IdInt (z : Z)
| IdStr (s : string).

(** [str.format] of a resource id. *)
Definition format_id (i : resource_id_t) : string :=
  match i with IdInt z => pretty z | IdStr s => s end.

(** Values of query string parameters. *)
Inductive qval :=
| QInt (z : Z)
| QStr (s : string).

(** ** Exceptions and outcomes *)

Inductive exn :=
| DoesNotExist
| ImproperlyConfigured (msg : string)
| TypeError
| Error (what : string).

(** The answer of a collaborator to one call. *)
Inductive reply (A : Type) :=
| Returns (a : A)
| Raises (e : exn).
Arguments Returns {A} a.
Arguments Raises {A} e.

(** The outcome of running a piece of the module with some fuel:
    [OutOfFuel] says that the [while] loop was still running when the fuel
    ran out; it is not an exception and no handler catches it. *)
Inductive outcome (A : Type) :=
| Done (a : A)
| Raised (e : exn)
| OutOfFuel.
Arguments Done {A} a.
Arguments Raised {A} e.
Arguments OutOfFuel {A}.

(** ** Collaborators *)

(** [api_config (ConfigurationModel)] *)
Record config := Config {
  enabled : bool;
  API_NAME : string;
  OAUTH2_CLIENT_NAME : string;
  internal_api_url : string;
  cache_ttl : Z }.

Definition user := string.

(** A row of [provider.oauth2.models.Client]. *)
Record client := Client {
  client_id : string;
  client_secret : string }.

(** An endpoint ([getattr(api, resource)]): the reply to its [n]-th request
    (counting from 0), made for the given resource id with the given query
    string parameters. *)
Definition endpoint := nat -> option resource_id_t -> gmap string qval -> reply response.

(** An API client: [getattr(api, resource)]. *)
Record api_client := ApiClient {
  getattr : string -> reply endpoint }.

#[export] Instance truthy_api_client : Truthy api_client := fun _ => true.

Record collaborators := Collaborators {
  (** [cache.get(key)]; [None] when the cache holds nothing under the key *)
  cache_get : string -> reply (option data);
  (** [cache.set(key, value, timeout)] *)
  cache_set : string -> data -> Z -> reply unit;
  (** [Client.objects.get(name=...)]; raises [DoesNotExist] *)
  Client_objects_get : string -> reply client;
  (** [JwtBuilder(user, secret=...).build_token(scopes, expires_in, aud=...)] *)
  build_token : user -> string -> list string -> Z -> string -> reply string;
  (** [EdxRestApiClient(url, jwt=...)] *)
  EdxRestApiClient : string -> string -> reply api_client;
  (** [settings.OAUTH_ID_TOKEN_EXPIRATION] *)
  OAUTH_ID_TOKEN_EXPIRATION : Z }.

(** Calls made to the collaborators, as observed from outside. *)
Inductive event :=
| LogWarning (msg : string)
| LogException (msg : string) (e : exn)
| CacheGet (key : string)
| CacheSet (key : string) (value : data) (timeout : Z)
| ClientLookup (name : string)
| BuildToken (u : user) (secret : string) (scopes : list string) (expires_in : Z) (aud : string)
| NewClient (url : string) (jwt : string)
| GetAttr (resource : string)
| Request (rid : option resource_id_t) (qs : gmap string qval) (r : reply response).

(** ** The store *)

(** The object bound to [no_data] on line 41: the list [[]], which [+=] can
    extend in place, or the dict [{}], which nothing mutates. *)
Inductive no_data_t :=
| NoDataList (l : list item)
| NoDataDict.

Definition data_of_no_data (nd : no_data_t) : data :=
  match nd with NoDataList l => DList l | NoDataDict => DDict empty_dict end.

Record heap := Heap {
  (** the dict the caller passed as [querystring], if any *)
  caller_dict : option (gmap string qval);
  (** the dict literal [{}] of line 77 *)
  fresh_dict : gmap string qval;
  (** the object created on line 41 *)
  no_data_obj : no_data_t;
  (** the list under ['results'] in the first response *)
  first_results : list item;
  (** the calls made so far, oldest first *)
  log : list event }.

Definition set_caller_dict (d : option (gmap string qval)) (h : heap) : heap :=
  {| caller_dict := d; fresh_dict := fresh_dict h; no_data_obj := no_data_obj h;
     first_results := first_results h; log := log h |}.
Definition set_fresh_dict (d : gmap string qval) (h : heap) : heap :=
  {| caller_dict := caller_dict h; fresh_dict := d; no_data_obj := no_data_obj h;
     first_results := first_results h; log := log h |}.
Definition set_no_data_obj (nd : no_data_t) (h : heap) : heap :=
  {| caller_dict := caller_dict h; fresh_dict := fresh_dict h; no_data_obj := nd;
     first_results := first_results h; log := log h |}.
Definition set_first_results (l : list item) (h : heap) : heap :=
  {| caller_dict := caller_dict h; fresh_dict := fresh_dict h; no_data_obj := no_data_obj h;
     first_results := l; log := log h |}.
Definition emit (e : event) (h : heap) : heap :=
  {| caller_dict := caller_dict h; fresh_dict := fresh_dict h; no_data_obj := no_data_obj h;
     first_results := first_results h; log := log h ++ [e] |}.

(** What the name [querystring] refers to after line 77. *)
Inductive querystring_ref := CallerDict | FreshDict.

(** What the name [results] refers to in [_traverse_pagination]. *)
Inductive results_ref := NoDataObj | FirstResults.

(** ** The monad of the module: state and exceptions *)

Definition M (A : Type) : Type := heap -> outcome A * heap.

#[export] Instance M_ret : MRet M := fun A a h => (Done a, h).
#[export] Instance M_bind : MBind M := fun A B f m h =>
  match m h with
  | (Done a, h') => f a h'
  | (Raised e, h') => (Raised e, h')
  | (OutOfFuel, h') => (OutOfFuel, h')
  end.

#[export] Instance M_fmap : FMap M := fun A B f m h =>
  match m h with
  | (Done a, h') => (Done (f a), h')
  | (Raised e, h') => (Raised e, h')
  | (OutOfFuel, h') => (OutOfFuel, h')
  end.

Definition raise {A : Type} (e : exn) : M A := fun h => (Raised e, h).
Definition out_of_fuel {A : Type} : M A := fun h => (OutOfFuel, h).

(** [try: body except: handler] with a bare [except]. *)
Definition try_except {A : Type} (body : M A) (handler : exn -> M A) : M A := fun h =>
  match body h with
  | (Raised e, h') => handler e h'
  | r => r
  end.

(** [try: body except DoesNotExist: handler] *)
Definition try_except_DoesNotExist {A : Type} (body : M A) (handler : M A) : M A := fun h =>
  match body h with
  | (Raised DoesNotExist, h') => handler h'
  | r => r
  end.

(** A call to a collaborator: recorded, then its reply returned or raised. *)
Definition call {A : Type} (e : event) (r : reply A) : M A := fun h =>
  match r with
  | Returns a => (Done a, emit e h)
  | Raises x => (Raised x, emit e h)
  end.

Definition read_no_data : M data := fun h => (Done (data_of_no_data (no_data_obj h)), h).

Definition deref_querystring (q : querystring_ref) (h : heap) : gmap string qval :=
  match q with
  | CallerDict => default ∅ (caller_dict h)
  | FreshDict => fresh_dict h
  end.

(** [querystring[key] = v] *)
Definition setitem (q : querystring_ref) (key : string) (v : qval) : M unit := fun h =>
  (Done tt,
   match q with
   | CallerDict => set_caller_dict (Some (<[key := v]> (default ∅ (caller_dict h)))) h
   | FreshDict => set_fresh_dict (<[key := v]> (fresh_dict h)) h
   end).

Definition is_request (e : event) : bool :=
  match e with Request _ _ _ => true | _ => false end.

(** The requests made so far. *)
Definition requests (l : list event) : list event := filter (fun e => is_request e = true) l.

(** [endpoint(resource_id).get] and [endpoint.get], with the items of
    [querystring] as keyword arguments. *)
Definition endpoint_get (ep : endpoint) (rid : option resource_id_t) (q : querystring_ref) : M response :=
  fun h =>
    let qs := deref_querystring q h in
    let r := ep (length (requests (log h))) rid qs in
    call (Request rid qs r) r h.

(** ** [_traverse_pagination] *)

(** [results = response.get('results', no_data)]: the name [results] is bound
    to the list of the first response, or to the [no_data] object itself. *)
Definition bind_results (r : response) : M results_ref := fun h =>
  match results r with
  | Some l => (Done FirstResults, set_first_results l h)
  | None => (Done NoDataObj, h)
  end.

(** The items that iterating over the [no_data] object yields: [{}] yields
    no key. *)
Definition iter_no_data (nd : no_data_t) : list item :=
  match nd with NoDataList l => l | NoDataDict => [] end.

(** [results += response.get('results', no_data)].  A list is extended in
    place with the items of the right-hand side, which is the [no_data]
    object when the response has no ['results']; a dict on the left has no
    [+=] and the statement raises [TypeError]. *)
Definition iadd_results (res : results_ref) (r : response) : M unit := fun h =>
  let rhs := match results r with Some l => l | None => iter_no_data (no_data_obj h) end in
  match res with
  | FirstResults => (Done tt, set_first_results (first_results h ++ rhs) h)
  | NoDataObj =>
      match no_data_obj h with
      | NoDataList l => (Done tt, set_no_data_obj (NoDataList (l ++ rhs)) h)
      | NoDataDict => (Raised TypeError, h)
      end
  end.

(** [return results] *)
Definition deref_results (res : results_ref) : M data := fun h =>
  match res with
  | FirstResults => (Done (DList (first_results h)), h)
  | NoDataObj => (Done (data_of_no_data (no_data_obj h)), h)
  end.

(** The [while next_page:] loop of lines 103-108. *)
Fixpoint pagination_loop (fuel : nat) (ep : endpoint) (querystring : querystring_ref)
    (res : results_ref) (page : Z) (next_page : option string) : M unit :=
  if truthy next_page then
    match fuel with
    | O => out_of_fuel
    | S fuel' =>
        let page := (page + 1)%Z in
        setitem querystring "page" (QInt page) ;;
        response ← endpoint_get ep None querystring;
        iadd_results res response ;;
        pagination_loop fuel' ep querystring res page (get_next response)
    end
  else mret tt.

Definition _traverse_pagination (fuel : nat) (response : response) (ep : endpoint)
    (querystring : querystring_ref) : M data :=
  res ← bind_results response;
  pagination_loop fuel ep querystring res 1%Z (get_next response) ;;
  deref_results res.

(** ** [get_edx_api_data] *)

(** Lines 47-48: the key the cache is read and written under. *)
Definition derived_key (cache_key : string) (resource_id : option resource_id_t) : string :=
  match resource_id with
  | Some i => cache_key +:+ "." +:+ format_id i
  | None => cache_key
  end.

(** Lines 57-70: the client built when the caller passed none. *)
Definition build_client (E : collaborators) (api_config : config) (u : user) : M api_client :=
  let client_name := OAUTH2_CLIENT_NAME api_config in
  c ← try_except_DoesNotExist
         (call (ClientLookup client_name) (Client_objects_get E client_name))
         (raise (ImproperlyConfigured
                   ("OAuth2 Client with name [" +:+ client_name +:+ "] does not exist.")));
  let scopes := ["email"; "profile"] in
  let expires_in := OAUTH_ID_TOKEN_EXPIRATION E in
  jwt ← call (BuildToken u (client_secret c) scopes expires_in (client_id c))
             (build_token E u (client_secret c) scopes expires_in (client_id c));
  call (NewClient (internal_api_url api_config) jwt)
       (EdxRestApiClient E (internal_api_url api_config) jwt).

(** Lines 76-83. *)
Definition retrieve (fuel : nat) (api : api_client) (resource : string)
    (resource_id : option resource_id_t) (querystring : option (gmap string qval)) : M data :=
  ep ← call (GetAttr resource) (getattr api resource);
  let querystring := if truthy querystring then CallerDict else FreshDict in
  response ← endpoint_get ep resource_id querystring;
  match resource_id with
  | Some _ => mret (DDict response)
  | None => _traverse_pagination fuel response ep querystring
  end.

(** [log.warning] and [log.exception] *)
Definition log_warning (msg : string) : M unit := fun h => (Done tt, emit (LogWarning msg) h).
Definition log_exception (msg : string) (e : exn) : M unit :=
  fun h => (Done tt, emit (LogException msg e) h).

(** Lines 55-70: [if not api:] build one. *)
Definition ensure_client (E : collaborators) (api_config : config) (u : user)
    (api : option api_client) : M api_client :=
  match api with
  | Some a => if negb (truthy a) then build_client E api_config u else mret a
  | None => build_client E api_config u
  end.

(** Lines 54-91: what follows the cache lookup.  [inl v] stands for a
    [return v] inside a handler. *)
Definition fetch (fuel : nat) (E : collaborators) (api_config : config) (u : user)
    (resource : string) (api : option api_client) (resource_id : option resource_id_t)
    (querystring : option (gmap string qval)) (cache_key : option string) : M data :=
  r ← try_except
        (inr <$> ensure_client E api_config u api : M (data + api_client))
        (fun e =>
           log_exception ("Failed to initialize the " +:+ API_NAME api_config +:+ " API client.") e ;;
           inl <$> read_no_data);
  match r with
  | inl no_data => mret no_data
  | inr api =>
      r ← try_except
            (inr <$> retrieve fuel api resource resource_id querystring : M (data + data))
            (fun e =>
               log_exception ("Failed to retrieve data from the " +:+ API_NAME api_config +:+ " API.") e ;;
               inl <$> read_no_data);
      match r with
      | inl no_data => mret no_data
      | inr results =>
          (if truthy cache_key
           then call (CacheSet (default "" cache_key) results (cache_ttl api_config))
                     (cache_set E (default "" cache_key) results (cache_ttl api_config))
           else mret tt) ;;
          mret results
      end
  end.

Definition get_edx_api_data (fuel : nat) (E : collaborators) (api_config : config) (u : user)
    (resource : string) (api : option api_client) (resource_id : option resource_id_t)
    (querystring : option (gmap string qval)) (cache_key : option string) (many : bool) : M data :=
  (fun h => (Done tt, set_no_data_obj (if many then NoDataList [] else NoDataDict) h)) ;;
  if negb (enabled api_config) then
    log_warning (API_NAME api_config +:+ " configuration is disabled.") ;;
    read_no_data
  else
    let cache_key :=
      if truthy cache_key then Some (derived_key (default "" cache_key) resource_id)
      else cache_key in
    cached ← (if truthy cache_key
              then call (CacheGet (default "" cache_key)) (cache_get E (default "" cache_key))
              else mret None);
    match cached with
    | Some d =>
        if truthy d then mret d
        else fetch fuel E api_config u resource api resource_id querystring cache_key
    | None => fetch fuel E api_config u resource api resource_id querystring cache_key
    end.

(** A call of the function: the store holds the caller's dict; the cells of
    the objects the call will create hold what they are created with. *)
Definition initial_heap (querystring : option (gmap string qval)) : heap :=
  {| caller_dict := querystring; fresh_dict := ∅; no_data_obj := NoDataDict;
     first_results := []; log := [] |}.

Definition run (fuel : nat) (E : collaborators) (api_config : config) (u : user)
    (resource : string) (api : option api_client) (resource_id : option resource_id_t)
    (querystring : option (gmap string qval)) (cache_key : option string) (many : bool)
    : outcome data * heap :=
  get_edx_api_data fuel E api_config u resource api resource_id querystring cache_key many
    (initial_heap querystring).

(** ** Observations on a run *)

(** The empty value: [[] if many else {}]. *)
Definition empty_value (many : bool) : data :=
  if many then DList [] else DDict empty_dict.

(** The query string parameters of an event, when it is a request. *)
Definition request_params (e : event) : option (gmap string qval) :=
  match e with Request _ qs _ => Some qs | _ => None end.

(** The value of the [page] parameter in each request of a log, in order. *)
Definition page_params (l : list event) : list (option qval) :=
  (fun qs : gmap string qval => qs !! "page") <$> omap request_params l.

(** Building a client and calling an endpoint. *)
Definition is_network_call (e : event) : bool :=
  match e with
  | NewClient _ _ | GetAttr _ | Request _ _ _ => true
  | _ => false
  end.

Definition is_log_exception (e : event) : bool :=
  match e with LogException _ _ => true | _ => false end.

(** A server that answers its [n]-th request with [pages n]. *)
Definition serve (pages : nat -> response) : endpoint := fun n _ _ => Returns (pages n).

(** The results of pages [0..k], concatenated in page order. *)
Definition concat_results (pages : nat -> response) (k : nat) : list item :=
  concat ((fun i => default [] (results (pages i))) <$> seq 0 (S k)).

(** Page [k] is the first one whose [next] the loop takes as the end. *)
Definition last_page (pages : nat -> response) (k : nat) : Prop :=
  truthy (get_next (pages k)) = false /\
  forall i, i < k -> truthy (get_next (pages i)) = true.

(** ** Auxiliary definitions for the statements and their proofs *)

(** The store after one more page has been fetched and appended. *)
Definition after_page (pages : nat -> response) (q : querystring_ref) (page : Z) (j : nat)
    (h : heap) : heap :=
  let h1 := snd (setitem q "page" (QInt (page + 1)) h) in
  let h2 := emit (Request None (deref_querystring q h1) (Returns (pages (S j)))) h1 in
  set_first_results (first_results h ++ default [] (results (pages (S j)))) h2.

(** A chain of [n + 1] pages: the first [n] have a link to the next page. *)
Definition chain (n : nat) (i : nat) : response :=
  {| results := Some [];
     next := if Nat.ltb i n then Some (Some "next") else Some None;
     extra := ∅ |}.

(** The three pages of the paginated fetch of the specification: results of
    length 2, 2 and 1, the last page with a null [next]. *)
Definition three_pages (n : nat) : response :=
  match n with
  | 0 => {| results := Some ["a"; "b"]; next := Some (Some "/programs/?page=2"); extra := ∅ |}
  | 1 => {| results := Some ["c"; "d"]; next := Some (Some "/programs/?page=3"); extra := ∅ |}
  | _ => {| results := Some ["e"]; next := Some None; extra := ∅ |}
  end.

(** The store when [_traverse_pagination] is entered: the first request has
    been made. *)
Definition first_page_fetched (pages : nat -> response) : heap :=
  emit (Request None ∅ (Returns (pages 0))) (set_no_data_obj (NoDataList []) (initial_heap None)).

(** The [i]-th request of a call (counting from 0): the first is made for
    the resource id with the query string parameters as they are, each later
    one for no resource id with [page] set to [i + 1]. *)
Definition nth_request (rid : option resource_id_t) (qs0 : gmap string qval)
    (i : nat) (e : event) : Prop :=
  exists r, e = Request (match i with 0 => rid | S _ => None end)
                        (match i with
                         | 0 => qs0
                         | S _ => <["page" := QInt (Z.of_nat (S i))]> qs0
                         end) r.

(** The first response received, if any, carries a [results] list. *)
Definition first_page_has_results (reqs : list event) : Prop :=
  forall rid qs r, head reqs = Some (Request rid qs (Returns r)) -> results r <> None.

(** The calls made to build a client. *)
Definition is_setup (e : event) : bool :=
  match e with
  | ClientLookup _ | BuildToken _ _ _ _ _ | NewClient _ _ => true
  | _ => false
  end.

(** The store with more calls logged and nothing else changed. *)
Definition emits (evs : list event) (h : heap) : heap :=
  {| caller_dict := caller_dict h; fresh_dict := fresh_dict h; no_data_obj := no_data_obj h;
     first_results := first_results h; log := log h ++ evs |}.

(** What the bare [except] of line 71 sees when the lookup raises [x]. *)
Definition lookup_error (client_name : string) (x : exn) : exn :=
  match x with
  | DoesNotExist =>
      ImproperlyConfigured ("OAuth2 Client with name [" +:+ client_name +:+ "] does not exist.")
  | _ => x
  end.

(** The query string parameters the first request is made with: those of
    the dict [querystring] refers to after line 77. *)
Definition query_params (querystring : option (gmap string qval)) : gmap string qval :=
  if truthy querystring then default ∅ querystring else ∅.

(** The key of lines 47-48, for a cache key that is not empty. *)
Definition the_key (cache_key : option string) (rid : option resource_id_t) : string :=
  derived_key (default "" cache_key) rid.

(** The messages of lines 72 and 85. *)
Definition init_msg (cfg : config) : string :=
  "Failed to initialize the " +:+ API_NAME cfg +:+ " API client.".

Definition retrieve_msg (cfg : config) : string :=
  "Failed to retrieve data from the " +:+ API_NAME cfg +:+ " API.".

Section Shape.
Variables (fuel : nat) (E : collaborators) (cfg : config) (resource : string)
  (rid : option resource_id_t) (querystring : option (gmap string qval))
  (cache_key : option string) (many : bool).

(** The cache was not consulted, or held nothing truthy under the key. *)
Definition cache_missed (pre : list event) : Prop :=
  (truthy cache_key = false /\ pre = []) \/
  (truthy cache_key = true /\ pre = [CacheGet (the_key cache_key rid)] /\
   exists c, cache_get E (the_key cache_key rid) = Returns c /\ truthy c = false).

(** Lines 84-91, after [retrieve] ended with [ro]: what is logged last and
    what the caller gets. *)
Inductive finish (h : heap) : outcome data -> list event -> outcome data -> Prop :=
| FinishFailed e :
    finish h (Raised e) [LogException (retrieve_msg cfg) e]
      (Done (data_of_no_data (no_data_obj h)))
| FinishOutOfFuel :
    finish h OutOfFuel [] OutOfFuel
| FinishNoCache v :
    truthy cache_key = false ->
    finish h (Done v) [] (Done v)
| FinishStored v :
    truthy cache_key = true ->
    cache_set E (the_key cache_key rid) v (cache_ttl cfg) = Returns tt ->
    finish h (Done v) [CacheSet (the_key cache_key rid) v (cache_ttl cfg)] (Done v)
| FinishStoreRaised v e :
    truthy cache_key = true ->
    cache_set E (the_key cache_key rid) v (cache_ttl cfg) = Raises e ->
    finish h (Done v) [CacheSet (the_key cache_key rid) v (cache_ttl cfg)] (Raised e).

(** The five ways a call can go, with the log it leaves. *)
Inductive run_shape : outcome data -> heap -> Prop :=
| RunDisabled h :
    enabled cfg = false ->
    log h = [LogWarning (API_NAME cfg +:+ " configuration is disabled.")] ->
    caller_dict h = querystring ->
    run_shape (Done (empty_value many)) h
| RunCacheRaised e h :
    enabled cfg = true ->
    truthy cache_key = true ->
    cache_get E (the_key cache_key rid) = Raises e ->
    log h = [CacheGet (the_key cache_key rid)] ->
    caller_dict h = querystring ->
    run_shape (Raised e) h
| RunCacheHit d h :
    enabled cfg = true ->
    truthy cache_key = true ->
    cache_get E (the_key cache_key rid) = Returns (Some d) ->
    truthy d = true ->
    log h = [CacheGet (the_key cache_key rid)] ->
    caller_dict h = querystring ->
    run_shape (Done d) h
| RunInitFailed pre setup e h :
    enabled cfg = true ->
    cache_missed pre ->
    Forall (fun e => is_setup e = true) setup ->
    log h = pre ++ setup ++ [LogException (init_msg cfg) e] ->
    caller_dict h = querystring ->
    run_shape (Done (empty_value many)) h
| RunRetrieved pre setup reqs post ro o h :
    enabled cfg = true ->
    cache_missed pre ->
    Forall (fun e => is_setup e = true) setup ->
    log h = pre ++ setup ++ GetAttr resource :: reqs ++ post ->
    Forall (fun e => is_request e = true) reqs ->
    (forall i e, reqs !! i = Some e -> nth_request rid (query_params querystring) i e) ->
    caller_dict h =
      (if truthy querystring && bool_decide (2 <= length reqs)
       then Some (<["page" := QInt (Z.of_nat (length reqs))]> (query_params querystring))
       else querystring) ->
    (first_page_has_results reqs -> data_of_no_data (no_data_obj h) = empty_value many) ->
    (forall v, ro = Done v -> reqs <> []) ->
    (forall i, rid = Some i ->
       length reqs <= 1 /\
       forall rid' qs r, head reqs = Some (Request rid' qs (Returns r)) -> ro = Done (DDict r)) ->
    (rid = None ->
     forall rid' qs r, head reqs = Some (Request rid' qs (Returns r)) ->
       (truthy (get_next r) = false ->
        length reqs = 1 /\
        ro = Done (match results r with Some l => DList l | None => empty_value many end)) /\
       (truthy (get_next r) = true -> 0 < fuel -> 2 <= length reqs)) ->
    finish h ro post o ->
    run_shape o h.
End Shape.

(** Lines 88-91 for the result [v] of lines 75-83: the call returns [v],
    unless a cache key was given and [cache.set], which is called outside
    the [try] blocks, raises; that exception then leaves the call. *)
Definition returned_or_cache_raised (E : collaborators) (cfg : config)
    (cache_key : option string) (rid : option resource_id_t) (v : data) (o : outcome data)
    : Prop :=
  (truthy cache_key = false -> o = Done v) /\
  (truthy cache_key = true ->
   match cache_set E (derived_key (default "" cache_key) rid) v (cache_ttl cfg) with
   | Returns _ => o = Done v
   | Raises e => o = Raised e
   end).

(** Lines 43-52 let the call through to line 54: the configuration is
    enabled, and the cache was not consulted or returned nothing truthy. *)
Definition reaches_client (E : collaborators) (cfg : config) (cache_key : option string)
    (rid : option resource_id_t) : Prop :=
  enabled cfg = true /\
  (truthy cache_key = false \/
   exists c, cache_get E (derived_key (default "" cache_key) rid) = Returns c /\
             truthy c = false).

(** The client [a] that line 76 uses: the one the caller passed or, when
    the caller passed none, the one that lines 57-70 build. *)
Definition client_in_use (E : collaborators) (cfg : config) (u : user)
    (api : option api_client) (a : api_client) : Prop :=
  match api with
  | Some a' => a' = a
  | None =>
      exists c jwt,
        Client_objects_get E (OAUTH2_CLIENT_NAME cfg) = Returns c /\
        build_token E u (client_secret c) ["email"; "profile"] (OAUTH_ID_TOKEN_EXPIRATION E)
          (client_id c) = Returns jwt /\
        EdxRestApiClient E (internal_api_url cfg) jwt = Returns a
  end.

(** The exception [x] was caught: the call logged it with [msg] as the last
    thing it did and returned the empty value. *)
Definition caught_and_logged (r : outcome data * heap) (many : bool) (msg : string) (x : exn)
    : Prop :=
  fst r = Done (empty_value many) /\
  last (log (snd r)) = Some (LogException msg x).

(** ** Concrete inputs *)

Definition programs_config : config :=
  {| enabled := true; API_NAME := "programs"; OAUTH2_CLIENT_NAME := "programs";
     internal_api_url := "http://programs.internal/api/v1/"; cache_ttl := 60 |}.

(** A client whose endpoints all serve [pages]. *)
Definition client_serving (pages : nat -> response) : api_client :=
  {| getattr := fun _ => Returns (serve pages) |}.

(** No OAuth2 client record, an empty cache that accepts every write. *)
Definition no_client_record : collaborators :=
  {| cache_get := fun _ => Returns None;
     cache_set := fun _ _ _ => Returns tt;
     Client_objects_get := fun _ => Raises DoesNotExist;
     build_token := fun _ _ _ _ _ => Returns "jwt";
     EdxRestApiClient := fun _ _ => Returns (client_serving three_pages);
     OAUTH_ID_TOKEN_EXPIRATION := 30 |}.

(** The same, with [d] in the cache under every key. *)
Definition caching (d : data) : collaborators :=
  {| cache_get := fun _ => Returns (Some d);
     cache_set := cache_set no_client_record;
     Client_objects_get := Client_objects_get no_client_record;
     build_token := build_token no_client_record;
     EdxRestApiClient := EdxRestApiClient no_client_record;
     OAUTH_ID_TOKEN_EXPIRATION := OAUTH_ID_TOKEN_EXPIRATION no_client_record |}.

(** The same, with a cache whose [get] raises. *)
Definition cache_down : collaborators :=
  {| cache_get := fun _ => Raises (Error "cache unavailable");
     cache_set := cache_set no_client_record;
     Client_objects_get := Client_objects_get no_client_record;
     build_token := build_token no_client_record;
     EdxRestApiClient := EdxRestApiClient no_client_record;
     OAUTH_ID_TOKEN_EXPIRATION := OAUTH_ID_TOKEN_EXPIRATION no_client_record |}.

(** The same, with an OAuth2 client record under every name. *)
Definition with_client_record : collaborators :=
  {| cache_get := cache_get no_client_record;
     cache_set := cache_set no_client_record;
     Client_objects_get := fun _ =>
       Returns {| client_id := "programs-id"; client_secret := "programs-secret" |};
     build_token := build_token no_client_record;
     EdxRestApiClient := EdxRestApiClient no_client_record;
     OAUTH_ID_TOKEN_EXPIRATION := OAUTH_ID_TOKEN_EXPIRATION no_client_record |}.

(** The same as [no_client_record], with a cache that holds nothing and
    whose [set] raises. *)
Definition cache_full : collaborators :=
  {| cache_get := cache_get no_client_record;
     cache_set := fun _ _ _ => Raises (Error "cache full");
     Client_objects_get := Client_objects_get no_client_record;
     build_token := build_token no_client_record;
     EdxRestApiClient := EdxRestApiClient no_client_record;
     OAUTH_ID_TOKEN_EXPIRATION := OAUTH_ID_TOKEN_EXPIRATION no_client_record |}.

(** A client record exists, but the token builder raises. *)
Definition token_builder_down : collaborators :=
  {| cache_get := cache_get no_client_record;
     cache_set := cache_set no_client_record;
     Client_objects_get := Client_objects_get with_client_record;
     build_token := fun _ _ _ _ _ => Raises (Error "no signing key");
     EdxRestApiClient := EdxRestApiClient no_client_record;
     OAUTH_ID_TOKEN_EXPIRATION := OAUTH_ID_TOKEN_EXPIRATION no_client_record |}.

(** Pages of which the first and the third have no ['results'] key. *)
Definition sparse_pages (n : nat) : response :=
  match n with
  | 0 => {| results := None; next := Some (Some "/programs/?page=2"); extra := ∅ |}
  | 1 => {| results := Some ["a"]; next := Some (Some "/programs/?page=3"); extra := ∅ |}
  | _ => {| results := None; next := Some None; extra := ∅ |}
  end.

(** ** Definitions for the further properties *)

(** Line 107 when [results] is the [no_data] list itself: the list [acc] is
    extended with the results of the page or, when the page has none, with
    [acc]. *)
Definition gather (acc : list item) (p : response) : list item :=
  acc ++ default acc (results p).

(** The pages fetched by [d] iterations that follow page [j]. *)
Definition pages_after (pages : nat -> response) (j d : nat) : list response :=
  pages <$> seq (S j) d.

(** An endpoint that answers its requests [1 .. d] after request [j] with
    the pages of those indices, whatever the parameters. *)
Definition answers (ep : endpoint) (pages : nat -> response) (j d : nat) : Prop :=
  forall i rid qs, 1 <= i <= d -> ep (j + i) rid qs = Returns (pages (j + i)).

(** A server that answers [n] requests with [pages] and raises [x] from
    then on. *)
Definition serve_then_raise (pages : nat -> response) (n : nat) (x : exn) : endpoint :=
  fun i _ _ => if Nat.ltb i n then Returns (pages i) else Raises x.

(** Reading and writing the cache. *)
Definition is_cache_access (e : event) : bool :=
  match e with CacheGet _ | CacheSet _ _ _ => true | _ => false end.

(** [E] with another [cache.get]. *)
Definition with_cache_get (g : string -> reply (option data)) (E : collaborators) : collaborators :=
  {| cache_get := g;
     cache_set := cache_set E;
     Client_objects_get := Client_objects_get E;
     build_token := build_token E;
     EdxRestApiClient := EdxRestApiClient E;
     OAUTH_ID_TOKEN_EXPIRATION := OAUTH_ID_TOKEN_EXPIRATION E |}.

(** [E] with a cache that is a dict: [get] returns what the dict holds
    under the key and [set] accepts every write (entries do not expire). *)
Definition with_dict_cache (m : gmap string data) (E : collaborators) : collaborators :=
  {| cache_get := fun k => Returns (m !! k);
     cache_set := fun _ _ _ => Returns tt;
     Client_objects_get := Client_objects_get E;
     build_token := build_token E;
     EdxRestApiClient := EdxRestApiClient E;
     OAUTH_ID_TOKEN_EXPIRATION := OAUTH_ID_TOKEN_EXPIRATION E |}.

(** The dict cache after the writes of a log. *)
Definition cache_after (l : list event) (m : gmap string data) : gmap string data :=
  fold_left (fun m e => match e with CacheSet k v _ => <[k := v]> m | _ => m end) l m.

(** Writing the cache. *)
Definition is_cache_set (e : event) : bool :=
  match e with CacheSet _ _ _ => true | _ => false end.

(** Two stores that hold the same objects and whose logs differ by the
    calls [setup], made after [pre]. *)
Definition same_but (pre setup : list event) (h1 h2 : heap) : Prop :=
  caller_dict h1 = caller_dict h2 /\ fresh_dict h1 = fresh_dict h2 /\
  no_data_obj h1 = no_data_obj h2 /\ first_results h1 = first_results h2 /\
  exists rest, log h1 = pre ++ rest /\ log h2 = pre ++ setup ++ rest.

(** A computation that does not tell such stores apart. *)
Definition alike {A : Type} (pre setup : list event) (m : M A) : Prop :=
  forall h1 h2, same_but pre setup h1 h2 ->
    fst (m h1) = fst (m h2) /\ same_but pre setup (snd (m h1)) (snd (m h2)).

(** The calls of lines 60-70 when each of them returns. *)
Definition client_setup (E : collaborators) (cfg : config) (u : user) (c : client) (jwt : string)
    : list event :=
  [ClientLookup (OAUTH2_CLIENT_NAME cfg);
   BuildToken u (client_secret c) ["email"; "profile"] (OAUTH_ID_TOKEN_EXPIRATION E) (client_id c);
   NewClient (internal_api_url cfg) jwt].

(** The stores of two calls that differ in [many] only: the same but for
    the [no_data] object, a list in one and a dict in the other, both still
    empty. *)
Definition twin (h1 h2 : heap) : Prop :=
  caller_dict h1 = caller_dict h2 /\ fresh_dict h1 = fresh_dict h2 /\
  first_results h1 = first_results h2 /\ log h1 = log h2 /\
  no_data_obj h1 = NoDataList [] /\ no_data_obj h2 = NoDataDict.

(** A computation that goes the same way in both. *)
Definition twins {A : Type} (m : M A) : Prop :=
  forall h1 h2, twin h1 h2 -> fst (m h1) = fst (m h2) /\ twin (snd (m h1)) (snd (m h2)).

(** The same outcome, or the two empty values. *)
Definition same_or_empty (o1 o2 : outcome data) : Prop :=
  o1 = o2 \/ (o1 = Done (DList []) /\ o2 = Done (DDict empty_dict)).

(** ** Basic facts *)

Lemma truthy_gmap_false {V : Type} (m : gmap string V) : truthy m = false <-> m = ∅.
Proof.
  unfold truthy, truthy_gmap. rewrite negb_false_iff, bool_decide_eq_true.
  apply map_to_list_empty_iff.
Qed.

Lemma truthy_next_absent (r : response) :
  next r = None \/ next r = Some None -> truthy (get_next r) = false.
Proof. unfold get_next. intros [-> | ->]; reflexivity. Qed.

Lemma requests_app (l1 l2 : list event) : requests (l1 ++ l2) = requests l1 ++ requests l2.
Proof. unfold requests. apply filter_app. Qed.

Lemma requests_request rid qs r : requests [Request rid qs r] = [Request rid qs r].
Proof. reflexivity. Qed.

Lemma requests_all (l : list event) :
  Forall (fun e => is_request e = true) l -> requests l = l.
Proof.
  induction 1 as [| e l He _ IH]; [reflexivity |].
  unfold requests in *. rewrite filter_cons_True by exact He. by rewrite IH.
Qed.

Lemma bind_run {A B : Type} (m : M A) (f : A -> M B) (h : heap) :
  (m ≫= f) h =
  match m h with
  | (Done a, h') => f a h'
  | (Raised e, h') => (Raised e, h')
  | (OutOfFuel, h') => (OutOfFuel, h')
  end.
Proof. reflexivity. Qed.

Lemma pagination_loop_stop fuel ep q res page nxt h :
  truthy nxt = false -> pagination_loop fuel ep q res page nxt h = (Done tt, h).
Proof. intros H. destruct fuel; simpl; rewrite H; reflexivity. Qed.

Lemma pagination_loop_step fuel ep q res page (nxt : option string) h :
  truthy nxt = true ->
  pagination_loop (S fuel) ep q res page nxt h =
  (setitem q "page" (QInt (page + 1)) ;;
   response ← endpoint_get ep None q;
   iadd_results res response ;;
   pagination_loop fuel ep q res (page + 1) (get_next response)) h.
Proof. intros H. simpl. rewrite H. reflexivity. Qed.

Lemma pagination_loop_out_of_fuel ep q res page (nxt : option string) h :
  truthy nxt = true -> pagination_loop 0 ep q res page nxt h = (OutOfFuel, h).
Proof. intros H. simpl. rewrite H. reflexivity. Qed.

#[global] Arguments requests : simpl never.

(** ** The loop: what it logs and what it writes *)

Lemma deref_setitem q key v h :
  deref_querystring q (snd (setitem q key v h)) = <[key := v]> (deref_querystring q h).
Proof. destruct q; reflexivity. Qed.

(** Every iteration writes [page] into the dict [querystring] refers to and
    then issues one request with it; nothing else is logged.  This holds
    however the loop ends. *)
Lemma pagination_loop_frame fuel : forall ep q res page nxt h o h',
  pagination_loop fuel ep q res page nxt h = (o, h') ->
  exists evs,
    log h' = log h ++ evs /\
    (forall i e, evs !! i = Some e ->
       exists r, e = Request None
                       (<["page" := QInt (page + 1 + Z.of_nat i)]> (deref_querystring q h)) r) /\
    deref_querystring q h' =
      match evs with
      | [] => deref_querystring q h
      | _ :: _ => <["page" := QInt (page + Z.of_nat (length evs))]> (deref_querystring q h)
      end /\
    caller_dict h' =
      match q, evs with
      | CallerDict, _ :: _ => Some (deref_querystring q h')
      | _, _ => caller_dict h
      end /\
    (res = FirstResults -> no_data_obj h' = no_data_obj h) /\
    (no_data_obj h = NoDataDict -> no_data_obj h' = NoDataDict).
Proof.
  induction fuel as [| fuel IH]; intros ep q res page nxt h o h' Hrun.
  - exists []. simpl in Hrun. destruct (truthy nxt); inversion Hrun; subst.
    all: rewrite app_nil_r; repeat split; try done; by destruct q.
  - destruct (truthy nxt) eqn:Hn.
    2:{ rewrite pagination_loop_stop in Hrun by done. inversion Hrun; subst.
        exists []. rewrite app_nil_r. repeat split; try done; by destruct q. }
    rewrite pagination_loop_step in Hrun by done.
    rewrite bind_run in Hrun.
    pose proof (deref_setitem q "page" (QInt (page + 1)) h) as Hd.
    destruct (setitem q "page" (QInt (page + 1)) h) as [o1 h1] eqn:Hs.
    assert (o1 = Done tt /\ log h1 = log h /\ no_data_obj h1 = no_data_obj h /\
            caller_dict h1 = match q with
                             | CallerDict => Some (deref_querystring q h1)
                             | FreshDict => caller_dict h
                             end) as (-> & Hl1 & Hnd1 & Hc1).
    { unfold setitem in Hs. inversion Hs; subst. by destruct q. }
    simpl in Hd. rewrite bind_run in Hrun. unfold endpoint_get in Hrun.
    set (e0 := Request None (deref_querystring q h1)
                 (ep (length (requests (log h1))) None (deref_querystring q h1))) in *.
    assert (Hfirst : forall i e, [e0] !! i = Some e ->
              exists r, e = Request None
                (<["page" := QInt (page + 1 + Z.of_nat i)]> (deref_querystring q h)) r).
    { intros [| i] e He; [| done]. inversion He; subst. unfold e0. rewrite Hd.
      replace (page + 1 + Z.of_nat 0)%Z with (page + 1)%Z by lia. eauto. }
    assert (Hone : forall ho : heap,
              log ho = log h1 ++ [e0] -> deref_querystring q ho = deref_querystring q h1 ->
              caller_dict ho = caller_dict h1 ->
              (res = FirstResults -> no_data_obj ho = no_data_obj h1) ->
              (no_data_obj h1 = NoDataDict -> no_data_obj ho = NoDataDict) ->
              exists evs, log ho = log h ++ evs /\
                (forall i e, evs !! i = Some e ->
                   exists r, e = Request None
                     (<["page" := QInt (page + 1 + Z.of_nat i)]> (deref_querystring q h)) r) /\
                deref_querystring q ho =
                  match evs with
                  | [] => deref_querystring q h
                  | _ :: _ => <["page" := QInt (page + Z.of_nat (length evs))]> (deref_querystring q h)
                  end /\
                caller_dict ho =
                  match q, evs with
                  | CallerDict, _ :: _ => Some (deref_querystring q ho)
                  | _, _ => caller_dict h
                  end /\
                (res = FirstResults -> no_data_obj ho = no_data_obj h) /\
                (no_data_obj h = NoDataDict -> no_data_obj ho = NoDataDict)).
    { intros ho H1 H2 H3 H4 H5. exists [e0]. rewrite H1, Hl1, H2, Hd, H3, Hc1, Hnd1 in *.
      repeat split; done. }
    destruct (ep (length (requests (log h1))) None (deref_querystring q h1)) as [resp | x] eqn:Hep;
      simpl in Hrun.
    2:{ inversion Hrun; subst. apply Hone; by destruct q. }
    rewrite bind_run in Hrun.
    destruct (iadd_results res resp (emit e0 h1)) as [o2 h2] eqn:Hi.
    assert (log h2 = log h1 ++ [e0] /\ deref_querystring q h2 = deref_querystring q h1 /\
            caller_dict h2 = caller_dict h1 /\
            (res = FirstResults -> no_data_obj h2 = no_data_obj h1) /\
            (no_data_obj h1 = NoDataDict -> no_data_obj h2 = NoDataDict) /\
            (o2 = Done tt \/ o2 = Raised TypeError)) as (Hl2 & Hd2 & Hc2 & Hf2 & Hn2 & Ho2).
    { unfold iadd_results in Hi. destruct res; simpl in Hi.
      - destruct (no_data_obj h1) eqn:Hnd; inversion Hi; subst; simpl;
          repeat split; try done; try (by destruct q); auto.
      - inversion Hi; subst; simpl. repeat split; try done; try (by destruct q); auto. }
    destruct Ho2 as [-> | ->].
    2:{ inversion Hrun; subst. by apply Hone. }
    apply IH in Hrun as (evs & Hl & Hev & Hd' & Hc' & Hf' & Hn').
    exists (e0 :: evs). rewrite Hl, Hl2, Hl1, <- app_assoc. split; [done |].
    rewrite Hd2, Hd in *. split.
    { intros [| i] e He; [by apply (Hfirst 0) |]. simpl in He.
      destruct (Hev i e He) as [r ->]. exists r. f_equal.
      rewrite insert_insert_eq. do 2 f_equal; lia. }
    split.
    { rewrite Hd'. destruct evs as [| e1 evs]; simpl length.
      - do 2 f_equal; lia.
      - rewrite insert_insert_eq. do 2 f_equal; lia. }
    split.
    { rewrite Hc'. destruct q, evs; rewrite ?Hc2, ?Hc1; try done.
      by rewrite Hd'. }
    split.
    { intros Hr. rewrite Hf', Hf2, Hnd1; done. }
    intros Hr. apply Hn', Hn2. congruence.
Qed.

(** An iteration that starts logs at least its request. *)
Lemma pagination_loop_progress fuel ep q res page (nxt : option string) h o h' :
  truthy nxt = true ->
  pagination_loop (S fuel) ep q res page nxt h = (o, h') ->
  length (log h) < length (log h').
Proof.
  intros Hn Hrun. rewrite pagination_loop_step in Hrun by done.
  rewrite bind_run in Hrun.
  destruct (setitem q "page" (QInt (page + 1)) h) as [o1 h1] eqn:Hs.
  assert (o1 = Done tt /\ log h1 = log h) as (-> & Hl1).
  { unfold setitem in Hs. inversion Hs; subst. by destruct q. }
  rewrite bind_run in Hrun. unfold endpoint_get, call in Hrun.
  set (e0 := Request _ _ _) in Hrun.
  destruct (ep (length (requests (log h1))) None (deref_querystring q h1)) as [resp | x].
  2:{ inversion Hrun; subst. simpl. rewrite length_app, Hl1. simpl. lia. }
  rewrite bind_run in Hrun.
  destruct (iadd_results res resp (emit e0 h1)) as [o2 h2] eqn:Hi.
  assert (log h2 = log h1 ++ [e0]) as Hl2.
  { unfold iadd_results in Hi. destruct res; [destruct (no_data_obj (emit e0 h1)) |];
      by inversion Hi; subst. }
  destruct o2 as [[] | x |].
  - apply pagination_loop_frame in Hrun as (evs & Hl & _).
    rewrite Hl, Hl2, Hl1, !length_app. simpl. lia.
  - inversion Hrun; subst. rewrite Hl2, Hl1, length_app. simpl. lia.
  - inversion Hrun; subst. rewrite Hl2, Hl1, length_app. simpl. lia.
Qed.

(** ** The loop against a server of pages *)

Section Serve.
Variable pages : nat -> response.

Lemma pagination_loop_serve_step fuel q page j h :
  truthy (get_next (pages j)) = true ->
  length (requests (log h)) = S j ->
  results (pages (S j)) <> None ->
  pagination_loop (S fuel) (serve pages) q FirstResults page (get_next (pages j)) h =
  pagination_loop fuel (serve pages) q FirstResults (page + 1) (get_next (pages (S j)))
    (after_page pages q page j h).
Proof.
  intros Hn Hlen Hres. rewrite pagination_loop_step by done.
  rewrite bind_run. unfold after_page.
  destruct (setitem q "page" (QInt (page + 1)) h) as [o1 h1] eqn:Hs.
  assert (o1 = Done tt /\ log h1 = log h /\ first_results h1 = first_results h)
    as (-> & Hl1 & Hf1).
  { unfold setitem in Hs. inversion Hs; subst. by destruct q. }
  simpl snd. rewrite bind_run. unfold endpoint_get, serve. simpl.
  rewrite Hl1, Hlen. rewrite bind_run. unfold iadd_results. simpl.
  destruct (results (pages (S j))) as [l |] eqn:Hr; [| done].
  simpl. by rewrite Hf1.
Qed.

Lemma after_page_requests q page j h :
  length (requests (log h)) = S j ->
  length (requests (log (after_page pages q page j h))) = S (S j).
Proof.
  intros Hlen. unfold after_page. destruct q; simpl.
  all: rewrite requests_app, length_app, Hlen; simpl; lia.
Qed.

Lemma after_page_first_results q page j h :
  first_results (after_page pages q page j h) =
  first_results h ++ default [] (results (pages (S j))).
Proof. reflexivity. Qed.

Lemma after_page_no_data q page j h :
  no_data_obj (after_page pages q page j h) = no_data_obj h.
Proof. unfold after_page. simpl. by destruct q. Qed.

(** With [d] more pages to fetch and enough fuel, the loop returns, having
    made [d] requests and appended the results of the [d] pages. *)
Lemma pagination_loop_serve d : forall fuel q page j h,
  length (requests (log h)) = S j ->
  (forall i, i < d -> truthy (get_next (pages (j + i))) = true) ->
  truthy (get_next (pages (j + d))) = false ->
  (forall i, 1 <= i <= d -> results (pages (j + i)) <> None) ->
  d <= fuel ->
  exists h',
    pagination_loop fuel (serve pages) q FirstResults page (get_next (pages j)) h = (Done tt, h') /\
    first_results h' =
      first_results h ++ concat ((fun i => default [] (results (pages (j + i)))) <$> seq 1 d) /\
    length (requests (log h')) = S j + d /\
    no_data_obj h' = no_data_obj h.
Proof.
  induction d as [| d IH]; intros fuel q page j h Hlen Htrue Hfalse Hres Hfuel.
  - exists h. rewrite Nat.add_0_r in Hfalse. rewrite pagination_loop_stop by done.
    simpl. rewrite app_nil_r. repeat split; lia.
  - destruct fuel as [| fuel]; [lia |].
    rewrite pagination_loop_serve_step; try done.
    2:{ specialize (Htrue 0). rewrite Nat.add_0_r in Htrue. apply Htrue. lia. }
    2:{ specialize (Hres 1). rewrite Nat.add_1_r in Hres. apply Hres. lia. }
    destruct (IH fuel q (page + 1)%Z (S j) (after_page pages q page j h)) as (h' & Hrun & Hf & Hl & Hn).
    + by apply after_page_requests.
    + intros i Hi. replace (S j + i) with (j + S i) by lia. apply Htrue. lia.
    + replace (S j + d) with (j + S d) by lia. done.
    + intros i Hi. replace (S j + i) with (j + S i) by lia. apply Hres. lia.
    + lia.
    + exists h'. split; [done |]. rewrite Hf, Hl, Hn, after_page_first_results, after_page_no_data.
      repeat split; [| lia].
      rewrite <- app_assoc. f_equal. simpl. rewrite Nat.add_1_r. f_equal.
      rewrite <- (fmap_S_seq 1 d), <- list_fmap_compose. f_equal.
      apply list_fmap_ext. intros _ i _. simpl. by replace (j + S i) with (S (j + i)) by lia.
Qed.

(** With fewer units of fuel than pages left to fetch, the loop is still
    running when the fuel runs out. *)
Lemma pagination_loop_serve_out_of_fuel fuel : forall q page j h,
  length (requests (log h)) = S j ->
  (forall i, i <= fuel -> truthy (get_next (pages (j + i))) = true) ->
  (forall i, 1 <= i <= fuel -> results (pages (j + i)) <> None) ->
  fst (pagination_loop fuel (serve pages) q FirstResults page (get_next (pages j)) h) = OutOfFuel.
Proof.
  induction fuel as [| fuel IH]; intros q page j h Hlen Htrue Hres.
  - rewrite pagination_loop_out_of_fuel; [done |].
    specialize (Htrue 0). rewrite Nat.add_0_r in Htrue. apply Htrue. lia.
  - rewrite pagination_loop_serve_step; try done.
    2:{ specialize (Htrue 0). rewrite Nat.add_0_r in Htrue. apply Htrue. lia. }
    2:{ specialize (Hres 1). rewrite Nat.add_1_r in Hres. apply Hres. lia. }
    apply IH.
    + by apply after_page_requests.
    + intros i Hi. replace (S j + i) with (j + S i) by lia. apply Htrue. lia.
    + intros i Hi. replace (S j + i) with (j + S i) by lia. apply Hres. lia.
Qed.
End Serve.

(** ** Searching a chain of pages *)

Lemma least_false (f : nat -> bool) (k : nat) :
  f k = false -> exists j, f j = false /\ forall i, i < j -> f i = true.
Proof.
  revert f. induction k as [| k IH]; intros f Hk.
  - exists 0. split; [done | lia].
  - destruct (f 0) eqn:H0.
    + destruct (IH (fun i => f (S i)) Hk) as (j & Hj & Hlt).
      exists (S j). split; [done |]. intros [| i] Hi; [done |]. apply Hlt. lia.
    + exists 0. split; [done | lia].
Qed.

Lemma bounded_search (f : nat -> bool) (n : nat) :
  (forall i, i <= n -> f i = true) \/ (exists i, i <= n /\ f i = false).
Proof.
  induction n as [| n [IH | (i & Hi & Hf)]].
  - destruct (f 0) eqn:H0.
    + left. intros i Hi. by replace i with 0 by lia.
    + right. exists 0. done.
  - destruct (f (S n)) eqn:Hn.
    + left. intros i Hi. destruct (decide (i = S n)) as [-> |]; [done |]. apply IH. lia.
    + right. exists (S n). done.
  - right. exists i. split; [lia | done].
Qed.

Lemma chain_last_page (n : nat) : last_page (chain n) n.
Proof.
  split.
  - unfold chain, get_next. simpl. by rewrite Nat.ltb_irrefl.
  - intros i Hi. unfold chain, get_next. simpl.
    destruct (Nat.ltb_spec i n); [done | lia].
Qed.

(** ** [_traverse_pagination] against a server of pages *)

Lemma traverse_pagination_serve (pages : nat -> response) (k fuel : nat)
    (q : querystring_ref) (h : heap) :
  length (requests (log h)) = 1 ->
  last_page pages k ->
  (forall i, i <= k -> results (pages i) <> None) ->
  k <= fuel ->
  exists h',
    _traverse_pagination fuel (pages 0) (serve pages) q h =
      (Done (DList (concat_results pages k)), h') /\
    length (requests (log h')) = S k.
Proof.
  intros Hlen [Hfalse Htrue] Hres Hfuel.
  unfold _traverse_pagination. rewrite bind_run. unfold bind_results.
  destruct (results (pages 0)) as [l0 |] eqn:H0; [| by destruct (Hres 0); [lia |]].
  rewrite bind_run.
  destruct (pagination_loop_serve pages k fuel q 1%Z 0 (set_first_results l0 h))
    as (h' & Hrun & Hf & Hl & _); try done.
  - intros i Hi. apply Hres. lia.
  - rewrite Hrun. exists h'. split; [| done].
    unfold deref_results. rewrite Hf. simpl. unfold concat_results.
    rewrite <- cons_seq, fmap_cons. simpl. by rewrite H0.
Qed.

Lemma traverse_pagination_out_of_fuel (pages : nat -> response) (fuel : nat)
    (q : querystring_ref) (h : heap) :
  length (requests (log h)) = 1 ->
  (forall i, i <= fuel -> truthy (get_next (pages i)) = true) ->
  (forall i, results (pages i) <> None) ->
  fst (_traverse_pagination fuel (pages 0) (serve pages) q h) = OutOfFuel.
Proof.
  intros Hlen Htrue Hres.
  unfold _traverse_pagination. rewrite bind_run. unfold bind_results.
  destruct (results (pages 0)) as [l0 |] eqn:H0; [| by destruct (Hres 0)].
  rewrite bind_run.
  pose proof (pagination_loop_serve_out_of_fuel pages fuel q 1%Z 0 (set_first_results l0 h))
    as Hrun.
  destruct (pagination_loop fuel (serve pages) q FirstResults 1 (get_next (pages 0))
              (set_first_results l0 h)) as [o h'].
  simpl in Hrun. by rewrite Hrun.
Qed.

(** ** Facts about the concrete pages *)

Lemma three_pages_last : last_page three_pages 2.
Proof.
  split; [reflexivity |]. intros [| [| i]] Hi; [reflexivity | reflexivity | lia].
Defined.

Lemma three_pages_results (i : nat) : results (three_pages i) <> None.
Proof. destruct i as [| [| i]]; discriminate. Defined.

(** ** The claims about the pagination traversal *)

(** C1.  The endpoint answers its requests with the pages [pages 0],
    [pages 1], ...; [pages 0] is the initial response (the one request made
    before the traversal is in the log) and page [k] is the first whose
    [next] is absent, null or otherwise falsy.  If every page up to [k]
    carries a [results] list, the traversal, given enough fuel to make its
    [k] iterations, returns the concatenation of the [results] of pages
    [0..k], in page order. *)
Theorem traverse_pagination_concat (pages : nat -> response) (k fuel : nat)
    (q : querystring_ref) (h : heap) :
  length (requests (log h)) = 1 ->
  last_page pages k ->
  (forall i, i <= k -> results (pages i) <> None) ->
  k <= fuel ->
  fst (_traverse_pagination fuel (pages 0) (serve pages) q h) =
  Done (DList (concat ((fun i => default [] (results (pages i))) <$> seq 0 (S k)))).
Proof.
  intros Hlen Hlast Hres Hfuel.
  destruct (traverse_pagination_serve pages k fuel q h) as (h' & Hrun & _); try done.
  by rewrite Hrun.
Qed.

Lemma traverse_pagination_concat_witness :
  length (requests (log (first_page_fetched three_pages))) = 1 /\
  last_page three_pages 2 /\
  (forall i, i <= 2 -> results (three_pages i) <> None) /\
  2 <= 2 /\
  fst (_traverse_pagination 2 (three_pages 0) (serve three_pages) FreshDict
         (first_page_fetched three_pages)) =
  Done (DList ["a"; "b"; "c"; "d"; "e"]).
Proof.
  assert (H1 : length (requests (log (first_page_fetched three_pages))) = 1) by reflexivity.
  assert (H3 : forall i, i <= 2 -> results (three_pages i) <> None)
    by (intros i _; apply three_pages_results).
  assert (H4 : 2 <= 2) by lia.
  split; [exact H1 |]. split; [exact three_pages_last |]. split; [exact H3 |].
  split; [exact H4 |].
  exact (traverse_pagination_concat three_pages 2 2 FreshDict
           (first_page_fetched three_pages) H1 three_pages_last H3 H4).
Defined.

(** C9.  Against a server of pages that all carry a [results] list (the
    initial response [pages 0] being the one request in the log), the
    traversal terminates exactly when some page of the chain has an absent,
    null or otherwise falsy [next]: some amount of fuel lets it finish if and
    only if there is such a page.  When page [k] is the first such page, it
    returns after [k] iterations, having seen [k + 1] pages ([k] of them
    requested by the loop), and no smaller amount of fuel lets it return.
    Chains with their last page at any index [n] exist, so the number of
    iterations has no bound of its own. *)
Theorem traverse_pagination_terminates (q : querystring_ref) (h : heap) :
  length (requests (log h)) = 1 ->
  (forall pages, (forall i, results (pages i) <> None) ->
     ((exists fuel, fst (_traverse_pagination fuel (pages 0) (serve pages) q h) <> OutOfFuel) <->
      (exists k, truthy (get_next (pages k)) = false))) /\
  (forall pages k, (forall i, results (pages i) <> None) -> last_page pages k ->
     forall fuel,
       (k <= fuel ->
        exists v h', _traverse_pagination fuel (pages 0) (serve pages) q h = (Done v, h') /\
                     length (requests (log h')) = S k) /\
       (fuel < k ->
        fst (_traverse_pagination fuel (pages 0) (serve pages) q h) = OutOfFuel)) /\
  (forall n, exists pages, (forall i, results (pages i) <> None) /\ last_page pages n).
Proof.
  intros Hlen. split; [| split].
  - intros pages Hres. split.
    + intros [fuel Hfuel].
      destruct (bounded_search (fun i => truthy (get_next (pages i))) fuel)
        as [Hall | (i & _ & Hi)]; [| by exists i].
      destruct Hfuel. by apply traverse_pagination_out_of_fuel.
    + intros [k0 Hk0].
      destruct (least_false (fun i => truthy (get_next (pages i))) k0 Hk0) as (k & Hk & Hlt).
      exists k.
      destruct (traverse_pagination_serve pages k k q h) as (h' & Hrun & _); try done.
      by rewrite Hrun.
  - intros pages k Hres Hlast fuel. split.
    + intros Hfuel.
      destruct (traverse_pagination_serve pages k fuel q h) as (h' & Hrun & Hl); try done.
      eauto.
    + intros Hfuel. apply traverse_pagination_out_of_fuel; try done.
      intros i Hi. apply Hlast. lia.
  - intros n. exists (chain n). split; [done |]. apply chain_last_page.
Qed.

Lemma traverse_pagination_terminates_witness :
  length (requests (log (first_page_fetched three_pages))) = 1 /\
  (exists v h',
     _traverse_pagination 2 (three_pages 0) (serve three_pages) FreshDict
       (first_page_fetched three_pages) = (Done v, h') /\
     length (requests (log h')) = 3) /\
  fst (_traverse_pagination 1 (three_pages 0) (serve three_pages) FreshDict
         (first_page_fetched three_pages)) = OutOfFuel.
Proof.
  assert (H1 : length (requests (log (first_page_fetched three_pages))) = 1) by reflexivity.
  pose proof (traverse_pagination_terminates FreshDict (first_page_fetched three_pages) H1)
    as (_ & Hexact & _).
  destruct (Hexact three_pages 2 three_pages_results three_pages_last 2) as [Hdone _].
  destruct (Hexact three_pages 2 three_pages_results three_pages_last 1) as [_ Hout].
  split; [exact H1 |]. split; [apply Hdone; lia | apply Hout; lia].
Defined.

(** ** [retrieve]: the requests of one call *)

Lemma retrieve_frame fuel api resource rid querystring h o h' :
  retrieve fuel api resource rid querystring h = (o, h') ->
  let q := if truthy querystring then CallerDict else FreshDict in
  let qs0 := deref_querystring q h in
  exists reqs,
    log h' = log h ++ GetAttr resource :: reqs /\
    Forall (fun e => is_request e = true) reqs /\
    (forall i e, reqs !! i = Some e -> nth_request rid qs0 i e) /\
    caller_dict h' =
      match q with
      | CallerDict =>
          if decide (2 <= length reqs)
          then Some (<["page" := QInt (Z.of_nat (length reqs))]> qs0)
          else caller_dict h
      | FreshDict => caller_dict h
      end /\
    (first_page_has_results reqs -> no_data_obj h' = no_data_obj h) /\
    (no_data_obj h = NoDataDict -> no_data_obj h' = NoDataDict) /\
    (forall v, o = Done v -> reqs <> []) /\
    (forall i, rid = Some i ->
       length reqs <= 1 /\
       forall rid' qs r, head reqs = Some (Request rid' qs (Returns r)) -> o = Done (DDict r)) /\
    (rid = None ->
     forall rid' qs r, head reqs = Some (Request rid' qs (Returns r)) ->
       (truthy (get_next r) = false ->
        length reqs = 1 /\
        o = Done (match results r with
                  | Some l => DList l
                  | None => data_of_no_data (no_data_obj h)
                  end)) /\
       (truthy (get_next r) = true -> 0 < fuel -> 2 <= length reqs)).
Proof.
  intros Hrun q qs0. unfold retrieve in Hrun. rewrite bind_run in Hrun.
  fold q in Hrun. unfold call at 1 in Hrun.
  destruct (getattr api resource) as [ep | x].
  2:{ inversion Hrun; subst. exists []. simpl.
      repeat split; try done; try (by destruct q); simpl; lia. }
  rewrite bind_run in Hrun. unfold endpoint_get in Hrun.
  change (deref_querystring q (emit (GetAttr resource) h)) with qs0 in Hrun.
  set (e0 := Request rid qs0 (ep (length (requests (log (emit (GetAttr resource) h)))) rid qs0)) in *.
  assert (H0 : nth_request rid qs0 0 e0) by (by eexists).
  destruct (ep (length (requests (log (emit (GetAttr resource) h)))) rid qs0) as [resp | x] eqn:Hep;
    simpl in Hrun.
  2:{ inversion Hrun; subst. exists [e0]. simpl. rewrite <- app_assoc.
      repeat split; try done; try (by destruct q); try (simpl; lia).
      - by repeat constructor.
      - intros [| i] e He; [by inversion He; subst | done]. }
  destruct rid as [i |].
  { inversion Hrun; subst. exists [e0]. simpl. rewrite <- app_assoc.
    repeat split; try done; try (by destruct q); try (simpl; lia).
    - by repeat constructor.
    - intros [| j] e He; [by inversion He; subst | done].
    - intros rid' qs r Hh. unfold e0 in Hh. by inversion Hh; subst. }
  unfold _traverse_pagination in Hrun. rewrite bind_run in Hrun.
  set (h1 := emit e0 (emit (GetAttr resource) h)) in *.
  destruct (bind_results resp h1) as [o2 h2] eqn:Hb.
  assert (o2 = Done (match results resp with Some _ => FirstResults | None => NoDataObj end) /\
          log h2 = log h1 /\ deref_querystring q h2 = qs0 /\ caller_dict h2 = caller_dict h /\
          no_data_obj h2 = no_data_obj h) as (-> & Hl2 & Hd2 & Hc2 & Hn2).
  { unfold bind_results in Hb. destruct (results resp); inversion Hb; subst; simpl.
    all: repeat split; by destruct q. }
  rewrite bind_run in Hrun.
  destruct (pagination_loop fuel ep q _ 1 (get_next resp) h2) as [o3 h3] eqn:Hloop.
  pose proof Hloop as Hloop'.
  apply pagination_loop_frame in Hloop as (evs & Hl3 & Hev & Hd3 & Hc3 & Hf3 & Hn3).
  assert (Hfacts : log h3 = log h ++ GetAttr resource :: e0 :: evs /\
            Forall (fun e => is_request e = true) (e0 :: evs) /\
            (forall i e, (e0 :: evs) !! i = Some e -> nth_request None qs0 i e) /\
            caller_dict h3 =
              match q with
              | CallerDict =>
                  if decide (2 <= length (e0 :: evs))
                  then Some (<["page" := QInt (Z.of_nat (length (e0 :: evs)))]> qs0)
                  else caller_dict h
              | FreshDict => caller_dict h
              end /\
            (first_page_has_results (e0 :: evs) -> no_data_obj h3 = no_data_obj h) /\
            (no_data_obj h = NoDataDict -> no_data_obj h3 = NoDataDict)).
  { rewrite Hl3, Hl2. unfold h1. simpl. rewrite <- !app_assoc. simpl.
    split; [done |]. split.
    { constructor; [done |]. apply Forall_lookup. intros i e He.
      destruct (Hev i e He) as [r ->]. done. }
    split.
    { intros [| i] e He; [by inversion He; subst |]. simpl in He.
      destruct (Hev i e He) as [r ->]. exists r. rewrite Hd2. do 3 f_equal. lia. }
    split.
    { rewrite Hc3, Hd3, Hd2, Hc2. destruct q; [| done].
      destruct evs as [| e1 evs]; simpl length.
      - by rewrite decide_False by lia.
      - rewrite decide_True by lia. do 4 f_equal. lia. }
    split.
    { intros Hfp. rewrite <- Hn2. apply Hf3.
      specialize (Hfp None qs0 resp eq_refl). by destruct (results resp). }
    intros Hnd. apply Hn3. by rewrite Hn2. }
  destruct Hfacts as (F1 & F2 & F3 & F4 & F5 & F6).
  assert (log h' = log h3 /\ caller_dict h' = caller_dict h3 /\ no_data_obj h' = no_data_obj h3)
    as (-> & -> & ->).
  { destruct o3; try (by inversion Hrun; subst).
    unfold deref_results in Hrun. destruct (results resp); by inversion Hrun; subst. }
  exists (e0 :: evs). split; [done |]. split; [done |]. split; [done |]. split; [done |].
  split; [done |]. split; [done |]. split; [done |]. split; [done |].
  intros _ rid' qs r Hh. inversion Hh; subst r. clear Hh. split.
  - intros Hn. rewrite pagination_loop_stop in Hloop' by done.
    inversion Hloop'; subst o3 h3.
    assert (evs = []) as ->.
    { apply (f_equal length) in Hl3. rewrite length_app in Hl3.
      destruct evs; [done | simpl in Hl3; lia]. }
    split; [done |]. simpl in Hrun. unfold deref_results in Hrun.
    unfold bind_results in Hb.
    destruct (results resp); inversion Hrun; subst; inversion Hb; subst; [done |].
    by rewrite Hn2.
  - intros Hn Hfuel. destruct fuel as [| fuel]; [lia |].
    apply pagination_loop_progress in Hloop'; [| done].
    rewrite Hl3, length_app in Hloop'. destruct evs; simpl in *; lia.
Qed.

(** ** [ensure_client]: building the client *)

Lemma emits_nil h : emits [] h = h.
Proof. destruct h. unfold emits. simpl. by rewrite app_nil_r. Qed.

Lemma emit_emits e evs h : emit e (emits evs h) = emits (evs ++ [e]) h.
Proof. unfold emit, emits. simpl. by rewrite app_assoc. Qed.

Lemma emit_is_emits e h : emit e h = emits [e] h.
Proof. reflexivity. Qed.

Lemma build_client_lookup_raises E cfg u h x :
  Client_objects_get E (OAUTH2_CLIENT_NAME cfg) = Raises x ->
  build_client E cfg u h =
  (Raised (lookup_error (OAUTH2_CLIENT_NAME cfg) x),
   emit (ClientLookup (OAUTH2_CLIENT_NAME cfg)) h).
Proof.
  intros Hx. unfold build_client. rewrite bind_run.
  unfold try_except_DoesNotExist, call. rewrite Hx. by destruct x.
Qed.

Lemma emits_emits l1 l2 h : emits l2 (emits l1 h) = emits (l1 ++ l2) h.
Proof. unfold emits. simpl. by rewrite app_assoc. Qed.

Ltac norm_emits := rewrite ?emit_is_emits, ?emits_emits; simpl app.

Ltac exists_setup evs Hrun x :=
  split;
  [ try destruct x; by inversion Hrun
  | exists evs; split;
    [ try destruct x; inversion Hrun; subst; norm_emits; reflexivity
    | by repeat constructor ] ].

Lemma build_client_frame E cfg u h o h' :
  build_client E cfg u h = (o, h') ->
  o <> OutOfFuel /\ exists evs, h' = emits evs h /\ Forall (fun e => is_setup e = true) evs.
Proof.
  unfold build_client. rewrite bind_run. unfold try_except_DoesNotExist, call.
  destruct (Client_objects_get E (OAUTH2_CLIENT_NAME cfg)) as [c | x].
  2:{ intros Hrun. exists_setup [ClientLookup (OAUTH2_CLIENT_NAME cfg)] Hrun x. }
  rewrite bind_run.
  set (e1 := BuildToken _ _ _ _ _).
  destruct (build_token E u (client_secret c) ["email"; "profile"]
              (OAUTH_ID_TOKEN_EXPIRATION E) (client_id c)) as [jwt | x].
  2:{ intros Hrun. exists_setup [ClientLookup (OAUTH2_CLIENT_NAME cfg); e1] Hrun x. }
  set (e2 := NewClient _ _).
  destruct (EdxRestApiClient E (internal_api_url cfg) jwt) as [a | x]; intros Hrun.
  all: exists_setup [ClientLookup (OAUTH2_CLIENT_NAME cfg); e1; e2] Hrun x.
Qed.

Lemma ensure_client_frame E cfg u api h o h' :
  ensure_client E cfg u api h = (o, h') ->
  o <> OutOfFuel /\ exists evs, h' = emits evs h /\ Forall (fun e => is_setup e = true) evs.
Proof.
  unfold ensure_client. destruct api as [a |]; simpl; [| apply build_client_frame].
  intros Hrun. inversion Hrun; subst. split; [done |]. exists []. by rewrite emits_nil.
Qed.

(** ** The shape of a call *)


Lemma fmap_run {A B : Type} (f : A -> B) (m : M A) (h : heap) :
  (f <$> m) h =
  match m h with
  | (Done a, h') => (Done (f a), h')
  | (Raised e, h') => (Raised e, h')
  | (OutOfFuel, h') => (OutOfFuel, h')
  end.
Proof. reflexivity. Qed.

Lemma truthy_derived_key (k : string) (rid : option resource_id_t) :
  truthy k = true -> truthy (derived_key k rid) = true.
Proof. destruct k; [done |]. by destruct rid. Qed.

Lemma query_params_deref (querystring : option (gmap string qval)) (h : heap) :
  caller_dict h = querystring -> fresh_dict h = ∅ ->
  deref_querystring (if truthy querystring then CallerDict else FreshDict) h =
  query_params querystring.
Proof.
  intros Hc Hf. unfold query_params. destruct (truthy querystring); simpl; by rewrite ?Hc, ?Hf.
Qed.

Lemma fetch_shape fuel E cfg u resource api rid querystring cache_key many ck pre h o h' :
  enabled cfg = true ->
  cache_missed E rid cache_key pre ->
  truthy ck = truthy cache_key ->
  (truthy cache_key = true -> default "" ck = the_key cache_key rid) ->
  log h = pre ->
  caller_dict h = querystring ->
  fresh_dict h = ∅ ->
  data_of_no_data (no_data_obj h) = empty_value many ->
  fetch fuel E cfg u resource api rid querystring ck h = (o, h') ->
  run_shape fuel E cfg resource rid querystring cache_key many o h'.
Proof.
  intros Hen Hpre Hck Hkey Hlog Hcaller Hfresh Hnd Hrun. subst pre.
  unfold fetch in Hrun. rewrite bind_run in Hrun. unfold try_except at 1 in Hrun.
  rewrite fmap_run in Hrun.
  destruct (ensure_client E cfg u api h) as [oc hc] eqn:Hc.
  apply ensure_client_frame in Hc as (Hoc & setup & -> & Hsetup).
  destruct oc as [a | e |]; [| | done].
  2:{ (* the client could not be built *)
      simpl in Hrun. inversion Hrun; subst. rewrite Hnd.
      eapply RunInitFailed with (pre := log h) (setup := setup) (e := e); try done.
      simpl. by rewrite <- app_assoc. }
  rewrite bind_run in Hrun. unfold try_except at 1 in Hrun. rewrite fmap_run in Hrun.
  destruct (retrieve fuel a resource rid querystring (emits setup h)) as [ro hr] eqn:Hr.
  apply retrieve_frame in Hr as (reqs & Hl & Hreqs & Hnth & Hcd & Hfp & _ & Hne & Hrid & Hnone).
  rewrite query_params_deref in Hnth, Hcd by done.
  simpl in Hl, Hcd, Hfp.
  assert (Hshape : forall post o h',
            log h' = log hr ++ post -> caller_dict h' = caller_dict hr ->
            no_data_obj h' = no_data_obj hr ->
            finish E cfg rid cache_key h' ro post o ->
            run_shape fuel E cfg resource rid querystring cache_key many o h').
  { intros post o1 h1 H1 H2 H3 Hfin.
    eapply RunRetrieved with (pre := log h) (setup := setup) (reqs := reqs) (post := post) (ro := ro);
      try done.
    - rewrite H1, Hl, <- !app_assoc. done.
    - rewrite H2, Hcd, Hcaller. destruct (truthy querystring); simpl; [| done].
      by destruct (decide (2 <= length reqs));
        [rewrite bool_decide_eq_true_2 | rewrite bool_decide_eq_false_2].
    - intros Hf. by rewrite H3, Hfp.
    - simpl in Hnone. by rewrite Hnd in Hnone. }
  destruct ro as [v | e |].
  - (* the data were retrieved *)
    simpl in Hrun. rewrite bind_run in Hrun. rewrite Hck in Hrun.
    destruct (truthy cache_key) eqn:Hk.
    + rewrite Hkey in Hrun by done. unfold call in Hrun.
      destruct (cache_set E (the_key cache_key rid) v (cache_ttl cfg)) as [[] | e] eqn:Hset;
        simpl in Hrun; inversion Hrun; subst.
      * eapply Hshape; try done. by apply FinishStored.
      * eapply Hshape; try done. by apply FinishStoreRaised.
    + simpl in Hrun. inversion Hrun; subst.
      apply (Hshape []); try done; [by rewrite app_nil_r | by apply FinishNoCache].
  - (* the request or the traversal raised *)
    simpl in Hrun. inversion Hrun; subst.
    eapply Hshape with (post := [LogException (retrieve_msg cfg) e]); try done.
    apply (FinishFailed E cfg rid cache_key (emit (LogException (retrieve_msg cfg) e) hr)).
  - (* the loop was still running *)
    simpl in Hrun. inversion Hrun; subst.
    apply (Hshape []); try done; [by rewrite app_nil_r | apply FinishOutOfFuel].
Qed.

Lemma run_has_shape fuel E cfg u resource api rid querystring cache_key many o h :
  run fuel E cfg u resource api rid querystring cache_key many = (o, h) ->
  run_shape fuel E cfg resource rid querystring cache_key many o h.
Proof.
  unfold run, get_edx_api_data. rewrite bind_run.
  set (h0 := set_no_data_obj (if many then NoDataList [] else NoDataDict)
               (initial_heap querystring)).
  assert (Hnd : data_of_no_data (no_data_obj h0) = empty_value many) by by destruct many.
  destruct (enabled cfg) eqn:Hen; cbn [negb].
  2:{ intros Hrun. inversion Hrun; subst.
      change (data_of_no_data _) with (data_of_no_data (no_data_obj h0)).
      rewrite Hnd. by apply RunDisabled. }
  rewrite bind_run.
  destruct (truthy cache_key) eqn:Hck.
  2:{ rewrite Hck. unfold mret, M_ret. intros Hf.
      eapply (fetch_shape _ _ _ _ _ _ _ _ cache_key many cache_key []) in Hf; try done.
      - by left.
      - intros Ht. by rewrite Hck in Ht. }
  assert (Hk : truthy (Some (derived_key (default "" cache_key) rid)) = true).
  { destruct cache_key as [k |]; [| done]. by apply truthy_derived_key. }
  rewrite Hk. simpl default. fold (the_key cache_key rid).
  unfold call at 1.
  destruct (cache_get E (the_key cache_key rid)) as [c | e] eqn:Hget.
  2:{ intros Hrun. inversion Hrun; subst. by apply RunCacheRaised. }
  assert (Hmiss : truthy c = false ->
            fetch fuel E cfg u resource api rid querystring
              (Some (the_key cache_key rid)) (emit (CacheGet (the_key cache_key rid)) h0) = (o, h) ->
            run_shape fuel E cfg resource rid querystring cache_key many o h).
  { intros Hc Hf.
    eapply (fetch_shape _ _ _ _ _ _ _ _ cache_key many _ [CacheGet (the_key cache_key rid)])
      in Hf; try done.
    - right. eauto.
    - by rewrite Hck. }
  destruct c as [d |]; [destruct (truthy d) eqn:Hd |].
  - intros Hrun. inversion Hrun; subst. by apply RunCacheHit.
  - by apply Hmiss.
  - by apply Hmiss.
Qed.

(** ** The requests in the log of a call *)

Lemma requests_none (l : list event) :
  Forall (fun e => is_request e = false) l -> requests l = [].
Proof.
  induction 1 as [| e l He _ IH]; [reflexivity |].
  unfold requests in *. rewrite filter_cons_False; [done | by rewrite He].
Qed.

Lemma requests_setup (l : list event) :
  Forall (fun e => is_setup e = true) l -> requests l = [].
Proof.
  intros H. apply requests_none. eapply Forall_impl; [exact H |]. by intros [].
Qed.

Lemma requests_cache_missed E rid cache_key pre :
  cache_missed E rid cache_key pre -> requests pre = [].
Proof. by intros [[_ ->] | (_ & -> & _)]. Qed.

Lemma requests_finish E cfg rid cache_key h ro post o :
  finish E cfg rid cache_key h ro post o -> requests post = [].
Proof. by destruct 1. Qed.

Lemma requests_retrieved E cfg rid cache_key h ro o resource pre setup reqs post :
  cache_missed E rid cache_key pre ->
  Forall (fun e => is_setup e = true) setup ->
  Forall (fun e => is_request e = true) reqs ->
  finish E cfg rid cache_key h ro post o ->
  requests (pre ++ setup ++ GetAttr resource :: reqs ++ post) = reqs.
Proof.
  intros Hpre Hsetup Hreqs Hfin.
  rewrite !requests_app, (requests_cache_missed _ _ _ _ Hpre), (requests_setup _ Hsetup).
  change (GetAttr resource :: reqs ++ post) with ([GetAttr resource] ++ reqs ++ post).
  rewrite !requests_app, (requests_finish _ _ _ _ _ _ _ _ Hfin), (requests_all _ Hreqs).
  simpl. by rewrite app_nil_r.
Qed.

(** The log of a call that made no request. *)
Ltac no_requests Hlog :=
  rewrite Hlog; try rewrite !requests_app;
  repeat match goal with
         | H : cache_missed _ _ _ _ |- _ => rewrite (requests_cache_missed _ _ _ _ H)
         | H : Forall (fun e => is_setup e = true) _ |- _ => rewrite (requests_setup _ H)
         end.

(** The requests of any call, in order: the first carries the resource id
    and the query string parameters as the caller gave them; the one at
    index [i >= 1] carries no resource id and the same parameters with
    [page] set to [i + 1]. *)
Lemma requests_of_run fuel E cfg u resource api rid querystring cache_key many :
  forall i e,
    requests (log (snd (run fuel E cfg u resource api rid querystring cache_key many))) !! i = Some e ->
    nth_request rid (query_params querystring) i e.
Proof.
  intros i e.
  destruct (run fuel E cfg u resource api rid querystring cache_key many) as [o h] eqn:Hrun.
  apply run_has_shape in Hrun. simpl.
  destruct Hrun as [h Hen Hlog Hc | x h Hen Hck Hget Hlog Hc | d h Hen Hck Hget Hd Hlog Hc
                   | pre setup x h Hen Hpre Hsetup Hlog Hc
                   | pre setup reqs post ro o h Hen Hpre Hsetup Hlog Hreqs Hnth Hc Hnd Hne Hrid Hnone Hfin].
  1-3: by rewrite Hlog.
  - no_requests Hlog. done.
  - rewrite Hlog, (requests_retrieved _ _ _ _ _ _ _ _ _ _ _ _ Hpre Hsetup Hreqs Hfin).
    apply Hnth.
Qed.

Lemma omap_request_params (l : list event) :
  omap request_params l = omap request_params (requests l).
Proof.
  induction l as [| e l IH]; [reflexivity |].
  change (e :: l) with ([e] ++ l). rewrite requests_app, !omap_app, IH. f_equal.
  by destruct e.
Qed.

Lemma truthy_gmap_true {V : Type} (m : gmap string V) : m <> ∅ -> truthy m = true.
Proof.
  intros Hm. destruct (truthy m) eqn:Ht; [done |]. by apply truthy_gmap_false in Ht.
Qed.

Lemma omap_lookup_all {A B : Type} (f : A -> option B) (l : list A) (i : nat) :
  Forall (fun a => is_Some (f a)) l -> omap f l !! i = l !! i ≫= f.
Proof.
  intros Hall. revert i. induction Hall as [| a l [b Hb] _ IH]; intros i; [done |].
  simpl. rewrite Hb. destruct i as [| i]; simpl; [by rewrite Hb | apply IH].
Qed.

(** ** The claims about the requests *)

(** C3, as the code has it.  In every call, the query string parameters of
    the requests made are, in order: for the first request the parameters
    the caller gave, with no [page] written into them; for the request at
    index [i >= 1] (the [(i + 1)]-th) the same parameters with [page] set to
    [i + 1].  A fetch of three pages sends [page] = (the caller's, if any),
    2, 3. *)
Theorem request_query_parameters fuel E cfg u resource api rid querystring cache_key many :
  omap request_params (log (snd (run fuel E cfg u resource api rid querystring cache_key many))) =
  (fun i => match i with
            | 0 => query_params querystring
            | S _ => <["page" := QInt (Z.of_nat (S i))]> (query_params querystring)
            end)
  <$> seq 0 (length (requests
                       (log (snd (run fuel E cfg u resource api rid querystring cache_key many))))).
Proof.
  pose proof (requests_of_run fuel E cfg u resource api rid querystring cache_key many) as Hnth.
  rewrite omap_request_params.
  set (reqs := requests _) in *. clearbody reqs.
  assert (Hall : Forall (fun e => is_Some (request_params e)) reqs).
  { apply Forall_lookup. intros i e He. destruct (Hnth i e He) as [r ->]. by eexists. }
  apply list_eq. intros i. rewrite list_lookup_fmap, omap_lookup_all by done.
  destruct (reqs !! i) as [e |] eqn:He.
  - destruct (Hnth i e He) as [r ->].
    rewrite lookup_seq_lt by (eapply lookup_lt_Some; eauto). by destruct i.
  - rewrite lookup_seq_ge; [done |]. by apply lookup_ge_None.
Qed.

(** C3, as stated, fails.  The paginated fetch of three pages with results of
    length 2, 2 and 1 returns the five results, but the [page] parameter of
    its three requests is absent, 2, 3: the first request carries no
    [page]. *)
Lemma three_pages_page_params :
  fst (run 2 no_client_record programs_config "staff" "programs"
         (Some (client_serving three_pages)) None None None true) =
    Done (DList ["a"; "b"; "c"; "d"; "e"]) /\
  page_params (log (snd (run 2 no_client_record programs_config "staff" "programs"
                           (Some (client_serving three_pages)) None None None true))) =
    [None; Some (QInt 2); Some (QInt 3)] /\
  page_params (log (snd (run 2 no_client_record programs_config "staff" "programs"
                           (Some (client_serving three_pages)) None None None true))) <>
    [Some (QInt 1); Some (QInt 2); Some (QInt 3)].
Proof. split; [| split]; [vm_compute; reflexivity | vm_compute; reflexivity | by vm_compute]. Qed.

(** C10.  When the caller passed a non-empty [querystring] dict and the call
    made a second request (it followed a [next] link), the caller's dict
    holds, when the call is over, the key [page] with the number of the last
    request made: the dict was mutated in place. *)
Theorem caller_querystring_mutated fuel E cfg u resource api rid cache_key many
    (qs : gmap string qval) :
  qs <> ∅ ->
  2 <= length (requests (log (snd (run fuel E cfg u resource api rid (Some qs) cache_key many)))) ->
  caller_dict (snd (run fuel E cfg u resource api rid (Some qs) cache_key many)) =
    Some (<["page" := QInt (Z.of_nat (length (requests
             (log (snd (run fuel E cfg u resource api rid (Some qs) cache_key many))))))]> qs).
Proof.
  intros Hqs.
  destruct (run fuel E cfg u resource api rid (Some qs) cache_key many) as [o h] eqn:Hrun.
  apply run_has_shape in Hrun. simpl.
  destruct Hrun as [h Hen Hlog Hc | x h Hen Hck Hget Hlog Hc | d h Hen Hck Hget Hd Hlog Hc
                   | pre setup x h Hen Hpre Hsetup Hlog Hc
                   | pre setup reqs post ro o h Hen Hpre Hsetup Hlog Hreqs Hnth Hc Hnd Hne Hrid Hnone Hfin].
  1-3: rewrite Hlog; simpl; lia.
  - no_requests Hlog. simpl. lia.
  - rewrite Hlog, (requests_retrieved _ _ _ _ _ _ _ _ _ _ _ _ Hpre Hsetup Hreqs Hfin).
    intros Hlen. rewrite Hc. unfold query_params.
    change (truthy (Some qs)) with (truthy qs). rewrite (truthy_gmap_true qs Hqs).
    by rewrite bool_decide_eq_true_2.
Qed.

Lemma caller_querystring_mutated_witness :
  ({["format" := QStr "json"]} : gmap string qval) <> ∅ /\
  2 <= length (requests (log (snd (run 2 no_client_record programs_config "staff" "programs"
                  (Some (client_serving three_pages)) None
                  (Some {["format" := QStr "json"]}) None true)))) /\
  caller_dict (snd (run 2 no_client_record programs_config "staff" "programs"
                      (Some (client_serving three_pages)) None
                      (Some {["format" := QStr "json"]}) None true)) =
    Some (<["page" := QInt 3]> {["format" := QStr "json"]}).
Proof.
  assert (H1 : ({["format" := QStr "json"]} : gmap string qval) <> ∅) by by vm_compute.
  assert (H2 : 2 <= length (requests (log (snd (run 2 no_client_record programs_config "staff"
                  "programs" (Some (client_serving three_pages)) None
                  (Some {["format" := QStr "json"]}) None true))))) by (vm_compute; lia).
  split; [exact H1 |]. split; [exact H2 |].
  exact (caller_querystring_mutated 2 no_client_record programs_config "staff" "programs"
           (Some (client_serving three_pages)) None None true {["format" := QStr "json"]} H1 H2).
Defined.

(** ** The claims about the cache *)

(** C5.  While the configuration is disabled, every call returns the empty
    value and does nothing but log one warning: the cache is not read or
    written, no client is built and no request is made. *)
Theorem disabled_returns_empty fuel E cfg u resource api rid querystring cache_key many :
  enabled cfg = false ->
  fst (run fuel E cfg u resource api rid querystring cache_key many) = Done (empty_value many) /\
  log (snd (run fuel E cfg u resource api rid querystring cache_key many)) =
    [LogWarning (API_NAME cfg +:+ " configuration is disabled.")].
Proof.
  intros Hen.
  destruct (run fuel E cfg u resource api rid querystring cache_key many) as [o h] eqn:Hrun.
  apply run_has_shape in Hrun. simpl.
  destruct Hrun; try congruence. done.
Qed.

Lemma disabled_returns_empty_witness :
  enabled (Config false "programs" "programs" "http://programs.internal/api/v1/" 60) = false /\
  fst (run 2 (caching (DList ["a"]))
         (Config false "programs" "programs" "http://programs.internal/api/v1/" 60)
         "staff" "programs" (Some (client_serving three_pages)) None None (Some "programs") false) =
    Done (DDict empty_dict) /\
  log (snd (run 2 (caching (DList ["a"]))
         (Config false "programs" "programs" "http://programs.internal/api/v1/" 60)
         "staff" "programs" (Some (client_serving three_pages)) None None (Some "programs") false)) =
    [LogWarning "programs configuration is disabled."].
Proof.
  split; [reflexivity |].
  exact (disabled_returns_empty 2 (caching (DList ["a"]))
           (Config false "programs" "programs" "http://programs.internal/api/v1/" 60)
           "staff" "programs" (Some (client_serving three_pages)) None None (Some "programs")
           false eq_refl).
Defined.

(** C4, as stated, fails.  The cache holds the empty list under the key (the
    value a fetch of an empty collection stores there), yet the call makes
    requests and returns what they give: [if cached:] takes the empty list
    for no value. *)
Lemma empty_cached_value_refetched :
  cache_get (caching (DList [])) (derived_key "programs" None) = Returns (Some (DList [])) /\
  fst (run 2 (caching (DList [])) programs_config "staff" "programs"
         (Some (client_serving three_pages)) None None (Some "programs") true) =
    Done (DList ["a"; "b"; "c"; "d"; "e"]) /\
  length (requests (log (snd (run 2 (caching (DList [])) programs_config "staff" "programs"
            (Some (client_serving three_pages)) None None (Some "programs") true)))) = 3.
Proof. split; [| split]; vm_compute; reflexivity. Qed.

(** C4, as the code has it.  While the configuration is enabled, a call with
    a non-empty cache key for which the cache holds a truthy value (a
    non-empty list or mapping) under the derived key returns that value as
    it is, and does nothing but read the cache: no client is built and no
    request is made. *)
Theorem cache_hit_returned fuel E cfg u resource api rid querystring many (k : string) (d : data) :
  enabled cfg = true ->
  k <> "" ->
  cache_get E (derived_key k rid) = Returns (Some d) ->
  truthy d = true ->
  fst (run fuel E cfg u resource api rid querystring (Some k) many) = Done d /\
  log (snd (run fuel E cfg u resource api rid querystring (Some k) many)) =
    [CacheGet (derived_key k rid)] /\
  Forall (fun e => is_network_call e = false)
    (log (snd (run fuel E cfg u resource api rid querystring (Some k) many))).
Proof.
  intros Hen Hk Hget Hd.
  assert (Hck : truthy (Some k) = true) by by destruct k.
  destruct (run fuel E cfg u resource api rid querystring (Some k) many) as [o h] eqn:Hrun.
  apply run_has_shape in Hrun. simpl.
  assert (Hmiss : forall pre, ~ cache_missed E rid (Some k) pre).
  { intros pre [[Hf _] | (_ & _ & c & Hc & Hfalse)]; [congruence |].
    unfold the_key in Hc. simpl in Hc. rewrite Hget in Hc. inversion Hc; subst. simpl in Hfalse.
    change (truthy (Some d)) with (truthy d) in Hfalse. congruence. }
  destruct Hrun as [h Hen' Hlog Hc | x h Hen' Hck' Hget' Hlog Hc | d' h Hen' Hck' Hget' Hd' Hlog Hc
                   | pre setup x h Hen' Hpre Hsetup Hlog Hc
                   | pre setup reqs post ro o h Hen' Hpre Hsetup Hlog Hreqs Hnth Hc Hnd Hne Hrid Hnone Hfin].
  - congruence.
  - unfold the_key in Hget'. simpl in Hget'. congruence.
  - unfold the_key in Hget', Hlog. simpl in Hget', Hlog. rewrite Hget in Hget'.
    inversion Hget'; subst. rewrite Hlog. repeat split; by repeat constructor.
  - by destruct (Hmiss pre).
  - by destruct (Hmiss pre).
Qed.

Lemma cache_hit_returned_witness :
  enabled programs_config = true /\
  "programs" <> "" /\
  cache_get (caching (DList ["a"])) (derived_key "programs" (Some (IdInt 7))) =
    Returns (Some (DList ["a"])) /\
  truthy (DList ["a"]) = true /\
  fst (run 2 (caching (DList ["a"])) programs_config "staff" "programs" None (Some (IdInt 7))
         None (Some "programs") true) = Done (DList ["a"]) /\
  log (snd (run 2 (caching (DList ["a"])) programs_config "staff" "programs" None
              (Some (IdInt 7)) None (Some "programs") true)) = [CacheGet "programs.7"].
Proof.
  assert (H2 : "programs" <> "") by discriminate.
  pose proof (cache_hit_returned 2 (caching (DList ["a"])) programs_config "staff" "programs"
                None (Some (IdInt 7)) None true "programs" (DList ["a"])
                eq_refl H2 eq_refl eq_refl) as (Hr & Hl & _).
  split; [reflexivity |]. split; [exact H2 |]. split; [reflexivity |]. split; [reflexivity |].
  split; [exact Hr | exact Hl].
Defined.

Lemma last_retrieved (pre setup reqs : list event) (g x : event) :
  last (pre ++ setup ++ g :: reqs ++ [x]) = Some x.
Proof.
  change (g :: reqs ++ [x]) with ((g :: reqs) ++ [x]).
  rewrite !app_assoc. apply last_snoc.
Qed.

Ltac run_cases Hrun :=
  apply run_has_shape in Hrun; simpl;
  destruct Hrun as [h Hen' Hlog Hc | x h Hen' Hck' Hget' Hlog Hc | d' h Hen' Hck' Hget' Hd' Hlog Hc
                   | pre setup x h Hen' Hpre Hsetup Hlog Hc
                   | pre setup reqs post ro o h Hen' Hpre Hsetup Hlog Hreqs Hnth Hc Hnd Hne Hrid
                       Hnone Hfin].

(** C6.  A call with a non-empty cache key that made requests, caught no
    exception and returned [v] ends by storing [v] in the cache, under
    [cache_key.resource_id] when a resource id was given and under
    [cache_key] otherwise, with the configuration's [cache_ttl]. *)
Theorem successful_fetch_cached fuel E cfg u resource api rid querystring many (k : string)
    (v : data) :
  k <> "" ->
  fst (run fuel E cfg u resource api rid querystring (Some k) many) = Done v ->
  requests (log (snd (run fuel E cfg u resource api rid querystring (Some k) many))) <> [] ->
  Forall (fun e => is_log_exception e = false)
    (log (snd (run fuel E cfg u resource api rid querystring (Some k) many))) ->
  last (log (snd (run fuel E cfg u resource api rid querystring (Some k) many))) =
    Some (CacheSet (match rid with
                    | Some i => k +:+ "." +:+ format_id i
                    | None => k
                    end) v (cache_ttl cfg)).
Proof.
  intros Hk.
  assert (Hck : truthy (Some k) = true) by by destruct k.
  destruct (run fuel E cfg u resource api rid querystring (Some k) many) as [o0 h0] eqn:Hrun.
  run_cases Hrun.
  1-3: by rewrite Hlog.
  - intros _ Hreq. exfalso. apply Hreq. no_requests Hlog. done.
  - intros Ho _ Hexc.
    destruct Hfin as [e | | v' Hf | v' Ht Hset | v' e Ht Hset]; try congruence.
    + rewrite Hlog in Hexc. rewrite !Forall_app in Hexc.
      destruct Hexc as (_ & _ & Hexc). apply Forall_cons in Hexc as [_ Hexc].
      apply Forall_app in Hexc as [_ Hexc]. by apply Forall_cons in Hexc as [Hexc _].
    + inversion Ho; subst. rewrite Hlog. apply last_retrieved.
Qed.

Lemma successful_fetch_cached_witness :
  "programs" <> "" /\
  fst (run 2 no_client_record programs_config "staff" "programs"
         (Some (client_serving three_pages)) (Some (IdInt 7)) None (Some "programs") true) =
    Done (DDict (three_pages 0)) /\
  last (log (snd (run 2 no_client_record programs_config "staff" "programs"
                    (Some (client_serving three_pages)) (Some (IdInt 7)) None (Some "programs")
                    true))) =
    Some (CacheSet "programs.7" (DDict (three_pages 0)) 60) /\
  last (log (snd (run 2 no_client_record programs_config "staff" "programs"
                    (Some (client_serving three_pages)) (Some (IdStr "ab-1")) None
                    (Some "programs") true))) =
    Some (CacheSet "programs.ab-1" (DDict (three_pages 0)) 60) /\
  last (log (snd (run 2 no_client_record programs_config "staff" "programs"
                    (Some (client_serving three_pages)) None None (Some "programs") true))) =
    Some (CacheSet "programs" (DList ["a"; "b"; "c"; "d"; "e"]) 60).
Proof.
  assert (H1 : "programs" <> "") by discriminate.
  assert (H2 : forall rid v,
            fst (run 2 no_client_record programs_config "staff" "programs"
                   (Some (client_serving three_pages)) rid None (Some "programs") true) = Done v ->
            last (log (snd (run 2 no_client_record programs_config "staff" "programs"
                              (Some (client_serving three_pages)) rid None (Some "programs")
                              true))) =
            Some (CacheSet (match rid with
                            | Some i => "programs" +:+ "." +:+ format_id i
                            | None => "programs"
                            end) v 60)).
  { intros rid v Hv.
    apply (successful_fetch_cached 2 no_client_record programs_config "staff" "programs"
             (Some (client_serving three_pages)) rid None true "programs" v H1 Hv).
    - destruct rid; vm_compute; discriminate.
    - destruct rid; vm_compute; repeat constructor. }
  split; [exact H1 |]. split; [vm_compute; reflexivity |].
  split; [exact (H2 (Some (IdInt 7)) _ ltac:(vm_compute; reflexivity)) |].
  split; [exact (H2 (Some (IdStr "ab-1")) _ ltac:(vm_compute; reflexivity)) |].
  exact (H2 None _ ltac:(vm_compute; reflexivity)).
Defined.

(** ** The claims about single resources and failures *)

(** C7, as stated, fails.  A resource id is given, the cache holds nothing
    and the request succeeds, but [cache.set] raises: line 89 is outside the
    [try] blocks, and the caller gets that exception, not the response. *)
Lemma resource_fetch_cache_write_raises :
  head (requests (log (snd (run 2 cache_full programs_config "staff" "programs"
          (Some (client_serving three_pages)) (Some (IdInt 7)) None (Some "programs") true)))) =
    Some (Request (Some (IdInt 7)) ∅ (Returns (three_pages 0))) /\
  cache_get cache_full "programs.7" = Returns None /\
  fst (run 2 cache_full programs_config "staff" "programs"
         (Some (client_serving three_pages)) (Some (IdInt 7)) None (Some "programs") true) =
    Raised (Error "cache full").
Proof. repeat split; vm_compute; reflexivity. Qed.

(** C7, as the code has it.  Take a call whose first request returned
    [resp].  With a resource id that request is the only one, and [resp]
    itself, whatever it holds, is the result of the call.  Without a resource
    id [resp] is read as a page: when its [next] is truthy the loop requests
    the next page, and when it is not there is no other request and the
    result is the [results] of [resp].  In both cases the result is what the
    caller gets, unless a cache key was given and the final [cache.set]
    raises: then that exception is what the caller gets. *)
Theorem resource_id_decides_traversal fuel E cfg u resource api rid querystring cache_key many
    (rid' : option resource_id_t) (qs : gmap string qval) (resp : response) :
  head (requests (log (snd (run fuel E cfg u resource api rid querystring cache_key many)))) =
    Some (Request rid' qs (Returns resp)) ->
  match rid with
  | Some _ =>
      length (requests (log (snd (run fuel E cfg u resource api rid querystring cache_key many)))) = 1 /\
      returned_or_cache_raised E cfg cache_key rid (DDict resp)
        (fst (run fuel E cfg u resource api rid querystring cache_key many))
  | None =>
      (truthy (get_next resp) = true -> 0 < fuel ->
       2 <= length (requests
                      (log (snd (run fuel E cfg u resource api rid querystring cache_key many))))) /\
      (truthy (get_next resp) = false ->
       length (requests
                 (log (snd (run fuel E cfg u resource api rid querystring cache_key many)))) = 1 /\
       returned_or_cache_raised E cfg cache_key rid
         (match results resp with Some l => DList l | None => empty_value many end)
         (fst (run fuel E cfg u resource api rid querystring cache_key many)))
  end.
Proof.
  destruct (run fuel E cfg u resource api rid querystring cache_key many) as [o0 h0] eqn:Hrun.
  run_cases Hrun.
  1-3: by rewrite Hlog.
  - no_requests Hlog. done.
  - rewrite Hlog, (requests_retrieved _ _ _ _ _ _ _ _ _ _ _ _ Hpre Hsetup Hreqs Hfin).
    intros Hhead.
    assert (Hdone : forall v, ro = Done v -> returned_or_cache_raised E cfg cache_key rid v o).
    { intros v ->. unfold returned_or_cache_raised. fold (the_key cache_key rid).
      inversion Hfin; subst; split; intros Hck; try congruence.
      all: match goal with H : cache_set _ _ _ _ = _ |- _ => by rewrite H end. }
    destruct rid as [i |].
    + destruct (Hrid i eq_refl) as [Hlen Hraw]. split; [| by eauto].
      destruct reqs as [| e1 [| e2 reqs]]; simpl in *; [done | done | lia].
    + destruct (Hnone eq_refl _ _ _ Hhead) as [Hlast Hmore]. split; [exact Hmore |].
      intros Hn. destruct (Hlast Hn) as [Hlen Hro]. split; [done | by apply Hdone].
Qed.

Lemma resource_id_decides_traversal_witness :
  head (requests (log (snd (run 2 no_client_record programs_config "staff" "programs"
          (Some (client_serving three_pages)) (Some (IdInt 7)) None (Some "programs") false)))) =
    Some (Request (Some (IdInt 7)) ∅ (Returns (three_pages 0))) /\
  length (requests (log (snd (run 2 no_client_record programs_config "staff" "programs"
            (Some (client_serving three_pages)) (Some (IdInt 7)) None (Some "programs") false)))) = 1 /\
  fst (run 2 no_client_record programs_config "staff" "programs"
         (Some (client_serving three_pages)) (Some (IdInt 7)) None (Some "programs") false) =
    Done (DDict (three_pages 0)).
Proof.
  assert (H1 : head (requests (log (snd (run 2 no_client_record programs_config "staff" "programs"
                  (Some (client_serving three_pages)) (Some (IdInt 7)) None (Some "programs")
                  false)))) =
               Some (Request (Some (IdInt 7)) ∅ (Returns (three_pages 0))))
    by (vm_compute; reflexivity).
  split; [exact H1 |].
  destruct (resource_id_decides_traversal 2 no_client_record programs_config "staff" "programs"
              (Some (client_serving three_pages)) (Some (IdInt 7)) None (Some "programs") false
              _ _ _ H1) as [Hlen [_ Hret]].
  split; [exact Hlen | exact (Hret eq_refl)].
Defined.

Lemma log_exception_setup (l : list event) :
  Forall (fun e => is_setup e = true) l -> Forall (fun e => is_log_exception e = false) l.
Proof. intros H. eapply Forall_impl; [exact H |]. by intros []. Qed.

Lemma log_exception_requests (l : list event) :
  Forall (fun e => is_request e = true) l -> Forall (fun e => is_log_exception e = false) l.
Proof. intros H. eapply Forall_impl; [exact H |]. by intros []. Qed.

Lemma log_exception_cache_missed E rid cache_key pre :
  cache_missed E rid cache_key pre -> Forall (fun e => is_log_exception e = false) pre.
Proof. intros [[_ ->] | (_ & -> & _)]; by repeat constructor. Qed.

Lemma no_log_exception (l : list event) :
  Forall (fun e => is_log_exception e = false) l ->
  ~ Exists (fun e => is_log_exception e = true) l.
Proof.
  intros Hall Hex. apply Exists_exists in Hex as (e & Hin & He).
  rewrite Forall_forall in Hall. specialize (Hall e Hin). congruence.
Qed.

(** C2, as stated, fails.  The cache is read outside the two [try] blocks:
    when [cache.get] raises, the exception reaches the caller. *)
Lemma cache_exception_propagates :
  fst (run 2 cache_down programs_config "staff" "programs"
         (Some (client_serving three_pages)) None None (Some "programs") true) =
  Raised (Error "cache unavailable").
Proof. vm_compute. reflexivity. Qed.

Lemma last_retrieved_nil (pre setup reqs : list event) (g x : event) :
  Forall (fun e => is_request e = true) reqs ->
  last (pre ++ setup ++ g :: reqs ++ []) = Some x ->
  x = g \/ is_request x = true.
Proof.
  intros Hreqs. rewrite app_nil_r, app_assoc, last_app, last_cons.
  destruct (last reqs) as [y |] eqn:Hy; intros Hx; inversion Hx; subst; [| by left].
  right. apply last_Some in Hy as [l' ->]. apply Forall_app in Hreqs as [_ Hreqs].
  by apply Forall_cons in Hreqs as [Hreq _].
Qed.

(** The cache store and the exceptions that leave a call: an exception
    leaves the call only if [cache.get] or [cache.set] raised it, and those
    do leave it; and a call that logged an exception returns the empty value,
    provided the first page received, if any, carried a [results] list. *)
Lemma only_cache_exceptions_escape fuel E cfg u resource api rid querystring cache_key many :
  (forall e,
     fst (run fuel E cfg u resource api rid querystring cache_key many) = Raised e ->
     cache_get E (derived_key (default "" cache_key) rid) = Raises e \/
     exists v, cache_set E (derived_key (default "" cache_key) rid) v (cache_ttl cfg) = Raises e) /\
  (forall e,
     enabled cfg = true -> truthy cache_key = true ->
     cache_get E (derived_key (default "" cache_key) rid) = Raises e ->
     fst (run fuel E cfg u resource api rid querystring cache_key many) = Raised e) /\
  (forall e v,
     last (log (snd (run fuel E cfg u resource api rid querystring cache_key many))) =
       Some (CacheSet (derived_key (default "" cache_key) rid) v (cache_ttl cfg)) ->
     cache_set E (derived_key (default "" cache_key) rid) v (cache_ttl cfg) = Raises e ->
     fst (run fuel E cfg u resource api rid querystring cache_key many) = Raised e) /\
  (Exists (fun e => is_log_exception e = true)
     (log (snd (run fuel E cfg u resource api rid querystring cache_key many))) ->
   first_page_has_results
     (requests (log (snd (run fuel E cfg u resource api rid querystring cache_key many)))) ->
   fst (run fuel E cfg u resource api rid querystring cache_key many) = Done (empty_value many)).
Proof.
  fold (the_key cache_key rid).
  destruct (run fuel E cfg u resource api rid querystring cache_key many) as [o0 h0] eqn:Hrun.
  run_cases Hrun.
  - (* disabled *)
    repeat split; try done; try congruence. intros e v Hl. by rewrite Hlog in Hl.
  - (* [cache.get] raised *)
    repeat split; try congruence.
    + intros e He. inversion He; subst. by left.
    + intros e v Hl. by rewrite Hlog in Hl.
    + intros Hex. rewrite Hlog in Hex. apply no_log_exception in Hex; [done | by repeat constructor].
  - (* cache hit *)
    repeat split; try done; try congruence.
    + intros e v Hl. by rewrite Hlog in Hl.
    + intros Hex. rewrite Hlog in Hex. apply no_log_exception in Hex; [done | by repeat constructor].
  - (* the client could not be built *)
    repeat split; try done.
    + intros e _ Hck Hget. destruct Hpre as [[Hf _] | (_ & _ & c & Hc' & _)]; congruence.
    + intros e v Hl. rewrite Hlog, !app_assoc, last_snoc in Hl. done.
  - assert (Hget : forall e, truthy cache_key = true ->
                     cache_get E (the_key cache_key rid) = Raises e -> o = Raised e).
    { intros e Hck He. destruct Hpre as [[Hf _] | (_ & _ & c & Hc' & _)]; congruence. }
    assert (Hquiet : Forall (fun e => is_log_exception e = false)
                       (pre ++ setup ++ GetAttr resource :: reqs)).
    { rewrite !Forall_app, Forall_cons.
      repeat split; eauto using log_exception_cache_missed, log_exception_setup,
        log_exception_requests. }
    destruct Hfin as [e | | v Hf | v Ht Hs | v e Ht Hs].
    + (* the retrieval failed *)
      repeat split; try done; eauto.
      * intros e' v Hl. rewrite Hlog, last_retrieved in Hl. done.
      * intros _.
        rewrite Hlog, (requests_retrieved _ _ _ _ _ _ _ _ _ _ _ _ Hpre Hsetup Hreqs
                         (FinishFailed E cfg rid cache_key h e)).
        intros Hfp. by rewrite Hnd.
    + (* the loop is still running *)
      repeat split; try done; eauto.
      * intros e v Hl. rewrite Hlog in Hl.
        apply last_retrieved_nil in Hl as [Hl | Hl]; done.
      * intros Hex. rewrite Hlog, app_nil_r in Hex. by apply no_log_exception in Hex.
    + (* returned, no cache key *)
      repeat split; try done; eauto.
      * intros e v' Hl. rewrite Hlog in Hl.
        apply last_retrieved_nil in Hl as [Hl | Hl]; done.
      * intros Hex. rewrite Hlog, app_nil_r in Hex. by apply no_log_exception in Hex.
    + (* returned and stored *)
      repeat split; try done; eauto.
      * intros e v' Hl. rewrite Hlog, last_retrieved in Hl. inversion Hl; subst. congruence.
      * intros Hex. rewrite Hlog in Hex. apply no_log_exception in Hex; [done |].
        change (GetAttr resource :: reqs ++ [CacheSet (the_key cache_key rid) v (cache_ttl cfg)])
          with ((GetAttr resource :: reqs) ++ [CacheSet (the_key cache_key rid) v (cache_ttl cfg)]).
        rewrite !app_assoc. apply Forall_app. split; [by rewrite <- !app_assoc |].
        by repeat constructor.
    + (* [cache.set] raised *)
      repeat split; eauto.
      * intros e' He. inversion He; subst. eauto.
      * intros e' v' Hl. rewrite Hlog, last_retrieved in Hl. inversion Hl; subst. congruence.
      * intros Hex. rewrite Hlog in Hex. apply no_log_exception in Hex; [done |].
        change (GetAttr resource :: reqs ++ [CacheSet (the_key cache_key rid) v (cache_ttl cfg)])
          with ((GetAttr resource :: reqs) ++ [CacheSet (the_key cache_key rid) v (cache_ttl cfg)]).
        rewrite !app_assoc. apply Forall_app. split; [by rewrite <- !app_assoc |].
        by repeat constructor.
Qed.


(** C8, as stated, fails.  The OAuth2 client record does not exist and no
    client is supplied, but the cache holds a value under the key: the call
    returns that value, not the empty one, and logs nothing. *)
Lemma missing_client_record_cache_hit :
  Client_objects_get (caching (DList ["a"])) (OAUTH2_CLIENT_NAME programs_config) =
    Raises DoesNotExist /\
  fst (run 2 (caching (DList ["a"])) programs_config "staff" "programs" None None None
         (Some "programs") true) = Done (DList ["a"]) /\
  fst (run 2 (caching (DList ["a"])) programs_config "staff" "programs" None None None
         (Some "programs") true) <> Done (empty_value true) /\
  log (snd (run 2 (caching (DList ["a"])) programs_config "staff" "programs" None None None
              (Some "programs") true)) = [CacheGet "programs"].
Proof.
  split; [reflexivity |]. split; [vm_compute; reflexivity |].
  split; [by vm_compute | vm_compute; reflexivity].
Qed.

Lemma fetch_lookup_raises fuel E cfg u resource rid querystring ck h x :
  Client_objects_get E (OAUTH2_CLIENT_NAME cfg) = Raises x ->
  fetch fuel E cfg u resource None rid querystring ck h =
  (Done (data_of_no_data (no_data_obj h)),
   emits [ClientLookup (OAUTH2_CLIENT_NAME cfg);
          LogException (init_msg cfg) (lookup_error (OAUTH2_CLIENT_NAME cfg) x)] h).
Proof.
  intros Hx. unfold fetch. rewrite bind_run. unfold try_except at 1. rewrite fmap_run.
  unfold ensure_client. rewrite (build_client_lookup_raises _ _ _ _ _ Hx).
  simpl. by norm_emits.
Qed.

Lemma run_lookup_raises fuel E cfg u resource rid querystring cache_key many (x : exn) :
  enabled cfg = true ->
  (truthy cache_key = false \/
   exists c, cache_get E (derived_key (default "" cache_key) rid) = Returns c /\ truthy c = false) ->
  Client_objects_get E (OAUTH2_CLIENT_NAME cfg) = Raises x ->
  run fuel E cfg u resource None rid querystring cache_key many =
  (Done (empty_value many),
   emits ((if truthy cache_key then [CacheGet (derived_key (default "" cache_key) rid)] else []) ++
          [ClientLookup (OAUTH2_CLIENT_NAME cfg);
           LogException (init_msg cfg) (lookup_error (OAUTH2_CLIENT_NAME cfg) x)])
     (set_no_data_obj (if many then NoDataList [] else NoDataDict) (initial_heap querystring))).
Proof.
  intros Hen Hmiss Hx.
  unfold run, get_edx_api_data. rewrite bind_run, Hen. cbn [negb]. rewrite bind_run.
  set (h0 := set_no_data_obj (if many then NoDataList [] else NoDataDict)
               (initial_heap querystring)).
  assert (Hnd : data_of_no_data (no_data_obj h0) = empty_value many) by by destruct many.
  destruct (truthy cache_key) eqn:Hck.
  - destruct Hmiss as [Hf | (c & Hget & Hc)]; [done |].
    assert (Hk : truthy (Some (derived_key (default "" cache_key) rid)) = true).
    { destruct cache_key as [k |]; [| done]. by apply truthy_derived_key. }
    rewrite Hk. simpl default. unfold call at 1. rewrite Hget.
    assert (match c with
            | Some d =>
                if truthy d then mret d
                else fetch fuel E cfg u resource None rid querystring
                       (Some (derived_key (default "" cache_key) rid))
            | None => fetch fuel E cfg u resource None rid querystring
                        (Some (derived_key (default "" cache_key) rid))
            end = fetch fuel E cfg u resource None rid querystring
                    (Some (derived_key (default "" cache_key) rid))) as ->.
    { destruct c as [d |]; [| done]. change (truthy (Some d)) with (truthy d) in Hc.
      by rewrite Hc. }
    rewrite (fetch_lookup_raises _ _ _ _ _ _ _ _ _ _ Hx).
    change (no_data_obj (emit _ h0)) with (no_data_obj h0). rewrite Hnd.
    by norm_emits.
  - rewrite Hck. unfold mret at 1, M_ret at 1.
    rewrite (fetch_lookup_raises _ _ _ _ _ _ _ _ _ _ Hx). by rewrite Hnd.
Qed.

(** C8, as the code has it.  While the configuration is enabled, a call
    that is not answered from the cache, to which no client was supplied and
    whose lookup of the OAuth2 client record raises, returns the empty value
    after logging the failure to initialise the client; nothing else
    happens.  A missing record ([DoesNotExist]) is logged as the
    configuration error raised in its place, any other exception of the
    lookup as itself; none reaches the caller. *)
Theorem missing_client_record fuel E cfg u resource rid querystring cache_key many (x : exn) :
  enabled cfg = true ->
  (truthy cache_key = false \/
   exists c, cache_get E (derived_key (default "" cache_key) rid) = Returns c /\ truthy c = false) ->
  Client_objects_get E (OAUTH2_CLIENT_NAME cfg) = Raises x ->
  fst (run fuel E cfg u resource None rid querystring cache_key many) = Done (empty_value many) /\
  log (snd (run fuel E cfg u resource None rid querystring cache_key many)) =
    (if truthy cache_key then [CacheGet (derived_key (default "" cache_key) rid)] else []) ++
    [ClientLookup (OAUTH2_CLIENT_NAME cfg);
     LogException ("Failed to initialize the " +:+ API_NAME cfg +:+ " API client.")
       (match x with
        | DoesNotExist =>
            ImproperlyConfigured
              ("OAuth2 Client with name [" +:+ OAUTH2_CLIENT_NAME cfg +:+ "] does not exist.")
        | _ => x
        end)].
Proof.
  intros Hen Hmiss Hx.
  by rewrite (run_lookup_raises fuel E cfg u resource rid querystring cache_key many x Hen Hmiss Hx).
Qed.

Lemma missing_client_record_witness :
  enabled programs_config = true /\
  (exists c, cache_get no_client_record (derived_key "programs" None) = Returns c /\
             truthy c = false) /\
  Client_objects_get no_client_record (OAUTH2_CLIENT_NAME programs_config) = Raises DoesNotExist /\
  fst (run 2 no_client_record programs_config "staff" "programs" None None None
         (Some "programs") false) = Done (DDict empty_dict) /\
  log (snd (run 2 no_client_record programs_config "staff" "programs" None None None
              (Some "programs") false)) =
    [CacheGet "programs"; ClientLookup "programs";
     LogException "Failed to initialize the programs API client."
       (ImproperlyConfigured "OAuth2 Client with name [programs] does not exist.")].
Proof.
  assert (H2 : exists c, cache_get no_client_record (derived_key "programs" None) = Returns c /\
                         truthy c = false) by (exists None; split; reflexivity).
  split; [reflexivity |]. split; [exact H2 |]. split; [reflexivity |].
  exact (missing_client_record 2 no_client_record programs_config "staff" "programs" None None
           (Some "programs") false DoesNotExist eq_refl (or_intror H2) eq_refl).
Defined.

(** ** The caller's dict when it is empty *)

(** An empty [querystring] dict is falsy: line 77 replaces it by a fresh
    dict, and the caller's dict is left as it was, whatever the call does. *)
Lemma empty_querystring_untouched fuel E cfg u resource api rid cache_key many :
  caller_dict (snd (run fuel E cfg u resource api rid (Some ∅) cache_key many)) = Some ∅.
Proof.
  destruct (run fuel E cfg u resource api rid (Some ∅) cache_key many) as [o0 h0] eqn:Hrun.
  run_cases Hrun; done.
Qed.

(** ** A whole paginated fetch *)

Lemma run_cache_missed fuel E cfg u resource api rid querystring cache_key many :
  enabled cfg = true ->
  (truthy cache_key = false \/
   exists c, cache_get E (derived_key (default "" cache_key) rid) = Returns c /\ truthy c = false) ->
  run fuel E cfg u resource api rid querystring cache_key many =
  fetch fuel E cfg u resource api rid querystring
    (if truthy cache_key then Some (derived_key (default "" cache_key) rid) else cache_key)
    (emits (if truthy cache_key then [CacheGet (derived_key (default "" cache_key) rid)] else [])
       (set_no_data_obj (if many then NoDataList [] else NoDataDict) (initial_heap querystring))).
Proof.
  intros Hen Hmiss.
  unfold run, get_edx_api_data. rewrite bind_run, Hen. cbn [negb]. rewrite bind_run.
  set (h0 := set_no_data_obj (if many then NoDataList [] else NoDataDict)
               (initial_heap querystring)).
  destruct (truthy cache_key) eqn:Hck.
  - destruct Hmiss as [Hf | (c & Hget & Hc)]; [done |].
    assert (Hk : truthy (Some (derived_key (default "" cache_key) rid)) = true).
    { destruct cache_key as [k |]; [| done]. by apply truthy_derived_key. }
    rewrite Hk. simpl default. unfold call at 1. rewrite Hget.
    destruct c as [d |]; [| done]. change (truthy (Some d)) with (truthy d) in Hc.
    by rewrite Hc.
  - rewrite Hck. unfold mret at 1, M_ret at 1. by rewrite emits_nil.
Qed.

Lemma retrieve_serve (pages : nat -> response) (k fuel : nat) (a : api_client)
    (resource : string) (querystring : option (gmap string qval)) (h : heap) :
  getattr a resource = Returns (serve pages) ->
  requests (log h) = [] ->
  last_page pages k ->
  (forall i, i <= k -> results (pages i) <> None) ->
  k <= fuel ->
  exists h',
    retrieve fuel a resource None querystring h = (Done (DList (concat_results pages k)), h') /\
    length (requests (log h')) = S k.
Proof.
  intros Hattr Hreq Hlast Hres Hfuel.
  set (q := if truthy querystring then CallerDict else FreshDict).
  set (h1 := emit (Request None (deref_querystring q (emit (GetAttr resource) h))
                     (Returns (pages 0))) (emit (GetAttr resource) h)).
  destruct (traverse_pagination_serve pages k fuel q h1) as (h' & Hrun & Hlen); try done.
  { unfold h1. simpl. by rewrite !requests_app, Hreq. }
  exists h'. split; [| done].
  unfold retrieve. rewrite bind_run. unfold call at 1. rewrite Hattr.
  rewrite bind_run. unfold endpoint_get. fold q.
  assert (Hzero : length (requests (log (emit (GetAttr resource) h))) = 0).
  { simpl. by rewrite requests_app, Hreq. }
  rewrite Hzero. unfold serve at 1 2. unfold call. exact Hrun.
Qed.

(** The fetch of a collection served in [k + 1] pages, end to end: with the
    configuration enabled, no cache hit, a client whose endpoint serves the
    pages, and a cache that accepts the final write, the call returns the
    concatenation of the [results] of the pages, in page order. *)
Lemma paginated_fetch_concat (pages : nat -> response) (k fuel : nat) E cfg u resource
    (a : api_client) querystring cache_key many :
  enabled cfg = true ->
  (truthy cache_key = false \/
   exists c, cache_get E (derived_key (default "" cache_key) None) = Returns c /\
             truthy c = false) ->
  getattr a resource = Returns (serve pages) ->
  last_page pages k ->
  (forall i, i <= k -> results (pages i) <> None) ->
  k <= fuel ->
  (forall v, cache_set E (derived_key (default "" cache_key) None) v (cache_ttl cfg) = Returns tt) ->
  fst (run fuel E cfg u resource (Some a) None querystring cache_key many) =
  Done (DList (concat ((fun i => default [] (results (pages i))) <$> seq 0 (S k)))).
Proof.
  intros Hen Hmiss Hattr Hlast Hres Hfuel Hset.
  rewrite run_cache_missed by done.
  set (h1 := emits _ _).
  assert (Hreq : requests (log h1) = []).
  { unfold h1. simpl. by destruct (truthy cache_key). }
  destruct (retrieve_serve pages k fuel a resource querystring h1) as (h' & Hr & _); try done.
  unfold fetch. rewrite bind_run. unfold try_except at 1. rewrite fmap_run.
  unfold ensure_client. change (truthy a) with true. cbn [negb]. unfold mret at 1, M_ret at 1.
  cbv beta iota.
  rewrite bind_run. unfold try_except at 1. rewrite fmap_run, Hr.
  rewrite bind_run.
  destruct (truthy cache_key) eqn:Hck.
  - assert (Hk : truthy (Some (derived_key (default "" cache_key) None)) = true).
    { destruct cache_key as [k0 |]; [| done]. by apply truthy_derived_key. }
    rewrite Hk. simpl default. unfold call. by rewrite Hset.
  - by rewrite Hck.
Qed.

Lemma paginated_fetch_concat_witness :
  fst (run 2 no_client_record programs_config "staff" "programs"
         (Some (client_serving three_pages)) None None (Some "programs") true) =
  Done (DList ["a"; "b"; "c"; "d"; "e"]).
Proof.
  assert (H2 : truthy (Some "programs") = false \/
               exists c, cache_get no_client_record (derived_key (default "" (Some "programs")) None) =
                           Returns c /\ truthy c = false)
    by (right; exists None; split; reflexivity).
  assert (H3 : forall i, i <= 2 -> results (three_pages i) <> None)
    by (intros i _; apply three_pages_results).
  assert (H4 : 2 <= 2) by lia.
  exact (paginated_fetch_concat three_pages 2 2 no_client_record programs_config "staff"
           "programs" (client_serving three_pages) None (Some "programs") true
           eq_refl H2 eq_refl three_pages_last H3 H4 (fun _ => eq_refl)).
Defined.

(** ** One iteration of the loop *)

Lemma pagination_loop_one fuel ep q res page (nxt : option string) h r :
  truthy nxt = true ->
  (forall qs, ep (length (requests (log h))) None qs = Returns r) ->
  pagination_loop (S fuel) ep q res page nxt h =
  (iadd_results res r ;; pagination_loop fuel ep q res (page + 1) (get_next r))
    (emit (Request None (<["page" := QInt (page + 1)]> (deref_querystring q h)) (Returns r))
       (snd (setitem q "page" (QInt (page + 1)) h))).
Proof.
  intros Hn Hep. rewrite pagination_loop_step by done. rewrite bind_run.
  pose proof (deref_setitem q "page" (QInt (page + 1)) h) as Hd.
  destruct (setitem q "page" (QInt (page + 1)) h) as [o1 h1] eqn:Hs.
  assert (o1 = Done tt /\ log h1 = log h) as (-> & Hl1).
  { unfold setitem in Hs. inversion Hs; subst. by destruct q. }
  simpl in Hd. simpl snd. rewrite bind_run. unfold endpoint_get.
  rewrite Hl1, Hep, Hd. reflexivity.
Qed.

Lemma pagination_loop_raises fuel ep q res page (nxt : option string) h x :
  truthy nxt = true ->
  (forall qs, ep (length (requests (log h))) None qs = Raises x) ->
  pagination_loop (S fuel) ep q res page nxt h =
  (Raised x,
   emit (Request None (<["page" := QInt (page + 1)]> (deref_querystring q h)) (Raises x))
     (snd (setitem q "page" (QInt (page + 1)) h))).
Proof.
  intros Hn Hep. rewrite pagination_loop_step by done. rewrite bind_run.
  pose proof (deref_setitem q "page" (QInt (page + 1)) h) as Hd.
  destruct (setitem q "page" (QInt (page + 1)) h) as [o1 h1] eqn:Hs.
  assert (o1 = Done tt /\ log h1 = log h) as (-> & Hl1).
  { unfold setitem in Hs. inversion Hs; subst. by destruct q. }
  simpl in Hd. simpl snd. rewrite bind_run. unfold endpoint_get.
  rewrite Hl1, Hep, Hd. reflexivity.
Qed.

Lemma pages_after_S (pages : nat -> response) (j d : nat) :
  pages_after pages j (S d) = pages (S j) :: pages_after pages (S j) d.
Proof. reflexivity. Qed.

Lemma answers_S ep (pages : nat -> response) (j d : nat) :
  answers ep pages j (S d) ->
  (forall rid qs, ep (S j) rid qs = Returns (pages (S j))) /\ answers ep pages (S j) d.
Proof.
  intros Ha. split.
  - intros rid qs. specialize (Ha 1 rid qs). rewrite Nat.add_1_r in Ha. apply Ha. lia.
  - intros i rid qs Hi. replace (S j + i) with (j + S i) by lia. apply Ha. lia.
Qed.

(** [d] iterations against an endpoint that answers them with pages whose
    predecessors all have a truthy [next]: what is left to run, and what
    the store holds by then. *)
Lemma pagination_loop_segment ep (pages : nat -> response) d : forall fuel q res page j h,
  length (requests (log h)) = S j ->
  answers ep pages j d ->
  (forall i, i < d -> truthy (get_next (pages (j + i))) = true) ->
  (res = NoDataObj -> exists nd, no_data_obj h = NoDataList nd) ->
  exists hd,
    pagination_loop (d + fuel) ep q res page (get_next (pages j)) h =
      pagination_loop fuel ep q res (page + Z.of_nat d) (get_next (pages (j + d))) hd /\
    length (requests (log hd)) = S j + d /\
    (res = FirstResults ->
     no_data_obj hd = no_data_obj h /\
     first_results hd =
       first_results h ++
       concat ((fun p => default (iter_no_data (no_data_obj h)) (results p)) <$>
               pages_after pages j d)) /\
    (forall nd, res = NoDataObj -> no_data_obj h = NoDataList nd ->
       no_data_obj hd = NoDataList (fold_left gather (pages_after pages j d) nd)).
Proof.
  induction d as [| d IH]; intros fuel q res page j h Hlen Hans Htrue Hnd.
  - exists h. rewrite Nat.add_0_r, Z.add_0_r. simpl. rewrite app_nil_r.
    repeat split; try done; lia.
  - apply answers_S in Hans as [Hfirst Hans].
    assert (Hn : truthy (get_next (pages j)) = true).
    { specialize (Htrue 0). rewrite Nat.add_0_r in Htrue. apply Htrue. lia. }
    change (S d + fuel) with (S (d + fuel)).
    rewrite (pagination_loop_one _ _ _ _ _ _ _ (pages (S j)) Hn)
      by (intros qs; rewrite Hlen; apply Hfirst).
    set (h1 := emit _ _).
    assert (Hh1 : length (requests (log h1)) = S (S j) /\ no_data_obj h1 = no_data_obj h /\
                  first_results h1 = first_results h).
    { unfold h1. destruct q; simpl; rewrite requests_app, length_app, Hlen; simpl;
        repeat split; lia. }
    destruct Hh1 as (Hlen1 & Hnd1 & Hfr1).
    rewrite bind_run. unfold iadd_results. rewrite Hnd1, Hfr1.
    destruct res.
    + destruct (Hnd eq_refl) as [nd Hl]. rewrite Hl.
      set (h2 := set_no_data_obj _ h1).
      destruct (IH fuel q NoDataObj (page + 1)%Z (S j) h2) as (hd & Hrun & Hlend & _ & Hgather).
      * done.
      * done.
      * intros i Hi. replace (S j + i) with (j + S i) by lia. apply Htrue. lia.
      * intros _. by eexists.
      * exists hd. replace (page + Z.of_nat (S d))%Z with (page + 1 + Z.of_nat d)%Z by lia.
        replace (j + S d) with (S j + d) by lia.
        split; [exact Hrun |]. split; [lia |]. split; [done |].
        intros nd' _ Hl'. rewrite ?Hl in Hl'. inversion Hl'; subst nd'.
        rewrite pages_after_S. simpl fold_left. by apply Hgather.
    + set (h2 := set_first_results _ h1).
      destruct (IH fuel q FirstResults (page + 1)%Z (S j) h2) as (hd & Hrun & Hlend & Hfirst' & _).
      * done.
      * done.
      * intros i Hi. replace (S j + i) with (j + S i) by lia. apply Htrue. lia.
      * done.
      * exists hd. replace (page + Z.of_nat (S d))%Z with (page + 1 + Z.of_nat d)%Z by lia.
        replace (j + S d) with (S j + d) by lia.
        split; [exact Hrun |]. split; [lia |]. split; [| done].
        intros _. destruct (Hfirst' eq_refl) as [Hn2 Hf2].
        assert (Hnd2 : no_data_obj h2 = no_data_obj h) by exact Hnd1.
        assert (Hfr2 : first_results h2 =
                       first_results h ++
                       default (iter_no_data (no_data_obj h)) (results (pages (S j))))
          by reflexivity.
        split; [by rewrite Hn2 |].
        rewrite Hf2, pages_after_S, fmap_cons, Hnd2, Hfr2. simpl concat.
        by rewrite <- app_assoc.
Qed.

Lemma last_page_answers_true (pages : nat -> response) (k : nat) :
  last_page pages k -> forall i, i < k -> truthy (get_next (pages (0 + i))) = true.
Proof. intros [_ Ht] i Hi. by apply Ht. Qed.

Lemma concat_pages_after (pages : nat -> response) (k : nat) (l0 : list item) :
  results (pages 0) = Some l0 ->
  l0 ++ concat ((fun p => default [] (results p)) <$> pages_after pages 0 k) =
  concat ((fun i => default [] (results (pages i))) <$> seq 0 (S k)).
Proof.
  intros H0. unfold pages_after. rewrite <- cons_seq, fmap_cons. simpl concat.
  rewrite H0. simpl. f_equal. by rewrite <- list_fmap_compose.
Qed.

(** ** [_traverse_pagination] and pages without ['results'] *)

(** When the first response carries a [results] list and the [no_data]
    argument is empty ([[]] or [{}]), a later page without ['results'] adds
    nothing: the traversal returns the concatenation of the lists that are
    there, and leaves the [no_data] object as it was. *)
Theorem traverse_pagination_skips_missing ep (pages : nat -> response) (k fuel : nat)
    (q : querystring_ref) (h : heap) :
  length (requests (log h)) = 1 ->
  results (pages 0) <> None ->
  iter_no_data (no_data_obj h) = [] ->
  answers ep pages 0 k ->
  last_page pages k ->
  k <= fuel ->
  fst (_traverse_pagination fuel (pages 0) ep q h) =
    Done (DList (concat ((fun i => default [] (results (pages i))) <$> seq 0 (S k)))) /\
  no_data_obj (snd (_traverse_pagination fuel (pages 0) ep q h)) = no_data_obj h.
Proof.
  intros Hlen H0 Hempty Hans Hlast Hfuel.
  destruct (results (pages 0)) as [l0 |] eqn:Hr0; [clear H0 | done].
  unfold _traverse_pagination. rewrite bind_run. unfold bind_results. rewrite Hr0.
  rewrite bind_run.
  destruct (pagination_loop_segment ep pages k (fuel - k) q FirstResults 1%Z 0
              (set_first_results l0 h)) as (hd & Hrun & _ & Hfirst & _); try done.
  { by apply last_page_answers_true. }
  replace (k + (fuel - k)) with fuel in Hrun by lia. rewrite Hrun.
  rewrite pagination_loop_stop by apply Hlast.
  destruct (Hfirst eq_refl) as [Hnd Hfr]. simpl. rewrite Hfr, Hnd. simpl.
  split; [| done]. rewrite Hempty. by rewrite (concat_pages_after pages k l0 Hr0).
Qed.

(** When the first response has no ['results'] key, line 99 binds [results]
    to the [no_data] list itself.  Each later page then extends that list in
    place with its results or, when it has none either, with the list
    itself; the traversal returns the [no_data] object, which the caller
    still holds. *)
Theorem traverse_pagination_aliased ep (pages : nat -> response) (k fuel : nat)
    (q : querystring_ref) (h : heap) (nd : list item) :
  length (requests (log h)) = 1 ->
  results (pages 0) = None ->
  no_data_obj h = NoDataList nd ->
  answers ep pages 0 k ->
  last_page pages k ->
  k <= fuel ->
  fst (_traverse_pagination fuel (pages 0) ep q h) =
    Done (DList (fold_left gather (pages_after pages 0 k) nd)) /\
  no_data_obj (snd (_traverse_pagination fuel (pages 0) ep q h)) =
    NoDataList (fold_left gather (pages_after pages 0 k) nd).
Proof.
  intros Hlen Hr0 Hnd Hans Hlast Hfuel.
  unfold _traverse_pagination. rewrite bind_run. unfold bind_results. rewrite Hr0.
  rewrite bind_run.
  destruct (pagination_loop_segment ep pages k (fuel - k) q NoDataObj 1%Z 0 h)
    as (hd & Hrun & _ & _ & Hgather); try done.
  { by apply last_page_answers_true. }
  { intros _. by eexists. }
  replace (k + (fuel - k)) with fuel in Hrun by lia. rewrite Hrun.
  rewrite pagination_loop_stop by apply Hlast.
  simpl. by rewrite (Hgather nd eq_refl Hnd).
Qed.

(** [_traverse_pagination] has no handler: when the request that follows
    page [d] raises, the exception leaves it.  By then the [no_data] object
    holds what was gathered if the first response had no ['results'], and is
    untouched otherwise. *)
Theorem traverse_pagination_raises ep (pages : nat -> response) (d fuel : nat)
    (q : querystring_ref) (h : heap) (x : exn) :
  length (requests (log h)) = 1 ->
  (results (pages 0) = None -> exists nd, no_data_obj h = NoDataList nd) ->
  answers ep pages 0 d ->
  (forall i, i <= d -> truthy (get_next (pages i)) = true) ->
  (forall rid qs, ep (S d) rid qs = Raises x) ->
  d < fuel ->
  fst (_traverse_pagination fuel (pages 0) ep q h) = Raised x /\
  (results (pages 0) <> None ->
   no_data_obj (snd (_traverse_pagination fuel (pages 0) ep q h)) = no_data_obj h) /\
  (forall nd, results (pages 0) = None -> no_data_obj h = NoDataList nd ->
     no_data_obj (snd (_traverse_pagination fuel (pages 0) ep q h)) =
       NoDataList (fold_left gather (pages_after pages 0 d) nd)).
Proof.
  intros Hlen Hlist Hans Htrue Hraise Hfuel.
  unfold _traverse_pagination. rewrite bind_run. unfold bind_results.
  set (res := match results (pages 0) with Some _ => FirstResults | None => NoDataObj end).
  set (h1 := match results (pages 0) with Some l => set_first_results l h | None => h end).
  assert (Hb : match results (pages 0) with
               | Some l => (Done FirstResults, set_first_results l h)
               | None => (Done NoDataObj, h)
               end = (Done res, h1)) by (unfold res, h1; by destruct (results (pages 0))).
  rewrite Hb. clear Hb.
  assert (Hh1 : length (requests (log h1)) = 1 /\ no_data_obj h1 = no_data_obj h)
    by (unfold h1; by destruct (results (pages 0))).
  destruct Hh1 as [Hlen1 Hnd1].
  rewrite bind_run.
  destruct (pagination_loop_segment ep pages d (S (fuel - S d)) q res 1%Z 0 h1)
    as (hd & Hrun & Hlend & Hfirst & Hgather); try done.
  { intros i Hi. apply Htrue. lia. }
  { unfold res. rewrite Hnd1. destruct (results (pages 0)); [done | auto]. }
  replace (d + S (fuel - S d)) with fuel in Hrun by lia. rewrite Hrun.
  rewrite (pagination_loop_raises _ _ _ _ _ _ _ x) by
    (try (apply Htrue; lia); intros qs; rewrite Hlend; apply Hraise).
  simpl. split; [done |]. split.
  - intros Hr. destruct (Hfirst ltac:(unfold res; by destruct (results (pages 0))))
      as [Hn _]. destruct q; simpl; by rewrite Hn, Hnd1.
  - intros nd Hr Hl. rewrite <- Hnd1 in Hl.
    rewrite <- (Hgather nd ltac:(unfold res; by rewrite Hr) Hl). by destruct q.
Qed.

(** ** A call with a supplied client *)

Lemma fetch_supplied fuel E cfg u resource (a : api_client) rid querystring ck h :
  fetch fuel E cfg u resource (Some a) rid querystring ck h =
  match retrieve fuel a resource rid querystring h with
  | (Done v, h') =>
      if truthy ck
      then match cache_set E (default "" ck) v (cache_ttl cfg) with
           | Returns _ => (Done v, emit (CacheSet (default "" ck) v (cache_ttl cfg)) h')
           | Raises e => (Raised e, emit (CacheSet (default "" ck) v (cache_ttl cfg)) h')
           end
      else (Done v, h')
  | (Raised e, h') =>
      (Done (data_of_no_data (no_data_obj h')), emit (LogException (retrieve_msg cfg) e) h')
  | (OutOfFuel, h') => (OutOfFuel, h')
  end.
Proof.
  unfold fetch. rewrite bind_run. unfold try_except at 1. rewrite fmap_run.
  unfold ensure_client. change (truthy a) with true. cbn [negb]. unfold mret at 1, M_ret at 1.
  cbv beta iota. rewrite bind_run. unfold try_except at 1. rewrite fmap_run.
  destruct (retrieve fuel a resource rid querystring h) as [[v | e |] h']; try reflexivity.
  rewrite bind_run. destruct (truthy ck); [| reflexivity].
  unfold call. by destruct (cache_set E (default "" ck) v (cache_ttl cfg)).
Qed.

Lemma retrieve_first_page fuel (a : api_client) resource querystring h ep r0 :
  getattr a resource = Returns ep ->
  requests (log h) = [] ->
  (forall qs, ep 0 None qs = Returns r0) ->
  retrieve fuel a resource None querystring h =
  _traverse_pagination fuel r0 ep (if truthy querystring then CallerDict else FreshDict)
    (emit (Request None
             (deref_querystring (if truthy querystring then CallerDict else FreshDict) h)
             (Returns r0))
       (emit (GetAttr resource) h)).
Proof.
  intros Hattr Hreq Hep.
  unfold retrieve. rewrite bind_run. unfold call at 1. rewrite Hattr.
  rewrite bind_run. unfold endpoint_get.
  assert (Hzero : length (requests (log (emit (GetAttr resource) h))) = 0).
  { simpl. by rewrite requests_app, Hreq. }
  rewrite Hzero, Hep. unfold call. by destruct (truthy querystring).
Qed.

Lemma answers_serve_then_raise (pages : nat -> response) (d : nat) (x : exn) :
  answers (serve_then_raise pages (S d) x) pages 0 d.
Proof.
  intros i rid qs Hi. unfold serve_then_raise. simpl.
  destruct (Nat.ltb_spec i (S d)); [done | lia].
Qed.

(** The state in which [fetch] starts after a cache miss. *)
Lemma after_miss_state (querystring : option (gmap string qval)) (cache_key : option string)
    (rid : option resource_id_t) (many : bool) :
  let h := emits (if truthy cache_key
                  then [CacheGet (derived_key (default "" cache_key) rid)] else [])
             (set_no_data_obj (if many then NoDataList [] else NoDataDict)
                (initial_heap querystring)) in
  requests (log h) = [] /\
  no_data_obj h = (if many then NoDataList [] else NoDataDict) /\
  caller_dict h = querystring.
Proof. simpl. by destruct (truthy cache_key). Qed.

Lemma first_request_logged h resource rid qs (r : reply response) :
  requests (log h) = [] ->
  length (requests (log (emit (Request rid qs r) (emit (GetAttr resource) h)))) = 1.
Proof. intros Hreq. simpl. by rewrite !requests_app, Hreq. Qed.

(** ** Failures after the first page *)

(** A paginated fetch with [many=True] whose first response has no
    ['results'] key and whose request after page [d] raises: the handler of
    line 84 returns the [no_data] list, which by then holds what pages
    [1..d] gave, and logs the failure. *)
Theorem failure_returns_gathered_results (pages : nat -> response) (d fuel : nat) (x : exn)
    E cfg u resource (a : api_client) querystring cache_key :
  enabled cfg = true ->
  (truthy cache_key = false \/
   exists c, cache_get E (derived_key (default "" cache_key) None) = Returns c /\
             truthy c = false) ->
  getattr a resource = Returns (serve_then_raise pages (S d) x) ->
  results (pages 0) = None ->
  (forall i, i <= d -> truthy (get_next (pages i)) = true) ->
  d < fuel ->
  fst (run fuel E cfg u resource (Some a) None querystring cache_key true) =
    Done (DList (fold_left gather (pages_after pages 0 d) [])) /\
  last (log (snd (run fuel E cfg u resource (Some a) None querystring cache_key true))) =
    Some (LogException ("Failed to retrieve data from the " +:+ API_NAME cfg +:+ " API.") x).
Proof.
  intros Hen Hmiss Hattr Hr0 Htrue Hfuel.
  rewrite run_cache_missed by done.
  set (h := emits _ _).
  destruct (after_miss_state querystring cache_key None true) as (Hreq & Hnd & _).
  fold h in Hreq, Hnd.
  rewrite fetch_supplied.
  rewrite (retrieve_first_page _ _ _ _ _ _ (pages 0) Hattr Hreq) by done.
  set (q := if truthy querystring then CallerDict else FreshDict).
  set (h1 := emit _ (emit _ h)).
  destruct (traverse_pagination_raises (serve_then_raise pages (S d) x) pages d fuel q h1 x)
    as (Hfst & _ & Hgather); try done.
  { by apply first_request_logged. }
  { intros _. by exists []. }
  { apply answers_serve_then_raise. }
  { intros rid qs. unfold serve_then_raise. by rewrite Nat.ltb_irrefl. }
  specialize (Hgather [] Hr0 Hnd).
  destruct (_traverse_pagination fuel (pages 0) (serve_then_raise pages (S d) x) q h1)
    as [o h'].
  simpl in Hfst, Hgather. subst o. simpl. rewrite Hgather. split; [done |].
  apply last_snoc.
Qed.

Lemma page_request_logged q key v h qs (r : reply response) :
  length (requests (log (emit (Request None qs r) (snd (setitem q key v h))))) =
    S (length (requests (log h))) /\
  no_data_obj (emit (Request None qs r) (snd (setitem q key v h))) = no_data_obj h.
Proof.
  destruct q; simpl; rewrite requests_app, length_app; simpl; split; first [lia | done].
Qed.

(** With [many=False] the [no_data] object is the dict [{}], which has no
    [+=].  When the first response has no ['results'] key but a truthy
    [next], the second response, whatever it holds, makes line 107 raise
    [TypeError]; line 84 catches it and the call returns [{}] after two
    requests. *)
Theorem dict_no_data_raises_type_error (p0 p1 : response) (fuel : nat) E cfg u resource
    (a : api_client) (ep : endpoint) querystring cache_key :
  enabled cfg = true ->
  (truthy cache_key = false \/
   exists c, cache_get E (derived_key (default "" cache_key) None) = Returns c /\
             truthy c = false) ->
  getattr a resource = Returns ep ->
  (forall qs, ep 0 None qs = Returns p0) ->
  (forall qs, ep 1 None qs = Returns p1) ->
  results p0 = None ->
  truthy (get_next p0) = true ->
  0 < fuel ->
  fst (run fuel E cfg u resource (Some a) None querystring cache_key false) =
    Done (DDict empty_dict) /\
  last (log (snd (run fuel E cfg u resource (Some a) None querystring cache_key false))) =
    Some (LogException ("Failed to retrieve data from the " +:+ API_NAME cfg +:+ " API.")
            TypeError) /\
  length (requests
            (log (snd (run fuel E cfg u resource (Some a) None querystring cache_key false)))) = 2.
Proof.
  intros Hen Hmiss Hattr Hep0 Hep1 Hr0 Hn Hfuel.
  destruct fuel as [| fuel]; [lia |].
  rewrite run_cache_missed by done.
  set (h := emits _ _).
  destruct (after_miss_state querystring cache_key None false) as (Hreq & Hnd & _).
  fold h in Hreq, Hnd.
  rewrite fetch_supplied.
  rewrite (retrieve_first_page _ _ _ _ _ _ p0 Hattr Hreq) by done.
  set (q := if truthy querystring then CallerDict else FreshDict).
  set (h1 := emit _ (emit _ h)).
  assert (Hlen1 : length (requests (log h1)) = 1) by by apply first_request_logged.
  assert (Hnd1 : no_data_obj h1 = NoDataDict) by exact Hnd.
  unfold _traverse_pagination. rewrite bind_run. unfold bind_results. rewrite Hr0.
  rewrite bind_run.
  assert (Hep1' : forall qs, ep (length (requests (log h1))) None qs = Returns p1)
    by (intros qs; rewrite Hlen1; apply Hep1).
  rewrite (pagination_loop_one fuel ep q NoDataObj 1 (get_next p0) h1 p1 Hn Hep1').
  set (h2 := emit _ _).
  destruct (page_request_logged q "page" (QInt (1 + 1)) h1
              (<["page" := QInt (1 + 1)]> (deref_querystring q h1)) (Returns p1))
    as [Hlen2 Hnd2].
  fold h2 in Hlen2, Hnd2. rewrite Hlen1 in Hlen2. rewrite Hnd1 in Hnd2.
  clearbody h2. rewrite bind_run. unfold iadd_results. rewrite Hnd2. simpl.
  rewrite Hnd2. split; [done |]. split; [apply last_snoc |].
  by rewrite requests_app, length_app, Hlen2.
Qed.

Lemma traverse_pagination_skips_missing_witness :
  fst (_traverse_pagination 1
         {| results := Some ["a"]; next := Some (Some "/programs/?page=2"); extra := ∅ |}
         (serve (fun n => match n with
                          | 0 => {| results := Some ["a"];
                                    next := Some (Some "/programs/?page=2"); extra := ∅ |}
                          | _ => {| results := None; next := None; extra := ∅ |}
                          end))
         FreshDict (first_page_fetched three_pages)) = Done (DList ["a"]).
Proof.
  set (pages := fun n => match n with
                         | 0 => {| results := Some ["a"];
                                   next := Some (Some "/programs/?page=2"); extra := ∅ |}
                         | _ => {| results := None; next := None; extra := ∅ |}
                         end).
  assert (H2 : results (pages 0) <> None) by discriminate.
  assert (H4 : answers (serve pages) pages 0 1) by (intros i rid qs _; reflexivity).
  assert (H5 : last_page pages 1).
  { split; [reflexivity |]. intros i Hi. by replace i with 0 by lia. }
  assert (H6 : 1 <= 1) by lia.
  exact (proj1 (traverse_pagination_skips_missing (serve pages) pages 1 1 FreshDict
                  (first_page_fetched three_pages) eq_refl H2 eq_refl H4 H5 H6)).
Defined.

Lemma sparse_pages_last : last_page sparse_pages 2.
Proof.
  split; [reflexivity |]. intros [| [| i]] Hi; [reflexivity | reflexivity | lia].
Defined.

Lemma traverse_pagination_aliased_witness :
  fst (_traverse_pagination 2 (sparse_pages 0) (serve sparse_pages) FreshDict
         (first_page_fetched sparse_pages)) = Done (DList ["a"; "a"]) /\
  no_data_obj (snd (_traverse_pagination 2 (sparse_pages 0) (serve sparse_pages) FreshDict
                      (first_page_fetched sparse_pages))) = NoDataList ["a"; "a"].
Proof.
  assert (H4 : answers (serve sparse_pages) sparse_pages 0 2)
    by (intros i rid qs _; reflexivity).
  assert (H6 : 2 <= 2) by lia.
  exact (traverse_pagination_aliased (serve sparse_pages) sparse_pages 2 2 FreshDict
           (first_page_fetched sparse_pages) [] eq_refl eq_refl eq_refl H4 sparse_pages_last H6).
Defined.

Lemma traverse_pagination_raises_witness :
  fst (_traverse_pagination 2 (sparse_pages 0) (serve_then_raise sparse_pages 2 (Error "reset"))
         FreshDict (first_page_fetched sparse_pages)) = Raised (Error "reset") /\
  no_data_obj (snd (_traverse_pagination 2 (sparse_pages 0)
                      (serve_then_raise sparse_pages 2 (Error "reset"))
                      FreshDict (first_page_fetched sparse_pages))) = NoDataList ["a"].
Proof.
  assert (H2 : results (sparse_pages 0) = None -> exists nd,
               no_data_obj (first_page_fetched sparse_pages) = NoDataList nd)
    by (intros _; by exists []).
  assert (H4 : forall i, i <= 1 -> truthy (get_next (sparse_pages i)) = true).
  { intros [| [| i]] Hi; [reflexivity | reflexivity | lia]. }
  assert (H5 : forall rid qs, serve_then_raise sparse_pages 2 (Error "reset") 2 rid qs =
                              Raises (Error "reset")) by reflexivity.
  assert (H6 : 1 < 2) by lia.
  destruct (traverse_pagination_raises (serve_then_raise sparse_pages 2 (Error "reset"))
              sparse_pages 1 2 FreshDict (first_page_fetched sparse_pages) (Error "reset")
              eq_refl H2 (answers_serve_then_raise sparse_pages 1 (Error "reset")) H4 H5 H6)
    as (Hfst & _ & Hnd).
  split; [exact Hfst | exact (Hnd [] eq_refl eq_refl)].
Defined.

Lemma failure_returns_gathered_results_witness :
  fst (run 2 no_client_record programs_config "staff" "programs"
         (Some {| getattr := fun _ => Returns (serve_then_raise sparse_pages 2 (Error "reset")) |})
         None None None true) = Done (DList ["a"]).
Proof.
  assert (H2 : truthy (None : option string) = false \/
               exists c, cache_get no_client_record (derived_key (default "" None) None) =
                           Returns c /\ truthy c = false) by (left; reflexivity).
  assert (H4 : forall i, i <= 1 -> truthy (get_next (sparse_pages i)) = true).
  { intros [| [| i]] Hi; [reflexivity | reflexivity | lia]. }
  assert (H6 : 1 < 2) by lia.
  exact (proj1 (failure_returns_gathered_results sparse_pages 1 2 (Error "reset")
                  no_client_record programs_config "staff" "programs"
                  {| getattr := fun _ => Returns (serve_then_raise sparse_pages 2 (Error "reset")) |}
                  None None eq_refl H2 eq_refl eq_refl H4 H6)).
Defined.

Lemma dict_no_data_raises_type_error_witness :
  fst (run 1 no_client_record programs_config "staff" "programs"
         (Some (client_serving sparse_pages)) None None None false) = Done (DDict empty_dict) /\
  last (log (snd (run 1 no_client_record programs_config "staff" "programs"
                    (Some (client_serving sparse_pages)) None None None false))) =
    Some (LogException "Failed to retrieve data from the programs API." TypeError) /\
  length (requests (log (snd (run 1 no_client_record programs_config "staff" "programs"
            (Some (client_serving sparse_pages)) None None None false)))) = 2.
Proof.
  assert (H2 : truthy (None : option string) = false \/
               exists c, cache_get no_client_record (derived_key (default "" None) None) =
                           Returns c /\ truthy c = false) by (left; reflexivity).
  assert (H8 : 0 < 1) by lia.
  exact (dict_no_data_raises_type_error (sparse_pages 0) (sparse_pages 1) 1 no_client_record
           programs_config "staff" "programs" (client_serving sparse_pages) (serve sparse_pages)
           None None eq_refl H2 eq_refl (fun _ => eq_refl) (fun _ => eq_refl)
           eq_refl eq_refl H8).
Defined.

(** ** The caller's query string parameters *)

(** Whatever a call does, the only key it ever writes into the caller's
    dict is ['page'] (line 105): every other parameter is still there, with
    its value, and none is added. *)
Theorem caller_parameters_preserved fuel E cfg u resource api rid querystring cache_key many :
  delete "page" <$> caller_dict (snd (run fuel E cfg u resource api rid querystring cache_key many)) =
  delete "page" <$> querystring.
Proof.
  destruct (run fuel E cfg u resource api rid querystring cache_key many) as [o0 h0] eqn:Hrun.
  run_cases Hrun; try by rewrite Hc.
  rewrite Hc. destruct (truthy querystring && bool_decide (2 <= length reqs)) eqn:Hb; [| done].
  apply andb_prop in Hb as [Hq _]. unfold query_params. rewrite Hq.
  destruct querystring as [qs |]; [| done]. simpl. by rewrite delete_insert_eq.
Qed.

(** ** The cache *)

Lemma cache_set_setup (l : list event) :
  Forall (fun e => is_setup e = true) l -> Forall (fun e => is_cache_access e = false) l.
Proof. intros H. eapply Forall_impl; [exact H |]. by intros []. Qed.

Lemma cache_set_requests (l : list event) :
  Forall (fun e => is_request e = true) l -> Forall (fun e => is_cache_access e = false) l.
Proof. intros H. eapply Forall_impl; [exact H |]. by intros []. Qed.

Lemma cache_access_cache_set (l : list event) :
  Forall (fun e => is_cache_access e = false) l -> Forall (fun e => is_cache_set e = false) l.
Proof. intros H. eapply Forall_impl; [exact H |]. by intros []. Qed.

Lemma cache_set_cache_missed E rid cache_key pre :
  cache_missed E rid cache_key pre -> Forall (fun e => is_cache_set e = false) pre.
Proof. intros [[_ ->] | (_ & -> & _)]; by repeat constructor. Qed.

Lemma cache_set_elem_of (l : list event) k v t :
  Forall (fun e => is_cache_set e = false) l -> CacheSet k v t ∈ l -> False.
Proof. rewrite Forall_forall. intros Hall Hin. by specialize (Hall _ Hin). Qed.

(** What precedes the last event of a call that reached line 76. *)
Lemma retrieved_prefix E rid cache_key resource pre setup reqs :
  cache_missed E rid cache_key pre ->
  Forall (fun e => is_setup e = true) setup ->
  Forall (fun e => is_request e = true) reqs ->
  Forall (fun e => is_cache_set e = false) (pre ++ setup ++ GetAttr resource :: reqs) /\
  Forall (fun e => is_log_exception e = false) (pre ++ setup ++ GetAttr resource :: reqs) /\
  requests (pre ++ setup ++ GetAttr resource :: reqs) = reqs.
Proof.
  intros Hpre Hsetup Hreqs. split; [| split].
  - rewrite !Forall_app, Forall_cons. split; [by eapply cache_set_cache_missed |].
    split; [by apply cache_access_cache_set, cache_set_setup |].
    split; [done | by apply cache_access_cache_set, cache_set_requests].
  - rewrite !Forall_app, Forall_cons. split; [by eapply log_exception_cache_missed |].
    split; [by apply log_exception_setup |]. split; [done | by apply log_exception_requests].
  - change (GetAttr resource :: reqs) with ([GetAttr resource] ++ reqs).
    rewrite !requests_app, (requests_cache_missed _ _ _ _ Hpre), (requests_setup _ Hsetup),
      (requests_all _ Hreqs). reflexivity.
Qed.

(** The cache is written at most once, as the last thing a call does, and
    only by a call that made requests and caught no exception: the value a
    handler returns after a failure is never stored.  The write is made under
    the derived key with the configuration's [cache_ttl], and stores the value
    the call returns (unless the write itself raises, see line 89). *)
Theorem cache_written_only_on_success fuel E cfg u resource api rid querystring cache_key many
    k v t :
  CacheSet k v t ∈ log (snd (run fuel E cfg u resource api rid querystring cache_key many)) ->
  exists l,
    log (snd (run fuel E cfg u resource api rid querystring cache_key many)) =
      l ++ [CacheSet k v t] /\
    Forall (fun e => is_cache_set e = false) l /\
    Forall (fun e => is_log_exception e = false) l /\
    requests l <> [] /\
    truthy cache_key = true /\ k = the_key cache_key rid /\ t = cache_ttl cfg /\
    (fst (run fuel E cfg u resource api rid querystring cache_key many) = Done v \/
     exists e, cache_set E k v t = Raises e /\
               fst (run fuel E cfg u resource api rid querystring cache_key many) = Raised e).
Proof.
  destruct (run fuel E cfg u resource api rid querystring cache_key many) as [o0 h0] eqn:Hrun.
  run_cases Hrun; rewrite Hlog; intros Hin.
  1-3: by apply list_elem_of_singleton in Hin.
  - exfalso. rewrite app_assoc in Hin. apply elem_of_app in Hin as [Hin | Hin].
    + apply elem_of_app in Hin as [Hin | Hin].
      * by eapply cache_set_elem_of; [eapply cache_set_cache_missed |].
      * by eapply cache_set_elem_of; [apply cache_access_cache_set, cache_set_setup |].
    + by apply list_elem_of_singleton in Hin.
  - destruct (retrieved_prefix _ _ _ resource _ _ _ Hpre Hsetup Hreqs) as (Hcs & Hle & Hrq).
    assert (Hl : pre ++ setup ++ GetAttr resource :: reqs ++ post =
                 (pre ++ setup ++ GetAttr resource :: reqs) ++ post).
    { by rewrite <- !app_assoc. }
    rewrite Hl in Hin |- *.
    apply elem_of_app in Hin as [Hin | Hin]; [by destruct (cache_set_elem_of _ _ _ _ Hcs Hin) |].
    destruct Hfin as [e | | v0 Hck | v0 Hck Hset | v0 e Hck Hset].
    + by apply list_elem_of_singleton in Hin.
    + by apply elem_of_nil in Hin.
    + by apply elem_of_nil in Hin.
    + apply list_elem_of_singleton in Hin. inversion Hin; subst.
      exists (pre ++ setup ++ GetAttr resource :: reqs). rewrite Hrq.
      repeat split; try done; [by eapply Hne | by left].
    + apply list_elem_of_singleton in Hin. inversion Hin; subst.
      exists (pre ++ setup ++ GetAttr resource :: reqs). rewrite Hrq.
      repeat split; try done; [by eapply Hne | right; eauto].
Qed.

(** Without a cache key (omitted, [None] or empty) the cache is neither
    read nor written, as the docstring says. *)
Theorem no_cache_key_no_cache_access fuel E cfg u resource api rid querystring cache_key many :
  truthy cache_key = false ->
  Forall (fun e => is_cache_access e = false)
    (log (snd (run fuel E cfg u resource api rid querystring cache_key many))).
Proof.
  intros Hck.
  destruct (run fuel E cfg u resource api rid querystring cache_key many) as [o0 h0] eqn:Hrun.
  run_cases Hrun; rewrite Hlog; try congruence.
  - by repeat constructor.
  - destruct Hpre as [[_ ->] | [Ht _]]; [| congruence].
    simpl. rewrite Forall_app. split; [by apply cache_set_setup | by repeat constructor].
  - destruct Hpre as [[_ ->] | [Ht _]]; [| congruence].
    simpl. rewrite Forall_app, Forall_cons, Forall_app.
    split; [by apply cache_set_setup |]. split; [done |].
    split; [by apply cache_set_requests |].
    destruct Hfin; try congruence; by repeat constructor.
Qed.

(** A falsy value in the cache (an empty list or dict, as a fetch of an
    empty collection stores) is the same as no value: the call goes on as if
    the cache held nothing under the key. *)
Theorem falsy_cached_value_is_a_miss fuel E cfg u resource api rid querystring cache_key many c :
  cache_get E (the_key cache_key rid) = Returns c ->
  truthy c = false ->
  run fuel E cfg u resource api rid querystring cache_key many =
  run fuel (with_cache_get (fun _ => Returns None) E) cfg u resource api rid querystring
    cache_key many.
Proof.
  intros Hget Hc.
  destruct (enabled cfg) eqn:Hen.
  2:{ unfold run, get_edx_api_data. rewrite !bind_run, Hen. reflexivity. }
  rewrite (run_cache_missed fuel E) by (try done; right; eauto).
  rewrite (run_cache_missed fuel (with_cache_get _ E)) by (try done; right; by exists None).
  reflexivity.
Qed.

(** ** A supplied client is the one used *)

Lemma fetch_supplied_no_setup fuel E cfg u resource (a : api_client) rid querystring ck h :
  Forall (fun e => is_setup e = false) (log h) ->
  Forall (fun e => is_setup e = false)
    (log (snd (fetch fuel E cfg u resource (Some a) rid querystring ck h))).
Proof.
  intros Hh. rewrite fetch_supplied.
  destruct (retrieve fuel a resource rid querystring h) as [o h'] eqn:Hr.
  apply retrieve_frame in Hr as (reqs & Hl & Hreqs & _).
  assert (Hl' : Forall (fun e => is_setup e = false) (log h')).
  { rewrite Hl, Forall_app, Forall_cons. split; [done |]. split; [done |].
    eapply Forall_impl; [exact Hreqs |]. by intros []. }
  destruct o as [v | e |]; simpl; [| by rewrite Forall_app, Forall_singleton | done].
  destruct (truthy ck); [| done].
  destruct (cache_set E (default "" ck) v (cache_ttl cfg)); simpl;
    by rewrite Forall_app, Forall_singleton.
Qed.

(** When the caller passes a client, no other is built: the call looks up
    no credential record, builds no token and constructs no client. *)
Theorem supplied_client_not_rebuilt fuel E cfg u resource (a : api_client) rid querystring
    cache_key many :
  Forall (fun e => is_setup e = false)
    (log (snd (run fuel E cfg u resource (Some a) rid querystring cache_key many))).
Proof.
  destruct (run fuel E cfg u resource (Some a) rid querystring cache_key many) as [o0 h0] eqn:Hrun.
  pose proof Hrun as Hshape.
  assert (Hmiss : forall pre, enabled cfg = true -> cache_missed E rid cache_key pre ->
            Forall (fun e => is_setup e = false) (log h0)).
  { intros pre Hen Hpre.
    rewrite run_cache_missed in Hrun.
    - replace h0 with (snd (o0, h0)) by reflexivity. rewrite <- Hrun.
      apply fetch_supplied_no_setup. simpl. destruct (truthy cache_key); by repeat constructor.
    - done.
    - destruct Hpre as [[Hck _] | (_ & _ & Hc)]; [by left | by right]. }
  run_cases Hshape; try (rewrite Hlog; by repeat constructor); by eapply Hmiss.
Qed.

(** ** Two calls and a cache *)

Lemma run_cache_hit fuel E cfg u resource api rid querystring cache_key many d :
  enabled cfg = true ->
  truthy cache_key = true ->
  cache_get E (the_key cache_key rid) = Returns (Some d) ->
  truthy d = true ->
  run fuel E cfg u resource api rid querystring cache_key many =
  (Done d,
   emit (CacheGet (the_key cache_key rid))
     (set_no_data_obj (if many then NoDataList [] else NoDataDict) (initial_heap querystring))).
Proof.
  intros Hen Hck Hget Hd.
  unfold run, get_edx_api_data. rewrite bind_run, Hen. cbn [negb]. rewrite bind_run, Hck.
  assert (Hk : truthy (Some (derived_key (default "" cache_key) rid)) = true).
  { destruct cache_key as [k |]; [| done]. by apply truthy_derived_key. }
  rewrite Hk. simpl default. fold (the_key cache_key rid). unfold call at 1.
  rewrite Hget. by rewrite Hd.
Qed.

Lemma cache_after_snoc (l : list event) (e : event) (m : gmap string data) :
  cache_after (l ++ [e]) m =
  match e with CacheSet k v _ => <[k := v]> (cache_after l m) | _ => cache_after l m end.
Proof. unfold cache_after. by rewrite fold_left_app. Qed.

(** With a cache that keeps what it is given, a call that fetched a
    non-empty value without catching an exception makes the next call with
    the same cache key and resource id a cache hit: whatever its other
    arguments, that call returns the same value and does nothing but read
    the cache. *)
Theorem second_call_served_from_cache (m : gmap string data) E cfg cache_key rid v
    fuel u resource api querystring many
    fuel' u' resource' api' querystring' many' :
  enabled cfg = true ->
  truthy cache_key = true ->
  fst (run fuel (with_dict_cache m E) cfg u resource api rid querystring cache_key many) =
    Done v ->
  truthy v = true ->
  Forall (fun e => is_log_exception e = false)
    (log (snd (run fuel (with_dict_cache m E) cfg u resource api rid querystring cache_key many))) ->
  run fuel'
    (with_dict_cache
       (cache_after
          (log (snd (run fuel (with_dict_cache m E) cfg u resource api rid querystring
                       cache_key many))) m) E)
    cfg u' resource' api' rid querystring' cache_key many' =
  (Done v,
   emit (CacheGet (the_key cache_key rid))
     (set_no_data_obj (if many' then NoDataList [] else NoDataDict) (initial_heap querystring'))).
Proof.
  intros Hen Hck.
  destruct (run fuel (with_dict_cache m E) cfg u resource api rid querystring cache_key many)
    as [o0 h0] eqn:Hrun.
  run_cases Hrun; intros Ho Hv Hquiet; try congruence.
  - inversion Ho; subst. rewrite Hlog. by apply run_cache_hit.
  - exfalso. rewrite Hlog, !Forall_app, Forall_singleton in Hquiet. by destruct Hquiet as (_ & _ & ?).
  - destruct Hfin as [e | | v0 Hck0 | v0 Hck0 Hset | v0 e Hck0 Hset]; try congruence.
    + exfalso. rewrite Hlog, !Forall_app, Forall_cons, Forall_app, Forall_singleton in Hquiet.
      by destruct Hquiet as (_ & _ & _ & _ & ?).
    + inversion Ho; subst.
      assert (Hl : log h = (pre ++ setup ++ GetAttr resource :: reqs) ++
                           [CacheSet (the_key cache_key rid) v (cache_ttl cfg)]).
      { rewrite Hlog. by rewrite <- !app_assoc. }
      rewrite Hl, cache_after_snoc. apply run_cache_hit; try done.
      simpl. by rewrite lookup_insert_eq.
Qed.

(** ** Cache keys *)

(** Under one cache key, two resource ids share a cache entry only when
    they are written alike (so distinct integer ids never do), and the entry
    of a resource is never the entry of the collection. *)
Theorem derived_key_separates (k : string) (r1 r2 : resource_id_t) :
  (derived_key k (Some r1) = derived_key k (Some r2) <-> format_id r1 = format_id r2) /\
  (forall a b : Z, derived_key k (Some (IdInt a)) = derived_key k (Some (IdInt b)) -> a = b) /\
  derived_key k (Some r1) <> derived_key k None.
Proof.
  assert (Hinj : forall x y, k +:+ "." +:+ x = k +:+ "." +:+ y -> x = y).
  { intros x y H. apply (inj (String.app k)) in H. by apply (inj (String.app ".")) in H. }
  split; [| split].
  - split; [apply Hinj | unfold derived_key; by intros ->].
  - intros a b H. apply Hinj in H. simpl in H. by apply pretty_Z_inj in H.
  - assert (Hnil : forall s : string, s +:+ "" = s).
    { intros s. induction s as [| c s IH]; [reflexivity |].
      change (String c (s +:+ "") = String c s). by rewrite IH. }
    simpl. intros H. rewrite <- (Hnil k) in H at 2.
    by apply (inj (String.app k)) in H.
Qed.

(** ** A client built by the call is used like a supplied one *)

Section Alike.
Variables (pre setup : list event).
Hypothesis Hsetup : requests setup = [].

Lemma same_but_emit (e : event) (h1 h2 : heap) :
  same_but pre setup h1 h2 -> same_but pre setup (emit e h1) (emit e h2).
Proof.
  intros (H1 & H2 & H3 & H4 & rest & Hl1 & Hl2). repeat split; try done.
  exists (rest ++ [e]). simpl. rewrite Hl1, Hl2. by rewrite <- !app_assoc.
Qed.

Lemma same_but_requests (h1 h2 : heap) :
  same_but pre setup h1 h2 -> requests (log h1) = requests (log h2).
Proof.
  intros (_ & _ & _ & _ & rest & -> & ->). by rewrite !requests_app, Hsetup.
Qed.

Lemma same_but_deref (q : querystring_ref) (h1 h2 : heap) :
  same_but pre setup h1 h2 -> deref_querystring q h1 = deref_querystring q h2.
Proof. intros (H1 & H2 & _). destruct q; simpl; congruence. Qed.

Lemma alike_ret {A : Type} (x : A) : alike pre setup (mret x).
Proof. by intros h1 h2 H. Qed.

Lemma alike_bind {A B : Type} (m : M A) (f : A -> M B) :
  alike pre setup m -> (forall x, alike pre setup (f x)) -> alike pre setup (m ≫= f).
Proof.
  intros Hm Hf h1 h2 H. rewrite !bind_run. destruct (Hm h1 h2 H) as [Ho Hs].
  destruct (m h1) as [o1 h1'], (m h2) as [o2 h2']. simpl in Ho, Hs. subst o2.
  destruct o1 as [x | e |]; [by apply Hf | done | done].
Qed.

Lemma alike_call {A : Type} (e : event) (r : reply A) : alike pre setup (call e r).
Proof. intros h1 h2 H. unfold call. destruct r; simpl; split; try done; by apply same_but_emit. Qed.

Lemma alike_setitem q key v : alike pre setup (setitem q key v).
Proof.
  intros h1 h2 (H1 & H2 & H3 & H4 & H5). unfold setitem. simpl. split; [done |].
  destruct q; repeat split; simpl; try done; congruence.
Qed.

Lemma alike_endpoint_get ep rid q : alike pre setup (endpoint_get ep rid q).
Proof.
  intros h1 h2 H. unfold endpoint_get.
  rewrite (same_but_requests _ _ H), (same_but_deref q _ _ H). by apply alike_call.
Qed.

Lemma alike_bind_results r : alike pre setup (bind_results r).
Proof.
  intros h1 h2 H. unfold bind_results. destruct (results r); [| done].
  destruct H as (H1 & H2 & H3 & H4 & H5). by repeat split.
Qed.

Lemma alike_iadd_results res r : alike pre setup (iadd_results res r).
Proof.
  intros h1 h2 H. pose proof H as (H1 & H2 & H3 & H4 & H5). unfold iadd_results.
  rewrite H3, H4.
  destruct res; [destruct (no_data_obj h2) eqn:Hnd |]; simpl; repeat split; try done;
    congruence.
Qed.

Lemma alike_deref_results res : alike pre setup (deref_results res).
Proof.
  intros h1 h2 H. pose proof H as (H1 & H2 & H3 & H4 & H5). unfold deref_results.
  rewrite H3, H4. by destruct res.
Qed.

Lemma alike_pagination_loop fuel : forall ep q res page nxt,
  alike pre setup (pagination_loop fuel ep q res page nxt).
Proof.
  induction fuel as [| fuel IH]; intros ep q res page nxt.
  - intros h1 h2 H. simpl. by destruct (truthy nxt).
  - destruct (truthy nxt) eqn:Hn.
    + intros h1 h2 H. rewrite !pagination_loop_step by done. revert h1 h2 H.
      apply alike_bind; [apply alike_setitem |]. intros _.
      apply alike_bind; [apply alike_endpoint_get |]. intros r.
      apply alike_bind; [apply alike_iadd_results |]. intros _. apply IH.
    + intros h1 h2 H. by rewrite !pagination_loop_stop.
Qed.

Lemma alike_retrieve fuel a resource rid querystring :
  alike pre setup (retrieve fuel a resource rid querystring).
Proof.
  unfold retrieve. apply alike_bind; [apply alike_call |]. intros ep.
  apply alike_bind; [apply alike_endpoint_get |]. intros r.
  destruct rid; [apply alike_ret |].
  unfold _traverse_pagination. apply alike_bind; [apply alike_bind_results |]. intros res.
  apply alike_bind; [apply alike_pagination_loop |]. intros _. apply alike_deref_results.
Qed.

Lemma alike_fetch_supplied fuel E cfg u resource (a : api_client) rid querystring ck :
  alike pre setup (fetch fuel E cfg u resource (Some a) rid querystring ck).
Proof.
  intros h1 h2 H. rewrite !fetch_supplied.
  destruct (alike_retrieve fuel a resource rid querystring h1 h2 H) as [Ho Hs].
  destruct (retrieve fuel a resource rid querystring h1) as [o1 h1'],
           (retrieve fuel a resource rid querystring h2) as [o2 h2'].
  simpl in Ho, Hs. subst o2. destruct o1 as [v | e |]; [| | done].
  - destruct (truthy ck); [| done].
    destruct (cache_set E (default "" ck) v (cache_ttl cfg)); simpl; split; try done;
      by apply same_but_emit.
  - pose proof Hs as (_ & _ & H3 & _). simpl. rewrite H3. split; [done |].
    by apply same_but_emit.
Qed.
End Alike.

Lemma fetch_built fuel E cfg u resource rid querystring ck h (c : client) (jwt : string)
    (a : api_client) :
  Client_objects_get E (OAUTH2_CLIENT_NAME cfg) = Returns c ->
  build_token E u (client_secret c) ["email"; "profile"] (OAUTH_ID_TOKEN_EXPIRATION E)
    (client_id c) = Returns jwt ->
  EdxRestApiClient E (internal_api_url cfg) jwt = Returns a ->
  fetch fuel E cfg u resource None rid querystring ck h =
  fetch fuel E cfg u resource (Some a) rid querystring ck (emits (client_setup E cfg u c jwt) h).
Proof.
  intros Hc Hj Ha.
  assert (Hb : build_client E cfg u h = (Done a, emits (client_setup E cfg u c jwt) h)).
  { unfold build_client. rewrite bind_run. unfold try_except_DoesNotExist, call at 1.
    rewrite Hc. rewrite bind_run. unfold call at 1. rewrite Hj. unfold call. rewrite Ha.
    norm_emits. reflexivity. }
  unfold fetch. rewrite !bind_run. unfold try_except at 1 3. rewrite !fmap_run.
  unfold ensure_client. rewrite Hb. change (truthy a) with true. cbn [negb].
  unfold mret at 3, M_ret at 3. reflexivity.
Qed.

(** When the caller passes no client and the three calls that build one
    return (the credential record [c], the token [jwt] built for the user
    with the record's secret, the scopes [email] and [profile], the
    configured expiration and the record's id as audience, and the client
    [a] made for the internal API url with that token), the call goes on
    exactly as if the caller had passed [a]: same outcome, same caller's
    dict, and the same log but for those three calls, made right after the
    cache read. *)
Theorem built_client_as_supplied fuel E cfg u resource rid querystring cache_key many
    (c : client) (jwt : string) (a : api_client) :
  enabled cfg = true ->
  (truthy cache_key = false \/
   exists d, cache_get E (the_key cache_key rid) = Returns d /\ truthy d = false) ->
  Client_objects_get E (OAUTH2_CLIENT_NAME cfg) = Returns c ->
  build_token E u (client_secret c) ["email"; "profile"] (OAUTH_ID_TOKEN_EXPIRATION E)
    (client_id c) = Returns jwt ->
  EdxRestApiClient E (internal_api_url cfg) jwt = Returns a ->
  fst (run fuel E cfg u resource None rid querystring cache_key many) =
    fst (run fuel E cfg u resource (Some a) rid querystring cache_key many) /\
  caller_dict (snd (run fuel E cfg u resource None rid querystring cache_key many)) =
    caller_dict (snd (run fuel E cfg u resource (Some a) rid querystring cache_key many)) /\
  exists rest,
    log (snd (run fuel E cfg u resource (Some a) rid querystring cache_key many)) =
      (if truthy cache_key then [CacheGet (the_key cache_key rid)] else []) ++ rest /\
    log (snd (run fuel E cfg u resource None rid querystring cache_key many)) =
      (if truthy cache_key then [CacheGet (the_key cache_key rid)] else []) ++
      client_setup E cfg u c jwt ++ rest.
Proof.
  intros Hen Hmiss Hc Hj Ha.
  rewrite !run_cache_missed by done.
  rewrite (fetch_built _ _ _ _ _ _ _ _ _ c jwt a Hc Hj Ha).
  set (pre := if truthy cache_key then [CacheGet (derived_key (default "" cache_key) rid)]
              else []).
  set (h0 := set_no_data_obj (if many then NoDataList [] else NoDataDict)
               (initial_heap querystring)).
  set (ck := if truthy cache_key then Some (derived_key (default "" cache_key) rid)
             else cache_key).
  assert (Hs : same_but pre (client_setup E cfg u c jwt) (emits pre h0)
                 (emits (client_setup E cfg u c jwt) (emits pre h0))).
  { repeat split. exists []. simpl. by rewrite !app_nil_r. }
  destruct (alike_fetch_supplied pre (client_setup E cfg u c jwt) eq_refl fuel E cfg u
              resource a rid querystring ck _ _ Hs) as [Ho (H1 & _ & _ & _ & rest & Hl1 & Hl2)].
  split; [by rewrite Ho |]. split; [by rewrite H1 |]. by exists rest.
Qed.

(** ** The further properties on concrete calls *)

Lemma cache_written_only_on_success_witness :
  CacheSet "programs" (DList ["a"; "b"; "c"; "d"; "e"]) 60 ∈
    log (snd (run 2 no_client_record programs_config "staff" "programs"
                (Some (client_serving three_pages)) None None (Some "programs") true)) /\
  (fst (run 2 no_client_record programs_config "staff" "programs"
          (Some (client_serving three_pages)) None None (Some "programs") true) =
     Done (DList ["a"; "b"; "c"; "d"; "e"]) \/
   exists e, cache_set no_client_record "programs" (DList ["a"; "b"; "c"; "d"; "e"]) 60 =
               Raises e /\
             fst (run 2 no_client_record programs_config "staff" "programs"
                    (Some (client_serving three_pages)) None None (Some "programs") true) =
               Raised e).
Proof.
  assert (H1 : CacheSet "programs" (DList ["a"; "b"; "c"; "d"; "e"]) 60 ∈
                 log (snd (run 2 no_client_record programs_config "staff" "programs"
                             (Some (client_serving three_pages)) None None (Some "programs")
                             true)))
    by (vm_compute; repeat constructor).
  split; [exact H1 |].
  destruct (cache_written_only_on_success 2 no_client_record programs_config "staff" "programs"
              (Some (client_serving three_pages)) None None (Some "programs") true
              "programs" (DList ["a"; "b"; "c"; "d"; "e"]) 60 H1)
    as (l & _ & _ & _ & _ & _ & _ & _ & Hres).
  exact Hres.
Defined.

Lemma no_cache_key_no_cache_access_witness :
  Forall (fun e => is_cache_access e = false)
    (log (snd (run 2 no_client_record programs_config "staff" "programs"
                 (Some (client_serving three_pages)) None None (Some "") true))).
Proof.
  exact (no_cache_key_no_cache_access 2 no_client_record programs_config "staff" "programs"
           (Some (client_serving three_pages)) None None (Some "") true eq_refl).
Defined.

Lemma falsy_cached_value_is_a_miss_witness :
  run 2 (caching (DList [])) programs_config "staff" "programs"
    (Some (client_serving three_pages)) None None (Some "programs") true =
  run 2 (with_cache_get (fun _ => Returns None) (caching (DList []))) programs_config "staff"
    "programs" (Some (client_serving three_pages)) None None (Some "programs") true.
Proof.
  exact (falsy_cached_value_is_a_miss 2 (caching (DList [])) programs_config "staff" "programs"
           (Some (client_serving three_pages)) None None (Some "programs") true
           (Some (DList [])) eq_refl eq_refl).
Defined.

Lemma second_call_served_from_cache_witness :
  fst (run 0
         (with_dict_cache
            (cache_after
               (log (snd (run 2 (with_dict_cache ∅ no_client_record) programs_config "staff"
                            "programs" (Some (client_serving three_pages)) None None
                            (Some "programs") true))) ∅)
            no_client_record)
         programs_config "learner" "programs" None None None (Some "programs") false) =
  Done (DList ["a"; "b"; "c"; "d"; "e"]).
Proof.
  assert (H3 : fst (run 2 (with_dict_cache ∅ no_client_record) programs_config "staff"
                      "programs" (Some (client_serving three_pages)) None None
                      (Some "programs") true) = Done (DList ["a"; "b"; "c"; "d"; "e"]))
    by (vm_compute; reflexivity).
  assert (H5 : Forall (fun e => is_log_exception e = false)
                 (log (snd (run 2 (with_dict_cache ∅ no_client_record) programs_config "staff"
                              "programs" (Some (client_serving three_pages)) None None
                              (Some "programs") true))))
    by (vm_compute; repeat constructor).
  exact (f_equal fst
           (second_call_served_from_cache ∅ no_client_record programs_config (Some "programs")
              None (DList ["a"; "b"; "c"; "d"; "e"])
              2 "staff" "programs" (Some (client_serving three_pages)) None true
              0 "learner" "programs" None None false
              eq_refl eq_refl H3 eq_refl H5)).
Defined.

Lemma built_client_as_supplied_witness :
  fst (run 2 with_client_record programs_config "staff" "programs" None None None None true) =
  fst (run 2 with_client_record programs_config "staff" "programs"
         (Some (client_serving three_pages)) None None None true).
Proof.
  assert (H2 : truthy (None : option string) = false \/
               exists d, cache_get with_client_record (the_key None None) = Returns d /\
                         truthy d = false) by (left; reflexivity).
  exact (proj1 (built_client_as_supplied 2 with_client_record programs_config "staff"
                  "programs" None None None true
                  {| client_id := "programs-id"; client_secret := "programs-secret" |}
                  "jwt" (client_serving three_pages) eq_refl H2 eq_refl eq_refl eq_refl)).
Defined.

(** ** What [many] changes *)

Lemma call_returns {A : Type} (e : event) (a : A) (h : heap) :
  call e (Returns a) h = (Done a, emit e h).
Proof. reflexivity. Qed.

Lemma call_raises {A : Type} (e : event) (x : exn) (h : heap) :
  call (A := A) e (Raises x) h = (Raised x, emit e h).
Proof. reflexivity. Qed.

Lemma twin_emit (e : event) (h1 h2 : heap) : twin h1 h2 -> twin (emit e h1) (emit e h2).
Proof. intros (H1 & H2 & H3 & H4 & H5 & H6). repeat split; try done. simpl. by rewrite H4. Qed.

Lemma twin_deref (q : querystring_ref) (h1 h2 : heap) :
  twin h1 h2 -> deref_querystring q h1 = deref_querystring q h2.
Proof. intros (H1 & H2 & _). destruct q; simpl; congruence. Qed.

Lemma twins_bind {A B : Type} (m : M A) (f : A -> M B) :
  twins m -> (forall x, twins (f x)) -> twins (m ≫= f).
Proof.
  intros Hm Hf h1 h2 H. rewrite !bind_run. destruct (Hm h1 h2 H) as [Ho Hs].
  destruct (m h1) as [o1 h1'], (m h2) as [o2 h2']. simpl in Ho, Hs. subst o2.
  destruct o1 as [x | e |]; [by apply Hf | done | done].
Qed.

Lemma twins_call {A : Type} (e : event) (r : reply A) : twins (call e r).
Proof. intros h1 h2 H. unfold call. destruct r; simpl; split; try done; by apply twin_emit. Qed.

Lemma twins_setitem q key v : twins (setitem q key v).
Proof.
  intros h1 h2 (H1 & H2 & H3 & H4 & H5 & H6). unfold setitem. simpl. split; [done |].
  destruct q; repeat split; simpl; try done; congruence.
Qed.

Lemma twins_endpoint_get ep rid q : twins (endpoint_get ep rid q).
Proof.
  intros h1 h2 H. unfold endpoint_get. rewrite (twin_deref q _ _ H).
  destruct H as (H1 & H2 & H3 & H4 & H5 & H6). rewrite H4. by apply twins_call.
Qed.

Lemma twins_iadd_first r : twins (iadd_results FirstResults r).
Proof.
  intros h1 h2 (H1 & H2 & H3 & H4 & H5 & H6). unfold iadd_results. rewrite H5, H6, H3.
  simpl. by repeat split.
Qed.

Lemma twins_loop_first fuel : forall ep q page nxt,
  twins (pagination_loop fuel ep q FirstResults page nxt).
Proof.
  induction fuel as [| fuel IH]; intros ep q page nxt.
  - intros h1 h2 H. simpl. by destruct (truthy nxt).
  - destruct (truthy nxt) eqn:Hn.
    + intros h1 h2 H. rewrite !pagination_loop_step by done. revert h1 h2 H.
      apply twins_bind; [apply twins_setitem |]. intros _.
      apply twins_bind; [apply twins_endpoint_get |]. intros r.
      apply twins_bind; [apply twins_iadd_first |]. intros _. apply IH.
    + intros h1 h2 H. by rewrite !pagination_loop_stop.
Qed.

Lemma twins_traverse_first fuel r ep q l :
  results r = Some l -> twins (_traverse_pagination fuel r ep q).
Proof.
  intros Hr h1 h2 H. unfold _traverse_pagination. rewrite !bind_run.
  unfold bind_results. rewrite Hr.
  assert (Ht : twin (set_first_results l h1) (set_first_results l h2)).
  { destruct H as (H1 & H2 & H3 & H4 & H5 & H6). by repeat split. }
  revert Ht. generalize (set_first_results l h1) (set_first_results l h2). clear h1 h2 H.
  apply twins_bind; [apply twins_loop_first |]. intros _.
  intros h1 h2 (H1 & H2 & H3 & H4 & H5 & H6). unfold deref_results. simpl. rewrite H3.
  by repeat split.
Qed.

Lemma traverse_pagination_log fuel r ep q h :
  exists evs, log (snd (_traverse_pagination fuel r ep q h)) = log h ++ evs.
Proof.
  unfold _traverse_pagination. rewrite bind_run.
  destruct (bind_results r h) as [o1 h1] eqn:Hb.
  assert (exists res, o1 = Done res /\ log h1 = log h) as (res & -> & Hl1).
  { unfold bind_results in Hb. destruct (results r); inversion Hb; subst; eauto. }
  rewrite bind_run.
  destruct (pagination_loop fuel ep q res 1 (get_next r) h1) as [o2 h2] eqn:Hl.
  apply pagination_loop_frame in Hl as (evs & Hlog & _). exists evs.
  destruct o2 as [[] | e |]; simpl; [| by rewrite Hlog, Hl1 | by rewrite Hlog, Hl1].
  unfold deref_results. destruct res; simpl; by rewrite Hlog, Hl1.
Qed.

(** The first request of [retrieve] heads the requests of the call. *)
Lemma retrieve_first_reply fuel (a : api_client) resource rid querystring h ep resp :
  requests (log h) = [] ->
  getattr a resource = Returns ep ->
  ep 0 rid (deref_querystring (if truthy querystring then CallerDict else FreshDict) h) =
    Returns resp ->
  exists qs,
    head (requests (log (snd (retrieve fuel a resource rid querystring h)))) =
    Some (Request rid qs (Returns resp)).
Proof.
  intros Hreq Hattr Hep. unfold retrieve. rewrite bind_run, Hattr, call_returns.
  cbv beta iota. rewrite bind_run. unfold endpoint_get.
  set (q := if truthy querystring then CallerDict else FreshDict) in *.
  assert (Hzero : length (requests (log (emit (GetAttr resource) h))) = 0).
  { simpl. by rewrite requests_app, Hreq. }
  assert (Hd : deref_querystring q (emit (GetAttr resource) h) = deref_querystring q h)
    by by destruct q.
  rewrite Hzero, Hd, Hep, call_returns. cbv beta iota.
  set (h1 := emit _ (emit _ h)).
  assert (Hl1 : forall evs, head (requests (log h1 ++ evs)) =
                            Some (Request rid (deref_querystring q h) (Returns resp))).
  { intros evs. unfold h1. simpl. by rewrite !requests_app, Hreq. }
  exists (deref_querystring q h). destruct rid as [i |].
  - specialize (Hl1 []). rewrite app_nil_r in Hl1. exact Hl1.
  - destruct (traverse_pagination_log fuel resp ep q h1) as [evs ->]. apply Hl1.
Qed.

Lemma retrieve_twin fuel (a : api_client) resource rid querystring h1 h2 :
  twin h1 h2 ->
  requests (log h1) = [] ->
  first_page_has_results
    (requests (log (snd (retrieve fuel a resource rid querystring h1)))) ->
  fst (retrieve fuel a resource rid querystring h1) =
    fst (retrieve fuel a resource rid querystring h2) /\
  twin (snd (retrieve fuel a resource rid querystring h1))
       (snd (retrieve fuel a resource rid querystring h2)).
Proof.
  intros Ht Hreq Hfp.
  destruct (getattr a resource) as [ep | x] eqn:Hattr.
  2:{ unfold retrieve. rewrite !bind_run, Hattr, !call_raises. simpl.
      split; [done | by apply twin_emit]. }
  set (q := if truthy querystring then CallerDict else FreshDict).
  destruct (ep 0 rid (deref_querystring q h1)) as [resp | x] eqn:Hep.
  - assert (Hres : rid = None -> results resp <> None).
    { intros ->.
      destruct (retrieve_first_reply fuel a resource None querystring h1 ep resp Hreq Hattr Hep)
        as [qs Hhead].
      by apply (Hfp None qs resp). }
    unfold retrieve. rewrite !bind_run, Hattr, !call_returns. cbv beta iota.
    rewrite !bind_run. fold q.
    pose proof (twin_emit (GetAttr resource) _ _ Ht) as Ht1.
    destruct (twins_endpoint_get ep rid q _ _ Ht1) as [Ho Hs].
    assert (Hget : endpoint_get ep rid q (emit (GetAttr resource) h1) =
                   (Done resp, emit (Request rid (deref_querystring q h1) (Returns resp))
                                 (emit (GetAttr resource) h1))).
    { unfold endpoint_get.
      assert (Hzero : length (requests (log (emit (GetAttr resource) h1))) = 0).
      { simpl. by rewrite requests_app, Hreq. }
      assert (Hd : deref_querystring q (emit (GetAttr resource) h1) = deref_querystring q h1)
        by by destruct q.
      by rewrite Hzero, Hd, Hep. }
    rewrite Hget in Ho, Hs |- *.
    destruct (endpoint_get ep rid q (emit (GetAttr resource) h2)) as [o2 h2'].
    simpl in Ho, Hs. subst o2. cbv beta iota.
    destruct rid as [i |]; [done |].
    destruct (results resp) as [l |] eqn:Hl; [| by destruct Hres].
    by apply (twins_traverse_first fuel resp ep q l Hl).
  - unfold retrieve. rewrite !bind_run, Hattr, !call_returns. cbv beta iota.
    rewrite !bind_run. fold q.
    pose proof (twin_emit (GetAttr resource) _ _ Ht) as Ht1.
    destruct (twins_endpoint_get ep rid q _ _ Ht1) as [Ho Hs].
    assert (Hget : endpoint_get ep rid q (emit (GetAttr resource) h1) =
                   (Raised x, emit (Request rid (deref_querystring q h1) (Raises x))
                                (emit (GetAttr resource) h1))).
    { unfold endpoint_get.
      assert (Hzero : length (requests (log (emit (GetAttr resource) h1))) = 0).
      { simpl. by rewrite requests_app, Hreq. }
      assert (Hd : deref_querystring q (emit (GetAttr resource) h1) = deref_querystring q h1)
        by by destruct q.
      by rewrite Hzero, Hd, Hep. }
    rewrite Hget in Ho, Hs |- *.
    destruct (endpoint_get ep rid q (emit (GetAttr resource) h2)) as [o2 h2'].
    simpl in Ho, Hs. by subst o2.
Qed.

Lemma requests_snoc_other (l : list event) (e : event) :
  is_request e = false -> requests (l ++ [e]) = requests l.
Proof.
  intros He. rewrite requests_app, (requests_none [e]) by by repeat constructor.
  apply app_nil_r.
Qed.

Lemma twin_emits (evs : list event) (h1 h2 : heap) :
  twin h1 h2 -> twin (emits evs h1) (emits evs h2).
Proof. intros (H1 & H2 & H3 & H4 & H5 & H6). repeat split; try done. simpl. by rewrite H4. Qed.

(** Building a client does not depend on the store. *)
Lemma ensure_client_uniform E cfg u api :
  exists o evs,
    o <> OutOfFuel /\ Forall (fun e => is_setup e = true) evs /\
    forall h, ensure_client E cfg u api h = (o, emits evs h).
Proof.
  destruct api as [a |].
  { exists (Done a), []. repeat split; [done | done |]. intros h. by rewrite emits_nil. }
  unfold ensure_client.
  destruct (Client_objects_get E (OAUTH2_CLIENT_NAME cfg)) as [c | x] eqn:Hc.
  2:{ exists (Raised (lookup_error (OAUTH2_CLIENT_NAME cfg) x)),
        [ClientLookup (OAUTH2_CLIENT_NAME cfg)].
      repeat split; [done | by repeat constructor |]. intros h.
      by rewrite (build_client_lookup_raises _ _ _ _ _ Hc). }
  destruct (build_token E u (client_secret c) ["email"; "profile"]
              (OAUTH_ID_TOKEN_EXPIRATION E) (client_id c)) as [jwt | x] eqn:Hj.
  2:{ exists (Raised x),
        [ClientLookup (OAUTH2_CLIENT_NAME cfg);
         BuildToken u (client_secret c) ["email"; "profile"] (OAUTH_ID_TOKEN_EXPIRATION E)
           (client_id c)].
      repeat split; [done | by repeat constructor |]. intros h.
      unfold build_client. rewrite bind_run. unfold try_except_DoesNotExist.
      rewrite Hc, call_returns. cbv beta iota. rewrite bind_run, Hj, call_raises.
      norm_emits. reflexivity. }
  destruct (EdxRestApiClient E (internal_api_url cfg) jwt) as [a | x] eqn:Ha.
  - exists (Done a), (client_setup E cfg u c jwt).
    repeat split; [done | by repeat constructor |]. intros h.
    unfold build_client. rewrite bind_run. unfold try_except_DoesNotExist.
    rewrite Hc, call_returns. cbv beta iota. rewrite bind_run, Hj, call_returns.
    cbv beta iota. rewrite Ha, call_returns. norm_emits. reflexivity.
  - exists (Raised x), (client_setup E cfg u c jwt).
    repeat split; [done | by repeat constructor |]. intros h.
    unfold build_client. rewrite bind_run. unfold try_except_DoesNotExist.
    rewrite Hc, call_returns. cbv beta iota. rewrite bind_run, Hj, call_returns.
    cbv beta iota. rewrite Ha, call_raises. norm_emits. reflexivity.
Qed.

Lemma fetch_after_client fuel E cfg u resource api rid querystring ck h (a : api_client) h' :
  ensure_client E cfg u api h = (Done a, h') ->
  fetch fuel E cfg u resource api rid querystring ck h =
  fetch fuel E cfg u resource (Some a) rid querystring ck h'.
Proof.
  intros He. unfold fetch. rewrite !bind_run. unfold try_except at 1 3. rewrite !fmap_run, He.
  unfold ensure_client. change (truthy a) with true. cbn [negb].
  unfold mret at 3, M_ret at 3. reflexivity.
Qed.

Lemma fetch_client_failed fuel E cfg u resource api rid querystring ck h (e : exn) h' :
  ensure_client E cfg u api h = (Raised e, h') ->
  fetch fuel E cfg u resource api rid querystring ck h =
  (Done (data_of_no_data (no_data_obj h')), emit (LogException (init_msg cfg) e) h').
Proof.
  intros He. unfold fetch. rewrite bind_run. unfold try_except at 1. rewrite fmap_run, He.
  reflexivity.
Qed.

Lemma fetch_twin fuel E cfg u resource api rid querystring ck h1 h2 :
  twin h1 h2 ->
  requests (log h1) = [] ->
  first_page_has_results
    (requests (log (snd (fetch fuel E cfg u resource api rid querystring ck h1)))) ->
  same_or_empty (fst (fetch fuel E cfg u resource api rid querystring ck h1))
                (fst (fetch fuel E cfg u resource api rid querystring ck h2)) /\
  log (snd (fetch fuel E cfg u resource api rid querystring ck h1)) =
    log (snd (fetch fuel E cfg u resource api rid querystring ck h2)) /\
  caller_dict (snd (fetch fuel E cfg u resource api rid querystring ck h1)) =
    caller_dict (snd (fetch fuel E cfg u resource api rid querystring ck h2)).
Proof.
  intros Ht Hreq.
  destruct (ensure_client_uniform E cfg u api) as (o & evs & Hnf & Hsetup & Hens).
  pose proof (twin_emits evs _ _ Ht) as Ht'.
  assert (Hreq' : requests (log (emits evs h1)) = []).
  { simpl. by rewrite requests_app, Hreq, (requests_setup _ Hsetup). }
  destruct o as [a | e |]; [| | done].
  2:{ rewrite !(fetch_client_failed _ _ _ _ _ _ _ _ _ _ e _ (Hens _)). intros _.
      destruct Ht' as (H1 & H2 & H3 & H4 & H5 & H6). cbn [fst snd]. rewrite H5, H6.
      split; [by right |]. simpl in H1, H4 |- *. by rewrite H4. }
  rewrite !(fetch_after_client _ _ _ _ _ _ _ _ _ _ a _ (Hens _)), !fetch_supplied.
  generalize dependent (emits evs h2). generalize dependent (emits evs h1).
  clear h1 h2 Ht Hreq Hens. intros h1 Hreq h2 Ht Hfp.
  assert (Hfp' : first_page_has_results
                   (requests (log (snd (retrieve fuel a resource rid querystring h1))))).
  { revert Hfp. destruct (retrieve fuel a resource rid querystring h1) as [[v | e |] hr];
      [destruct (truthy ck); [destruct (cache_set E (default "" ck) v (cache_ttl cfg)) |] | |];
      simpl; rewrite ?requests_snoc_other by done; done. }
  clear Hfp. destruct (retrieve_twin fuel a resource rid querystring h1 h2 Ht Hreq Hfp')
    as [Ho Hs].
  destruct (retrieve fuel a resource rid querystring h1) as [o1 hr1],
           (retrieve fuel a resource rid querystring h2) as [o2 hr2].
  simpl in Ho, Hs. subst o2. destruct Hs as (H1 & H2 & H3 & H4 & H5 & H6).
  destruct o1 as [v | e |].
  - destruct (truthy ck); [destruct (cache_set E (default "" ck) v (cache_ttl cfg)) |];
      simpl; rewrite ?H4; by repeat split; try left.
  - simpl. rewrite H4, H5, H6. by repeat split; try right.
  - simpl. by repeat split; try left.
Qed.

Lemma run_cache_raises fuel E cfg u resource api rid querystring cache_key many x :
  enabled cfg = true ->
  truthy cache_key = true ->
  cache_get E (the_key cache_key rid) = Raises x ->
  run fuel E cfg u resource api rid querystring cache_key many =
  (Raised x,
   emit (CacheGet (the_key cache_key rid))
     (set_no_data_obj (if many then NoDataList [] else NoDataDict) (initial_heap querystring))).
Proof.
  intros Hen Hck Hget.
  unfold run, get_edx_api_data. rewrite bind_run, Hen. cbn [negb]. rewrite bind_run, Hck.
  assert (Hk : truthy (Some (derived_key (default "" cache_key) rid)) = true).
  { destruct cache_key as [k |]; [| done]. by apply truthy_derived_key. }
  rewrite Hk. simpl default. fold (the_key cache_key rid). unfold call at 1.
  by rewrite Hget.
Qed.

(** The flag [many] decides which empty value a call returns when it has
    nothing else to return, and nothing more: when the first page received,
    if any, carries a ['results'] list, the calls with [many=True] and with
    [many=False] make the same calls in the same order, leave the same
    caller's dict, and return the same value, unless one returns [[]] where
    the other returns [{}]. *)
Theorem many_changes_only_the_empty_value fuel E cfg u resource api rid querystring cache_key :
  first_page_has_results
    (requests (log (snd (run fuel E cfg u resource api rid querystring cache_key true)))) ->
  same_or_empty (fst (run fuel E cfg u resource api rid querystring cache_key true))
                (fst (run fuel E cfg u resource api rid querystring cache_key false)) /\
  log (snd (run fuel E cfg u resource api rid querystring cache_key true)) =
    log (snd (run fuel E cfg u resource api rid querystring cache_key false)) /\
  caller_dict (snd (run fuel E cfg u resource api rid querystring cache_key true)) =
    caller_dict (snd (run fuel E cfg u resource api rid querystring cache_key false)).
Proof.
  destruct (enabled cfg) eqn:Hen.
  2:{ intros _. unfold run, get_edx_api_data. rewrite !bind_run, Hen. simpl.
      split; [by right | done]. }
  assert (Hmiss : (truthy cache_key = false \/
                   exists c, cache_get E (derived_key (default "" cache_key) rid) = Returns c /\
                             truthy c = false) ->
            first_page_has_results
              (requests (log (snd (run fuel E cfg u resource api rid querystring cache_key true)))) ->
            same_or_empty (fst (run fuel E cfg u resource api rid querystring cache_key true))
              (fst (run fuel E cfg u resource api rid querystring cache_key false)) /\
            log (snd (run fuel E cfg u resource api rid querystring cache_key true)) =
              log (snd (run fuel E cfg u resource api rid querystring cache_key false)) /\
            caller_dict (snd (run fuel E cfg u resource api rid querystring cache_key true)) =
              caller_dict (snd (run fuel E cfg u resource api rid querystring cache_key false))).
  { intros Hm. rewrite !run_cache_missed by done. apply fetch_twin.
    - by repeat split.
    - simpl. by destruct (truthy cache_key). }
  destruct (truthy cache_key) eqn:Hck; [| apply Hmiss; by left].
  destruct (cache_get E (the_key cache_key rid)) as [c | x] eqn:Hget.
  2:{ intros _. rewrite !(run_cache_raises _ _ _ _ _ _ _ _ _ _ x) by done. simpl.
      split; [by left | done]. }
  destruct c as [d |]; [destruct (truthy d) eqn:Hd |].
  - intros _. rewrite !(run_cache_hit _ _ _ _ _ _ _ _ _ _ d) by done. simpl.
    split; [by left | done].
  - apply Hmiss. right. by exists (Some d).
  - apply Hmiss. right. by exists None.
Qed.

Lemma many_changes_only_the_empty_value_witness :
  log (snd (run 2 no_client_record programs_config "staff" "programs"
              (Some (client_serving three_pages)) None None (Some "programs") true)) =
  log (snd (run 2 no_client_record programs_config "staff" "programs"
              (Some (client_serving three_pages)) None None (Some "programs") false)).
Proof.
  assert (H1 : first_page_has_results
                 (requests (log (snd (run 2 no_client_record programs_config "staff" "programs"
                    (Some (client_serving three_pages)) None None (Some "programs") true))))).
  { intros rid qs r H. vm_compute in H. inversion H. discriminate. }
  exact (proj1 (proj2 (many_changes_only_the_empty_value 2 no_client_record programs_config
                         "staff" "programs" (Some (client_serving three_pages)) None None
                         (Some "programs") H1))).
Defined.

(** ** Exceptions of the collaborators *)

Lemma build_client_token_raises E cfg u h (c : client) (x : exn) :
  Client_objects_get E (OAUTH2_CLIENT_NAME cfg) = Returns c ->
  build_token E u (client_secret c) ["email"; "profile"] (OAUTH_ID_TOKEN_EXPIRATION E)
    (client_id c) = Raises x ->
  build_client E cfg u h =
  (Raised x,
   emits [ClientLookup (OAUTH2_CLIENT_NAME cfg);
          BuildToken u (client_secret c) ["email"; "profile"] (OAUTH_ID_TOKEN_EXPIRATION E)
            (client_id c)] h).
Proof.
  intros Hc Hj. unfold build_client. rewrite bind_run. unfold try_except_DoesNotExist.
  rewrite Hc, call_returns. cbv beta iota. rewrite bind_run, Hj, call_raises.
  norm_emits. reflexivity.
Qed.

Lemma build_client_constructor_raises E cfg u h (c : client) (jwt : string) (x : exn) :
  Client_objects_get E (OAUTH2_CLIENT_NAME cfg) = Returns c ->
  build_token E u (client_secret c) ["email"; "profile"] (OAUTH_ID_TOKEN_EXPIRATION E)
    (client_id c) = Returns jwt ->
  EdxRestApiClient E (internal_api_url cfg) jwt = Raises x ->
  build_client E cfg u h = (Raised x, emits (client_setup E cfg u c jwt) h).
Proof.
  intros Hc Hj Ha. unfold build_client. rewrite bind_run. unfold try_except_DoesNotExist.
  rewrite Hc, call_returns. cbv beta iota. rewrite bind_run, Hj, call_returns.
  cbv beta iota. rewrite Ha, call_raises. norm_emits. reflexivity.
Qed.

Lemma build_client_returns E cfg u h (c : client) (jwt : string) (a : api_client) :
  Client_objects_get E (OAUTH2_CLIENT_NAME cfg) = Returns c ->
  build_token E u (client_secret c) ["email"; "profile"] (OAUTH_ID_TOKEN_EXPIRATION E)
    (client_id c) = Returns jwt ->
  EdxRestApiClient E (internal_api_url cfg) jwt = Returns a ->
  build_client E cfg u h = (Done a, emits (client_setup E cfg u c jwt) h).
Proof.
  intros Hc Hj Ha. unfold build_client. rewrite bind_run. unfold try_except_DoesNotExist.
  rewrite Hc, call_returns. cbv beta iota. rewrite bind_run, Hj, call_returns.
  cbv beta iota. rewrite Ha, call_returns. norm_emits. reflexivity.
Qed.

Lemma client_in_use_ensure E cfg u api (a : api_client) :
  client_in_use E cfg u api a ->
  exists evs, forall h, ensure_client E cfg u api h = (Done a, emits evs h).
Proof.
  destruct api as [a' |]; simpl.
  - intros ->. exists []. intros h. by rewrite emits_nil.
  - intros (c & jwt & Hc & Hj & Ha). exists (client_setup E cfg u c jwt). intros h.
    by apply build_client_returns.
Qed.

(** An exception raised while the client is built (line 71). *)
Lemma run_client_failed fuel E cfg u resource api rid querystring cache_key many
    (e : exn) (evs : list event) :
  reaches_client E cfg cache_key rid ->
  (forall h, ensure_client E cfg u api h = (Raised e, emits evs h)) ->
  caught_and_logged (run fuel E cfg u resource api rid querystring cache_key many) many
    (init_msg cfg) e.
Proof.
  intros [Hen Hmiss] Hens. unfold caught_and_logged.
  rewrite run_cache_missed by done.
  rewrite (fetch_client_failed _ _ _ _ _ _ _ _ _ _ e _ (Hens _)).
  split; [by destruct many | apply last_snoc].
Qed.

(** An exception raised by [getattr(api, resource)] (line 76). *)
Lemma run_getattr_raises fuel E cfg u resource api rid querystring cache_key many
    (a : api_client) (x : exn) :
  reaches_client E cfg cache_key rid ->
  client_in_use E cfg u api a ->
  getattr a resource = Raises x ->
  caught_and_logged (run fuel E cfg u resource api rid querystring cache_key many) many
    (retrieve_msg cfg) x.
Proof.
  intros [Hen Hmiss] Huse Hattr. unfold caught_and_logged.
  destruct (client_in_use_ensure _ _ _ _ _ Huse) as [evs Hens].
  rewrite run_cache_missed by done.
  rewrite (fetch_after_client _ _ _ _ _ _ _ _ _ _ a _ (Hens _)), fetch_supplied.
  unfold retrieve. rewrite bind_run, Hattr, call_raises.
  split; [by destruct many | apply last_snoc].
Qed.

(** A request that raised is the last thing the loop did. *)
Lemma pagination_loop_raise_logged fuel : forall ep q res page nxt h o h' rid' qs x,
  pagination_loop fuel ep q res page nxt h = (o, h') ->
  Request rid' qs (Raises x) ∈ log h' ->
  Request rid' qs (Raises x) ∈ log h \/ o = Raised x.
Proof.
  induction fuel as [| fuel IH]; intros ep q res page nxt h o h' rid' qs x Hrun Hin.
  - simpl in Hrun. destruct (truthy nxt); inversion Hrun; subst; by left.
  - destruct (truthy nxt) eqn:Hn.
    2:{ rewrite pagination_loop_stop in Hrun by done. inversion Hrun; subst. by left. }
    rewrite pagination_loop_step in Hrun by done. rewrite bind_run in Hrun.
    destruct (setitem q "page" (QInt (page + 1)) h) as [o1 h1] eqn:Hs.
    assert (o1 = Done tt /\ log h1 = log h) as (-> & Hl1).
    { unfold setitem in Hs. inversion Hs; subst. by destruct q. }
    rewrite bind_run in Hrun. unfold endpoint_get in Hrun.
    destruct (ep (length (requests (log h1))) None (deref_querystring q h1)) as [resp | y].
    + rewrite call_returns, bind_run in Hrun.
      set (h2 := emit _ h1) in Hrun.
      assert (Hl2 : Request rid' qs (Raises x) ∈ log h2 -> Request rid' qs (Raises x) ∈ log h).
      { unfold h2. simpl. rewrite Hl1, elem_of_app, list_elem_of_singleton.
        intros [H | H]; [done | discriminate]. }
      destruct (iadd_results res resp h2) as [o3 h3] eqn:Hi.
      assert (Hl3 : log h3 = log h2).
      { unfold iadd_results in Hi. destruct res; [destruct (no_data_obj h2) |];
          inversion Hi; subst; reflexivity. }
      destruct o3 as [[] | e |].
      * destruct (IH _ _ _ _ _ _ _ _ _ _ _ Hrun Hin) as [H | H]; [| by right].
        left. apply Hl2. by rewrite <- Hl3.
      * inversion Hrun; subst. left. apply Hl2. by rewrite <- Hl3.
      * inversion Hrun; subst. left. apply Hl2. by rewrite <- Hl3.
    + rewrite call_raises in Hrun. inversion Hrun; subst. simpl in Hin.
      rewrite Hl1, elem_of_app, list_elem_of_singleton in Hin.
      destruct Hin as [H | H]; [by left | right]. by inversion H.
Qed.

Lemma retrieve_raise_logged fuel (a : api_client) resource rid querystring h o h' rid' qs x :
  retrieve fuel a resource rid querystring h = (o, h') ->
  Request rid' qs (Raises x) ∈ log h' ->
  Request rid' qs (Raises x) ∈ log h \/ o = Raised x.
Proof.
  unfold retrieve. rewrite bind_run.
  destruct (getattr a resource) as [ep | y].
  2:{ rewrite call_raises. intros Hrun Hin. inversion Hrun; subst. simpl in Hin.
      rewrite elem_of_app, list_elem_of_singleton in Hin.
      destruct Hin as [H | H]; [by left | discriminate]. }
  rewrite call_returns. cbv beta iota. rewrite bind_run. unfold endpoint_get.
  set (q := if truthy querystring then CallerDict else FreshDict).
  set (h1 := emit (GetAttr resource) h).
  assert (Hl1 : Request rid' qs (Raises x) ∈ log h1 -> Request rid' qs (Raises x) ∈ log h).
  { unfold h1. simpl. rewrite elem_of_app, list_elem_of_singleton.
    intros [H | H]; [done | discriminate]. }
  destruct (ep (length (requests (log h1))) rid (deref_querystring q h1)) as [resp | y].
  2:{ rewrite call_raises. intros Hrun Hin. inversion Hrun; subst. simpl in Hin.
      rewrite elem_of_app, list_elem_of_singleton in Hin.
      destruct Hin as [H | H]; [left; by apply Hl1 | right]. by inversion H. }
  rewrite call_returns. cbv beta iota. set (h2 := emit _ h1).
  assert (Hl2 : Request rid' qs (Raises x) ∈ log h2 -> Request rid' qs (Raises x) ∈ log h).
  { unfold h2. simpl. rewrite elem_of_app, list_elem_of_singleton.
    intros [H | H]; [by apply Hl1 | discriminate]. }
  destruct rid as [i |].
  { intros Hrun Hin. inversion Hrun; subst. left. by apply Hl2. }
  unfold _traverse_pagination. rewrite bind_run.
  destruct (bind_results resp h2) as [o3 h3] eqn:Hb.
  assert (exists res, o3 = Done res /\ log h3 = log h2) as (res & -> & Hl3).
  { unfold bind_results in Hb. destruct (results resp); inversion Hb; subst; eauto. }
  rewrite bind_run.
  destruct (pagination_loop fuel ep q res 1 (get_next resp) h3) as [o4 h4] eqn:Hloop.
  intros Hrun Hin.
  assert (Hin4 : Request rid' qs (Raises x) ∈ log h4).
  { destruct o4 as [[] | e |]; [| by inversion Hrun; subst | by inversion Hrun; subst].
    unfold deref_results in Hrun. destruct res; inversion Hrun; by subst. }
  destruct (pagination_loop_raise_logged _ _ _ _ _ _ _ _ _ _ _ _ Hloop Hin4) as [H | ->].
  - left. apply Hl2. by rewrite <- Hl3.
  - right. by inversion Hrun.
Qed.

Lemma fetch_request_raises fuel E cfg u resource api rid querystring ck h rid' qs x :
  Forall (fun e => is_request e = false) (log h) ->
  Request rid' qs (Raises x) ∈
    log (snd (fetch fuel E cfg u resource api rid querystring ck h)) ->
  last (log (snd (fetch fuel E cfg u resource api rid querystring ck h))) =
    Some (LogException (retrieve_msg cfg) x).
Proof.
  intros Hh.
  destruct (ensure_client_uniform E cfg u api) as (o & evs & Hnf & Hsetup & Hens).
  assert (Hnot : Request rid' qs (Raises x) ∈ log (emits evs h) -> False).
  { simpl. rewrite elem_of_app. rewrite Forall_forall in Hh, Hsetup.
    intros [H | H]; [by specialize (Hh _ H) | by specialize (Hsetup _ H)]. }
  destruct o as [a | e |]; [| | done].
  2:{ rewrite (fetch_client_failed _ _ _ _ _ _ _ _ _ _ e _ (Hens _)).
      cbn [snd]. change (log (emit ?e0 ?h0)) with (log h0 ++ [e0]).
      rewrite elem_of_app, list_elem_of_singleton. intros [H | H]; [done | discriminate]. }
  rewrite (fetch_after_client _ _ _ _ _ _ _ _ _ _ a _ (Hens _)), fetch_supplied.
  destruct (retrieve fuel a resource rid querystring (emits evs h)) as [ro hr] eqn:Hr.
  pose proof (retrieve_raise_logged _ _ _ _ _ _ _ _ rid' qs x Hr) as Hlogged.
  destruct ro as [v | e |].
  - assert (Hin : Request rid' qs (Raises x) ∈ log hr -> False).
    { intros Hin. by destruct (Hlogged Hin). }
    destruct (truthy ck); [| done].
    destruct (cache_set E (default "" ck) v (cache_ttl cfg)); cbn [snd];
      change (log (emit ?e0 ?h0)) with (log h0 ++ [e0]);
      rewrite elem_of_app, list_elem_of_singleton; intros [H | H]; done.
  - cbn [snd]. change (log (emit ?e0 ?h0)) with (log h0 ++ [e0]).
    rewrite elem_of_app, list_elem_of_singleton. intros [H | H]; [| discriminate].
    destruct (Hlogged H) as [H' | H']; [done |]. inversion H'; subst. apply last_snoc.
  - cbn [snd]. intros Hin. by destruct (Hlogged Hin).
Qed.

(** An exception raised by a request (lines 78 and 106). *)
Lemma run_request_raises fuel E cfg u resource api rid querystring cache_key many rid' qs exc :
  Request rid' qs (Raises exc) ∈
    log (snd (run fuel E cfg u resource api rid querystring cache_key many)) ->
  last (log (snd (run fuel E cfg u resource api rid querystring cache_key many))) =
    Some (LogException (retrieve_msg cfg) exc) /\
  (exists v, fst (run fuel E cfg u resource api rid querystring cache_key many) = Done v) /\
  (first_page_has_results
     (requests (log (snd (run fuel E cfg u resource api rid querystring cache_key many)))) ->
   fst (run fuel E cfg u resource api rid querystring cache_key many) =
     Done (empty_value many)).
Proof.
  intros Hin.
  assert (Hlast : last (log (snd (run fuel E cfg u resource api rid querystring cache_key many))) =
                  Some (LogException (retrieve_msg cfg) exc)).
  { destruct (enabled cfg) eqn:Hen.
    2:{ exfalso. revert Hin. unfold run, get_edx_api_data. rewrite !bind_run, Hen. simpl.
        rewrite list_elem_of_singleton. discriminate. }
    assert (Hmiss : (truthy cache_key = false \/
                     exists c, cache_get E (derived_key (default "" cache_key) rid) = Returns c /\
                               truthy c = false) ->
              last (log (snd (run fuel E cfg u resource api rid querystring cache_key many))) =
              Some (LogException (retrieve_msg cfg) exc)).
    { intros Hm. revert Hin. rewrite run_cache_missed by done.
      apply fetch_request_raises. simpl. destruct (truthy cache_key); by repeat constructor. }
    destruct (truthy cache_key) eqn:Hck; [| apply Hmiss; by left].
    destruct (cache_get E (the_key cache_key rid)) as [c | y] eqn:Hget.
    2:{ exfalso. revert Hin. rewrite (run_cache_raises _ _ _ _ _ _ _ _ _ _ y) by done. simpl.
        rewrite list_elem_of_singleton. discriminate. }
    destruct c as [d |]; [destruct (truthy d) eqn:Hd |].
    - exfalso. revert Hin. rewrite (run_cache_hit _ _ _ _ _ _ _ _ _ _ d) by done. simpl.
      rewrite list_elem_of_singleton. discriminate.
    - apply Hmiss. right. by exists (Some d).
    - apply Hmiss. right. by exists None. }
  split; [exact Hlast |]. revert Hlast. clear Hin.
  destruct (run fuel E cfg u resource api rid querystring cache_key many) as [o0 h0] eqn:Hrun.
  run_cases Hrun; rewrite Hlog.
  1-3: discriminate.
  - rewrite !app_assoc, last_snoc. intros H. inversion H.
  - destruct Hfin as [e | | v Hf | v Ht Hs | v e Ht Hs].
    + intros _. split; [by eexists |].
      rewrite (requests_retrieved _ _ _ _ _ _ _ _ _ _ _ _ Hpre Hsetup Hreqs
                 (FinishFailed E cfg rid cache_key h e)).
      intros Hfp. by rewrite Hnd.
    + intros Hl. apply last_retrieved_nil in Hl as [Hl | Hl]; done.
    + intros Hl. apply last_retrieved_nil in Hl as [Hl | Hl]; done.
    + rewrite last_retrieved. discriminate.
    + rewrite last_retrieved. discriminate.
Qed.

(** C2, as the code has it.  The only exceptions that reach the caller are
    those of the cache store: an exception leaves the call only if
    [cache.get] or [cache.set] raised it, and those do leave it, since both
    are called outside the [try] blocks.  The others are caught: when the
    credential lookup, the token builder, the client constructor or
    [getattr(api, resource)] raises, the call logs the exception (for a
    missing credential record, the configuration error made from it) and
    returns the empty value, [[]] if [many] and [{}] otherwise; when a
    request raises, the call logs the exception, returns, and what it returns
    is the empty value provided the first page received, if any, carried a
    [results] list.  The same holds of any call that logged an exception. *)
Theorem exceptions_contained fuel E cfg u resource api rid querystring cache_key many :
  (forall e,
     fst (run fuel E cfg u resource api rid querystring cache_key many) = Raised e ->
     cache_get E (derived_key (default "" cache_key) rid) = Raises e \/
     exists v, cache_set E (derived_key (default "" cache_key) rid) v (cache_ttl cfg) = Raises e) /\
  (forall e,
     enabled cfg = true -> truthy cache_key = true ->
     cache_get E (derived_key (default "" cache_key) rid) = Raises e ->
     fst (run fuel E cfg u resource api rid querystring cache_key many) = Raised e) /\
  (forall e v,
     last (log (snd (run fuel E cfg u resource api rid querystring cache_key many))) =
       Some (CacheSet (derived_key (default "" cache_key) rid) v (cache_ttl cfg)) ->
     cache_set E (derived_key (default "" cache_key) rid) v (cache_ttl cfg) = Raises e ->
     fst (run fuel E cfg u resource api rid querystring cache_key many) = Raised e) /\
  (forall x,
     reaches_client E cfg cache_key rid -> api = None ->
     Client_objects_get E (OAUTH2_CLIENT_NAME cfg) = Raises x ->
     caught_and_logged (run fuel E cfg u resource api rid querystring cache_key many) many
       (init_msg cfg) (lookup_error (OAUTH2_CLIENT_NAME cfg) x)) /\
  (forall c x,
     reaches_client E cfg cache_key rid -> api = None ->
     Client_objects_get E (OAUTH2_CLIENT_NAME cfg) = Returns c ->
     build_token E u (client_secret c) ["email"; "profile"] (OAUTH_ID_TOKEN_EXPIRATION E)
       (client_id c) = Raises x ->
     caught_and_logged (run fuel E cfg u resource api rid querystring cache_key many) many
       (init_msg cfg) x) /\
  (forall c jwt x,
     reaches_client E cfg cache_key rid -> api = None ->
     Client_objects_get E (OAUTH2_CLIENT_NAME cfg) = Returns c ->
     build_token E u (client_secret c) ["email"; "profile"] (OAUTH_ID_TOKEN_EXPIRATION E)
       (client_id c) = Returns jwt ->
     EdxRestApiClient E (internal_api_url cfg) jwt = Raises x ->
     caught_and_logged (run fuel E cfg u resource api rid querystring cache_key many) many
       (init_msg cfg) x) /\
  (forall a x,
     reaches_client E cfg cache_key rid -> client_in_use E cfg u api a ->
     getattr a resource = Raises x ->
     caught_and_logged (run fuel E cfg u resource api rid querystring cache_key many) many
       (retrieve_msg cfg) x) /\
  (forall rid' qs x,
     Request rid' qs (Raises x) ∈
       log (snd (run fuel E cfg u resource api rid querystring cache_key many)) ->
     last (log (snd (run fuel E cfg u resource api rid querystring cache_key many))) =
       Some (LogException (retrieve_msg cfg) x) /\
     (exists v, fst (run fuel E cfg u resource api rid querystring cache_key many) = Done v) /\
     (first_page_has_results
        (requests (log (snd (run fuel E cfg u resource api rid querystring cache_key many)))) ->
      fst (run fuel E cfg u resource api rid querystring cache_key many) =
        Done (empty_value many))) /\
  (Exists (fun e => is_log_exception e = true)
     (log (snd (run fuel E cfg u resource api rid querystring cache_key many))) ->
   first_page_has_results
     (requests (log (snd (run fuel E cfg u resource api rid querystring cache_key many)))) ->
   fst (run fuel E cfg u resource api rid querystring cache_key many) = Done (empty_value many)).
Proof.
  destruct (only_cache_exceptions_escape fuel E cfg u resource api rid querystring cache_key many)
    as (Honly & Hget & Hset & Hlogged).
  split; [exact Honly |]. split; [exact Hget |]. split; [exact Hset |].
  split.
  { intros x Hreach -> Hx.
    apply (run_client_failed _ _ _ _ _ _ _ _ _ _ _ [ClientLookup (OAUTH2_CLIENT_NAME cfg)]);
      [done |].
    intros h. exact (build_client_lookup_raises _ _ _ h _ Hx). }
  split.
  { intros c x Hreach -> Hc Hx.
    eapply run_client_failed; [done |].
    intros h. exact (build_client_token_raises _ _ _ h _ _ Hc Hx). }
  split.
  { intros c jwt x Hreach -> Hc Hj Hx.
    eapply run_client_failed; [done |].
    intros h. exact (build_client_constructor_raises _ _ _ h _ _ _ Hc Hj Hx). }
  split.
  { intros a x Hreach Huse Hx. by eapply run_getattr_raises. }
  split; [| exact Hlogged].
  intros rid' qs x. apply run_request_raises.
Qed.

Lemma exceptions_contained_witness :
  (forall e, fst (run 2 no_client_record programs_config "staff" "programs" None None None
                    (Some "programs") true) <> Raised e) /\
  caught_and_logged
    (run 2 no_client_record programs_config "staff" "programs" None None None
       (Some "programs") true) true
    "Failed to initialize the programs API client."
    (ImproperlyConfigured "OAuth2 Client with name [programs] does not exist.") /\
  caught_and_logged
    (run 2 token_builder_down programs_config "staff" "programs" None None None
       (Some "programs") false) false
    "Failed to initialize the programs API client." (Error "no signing key") /\
  caught_and_logged
    (run 2 no_client_record programs_config "staff" "programs"
       (Some {| getattr := fun _ => Raises (Error "no such resource") |}) None None None true)
    true "Failed to retrieve data from the programs API." (Error "no such resource") /\
  fst (run 2 no_client_record programs_config "staff" "programs"
         (Some {| getattr := fun _ => Returns (serve_then_raise three_pages 1 (Error "reset")) |})
         None None None true) = Done (DList []) /\
  fst (run 2 cache_down programs_config "staff" "programs" None None None
         (Some "programs") true) = Raised (Error "cache unavailable").
Proof.
  pose proof (exceptions_contained 2 no_client_record programs_config "staff" "programs"
                None None None (Some "programs") true)
    as (Honly & _ & _ & Hlookup & _).
  pose proof (exceptions_contained 2 token_builder_down programs_config "staff" "programs"
                None None None (Some "programs") false)
    as (_ & _ & _ & _ & Htoken & _).
  pose proof (exceptions_contained 2 no_client_record programs_config "staff" "programs"
                (Some {| getattr := fun _ => Raises (Error "no such resource") |})
                None None None true)
    as (_ & _ & _ & _ & _ & _ & Hattr & _).
  pose proof (exceptions_contained 2 no_client_record programs_config "staff" "programs"
                (Some {| getattr := fun _ =>
                           Returns (serve_then_raise three_pages 1 (Error "reset")) |})
                None None None true)
    as (_ & _ & _ & _ & _ & _ & _ & Hreq & _).
  pose proof (exceptions_contained 2 cache_down programs_config "staff" "programs"
                None None None (Some "programs") true) as (_ & Hget & _).
  assert (Hreach : forall E, cache_get E = cache_get no_client_record ->
            reaches_client E programs_config (Some "programs") None).
  { intros E HE. split; [reflexivity |]. right. exists None. by rewrite HE. }
  split; [| split; [| split; [| split; [| split]]]].
  - intros e He. destruct (Honly e He) as [Hg | [v Hs]]; discriminate.
  - exact (Hlookup DoesNotExist (Hreach _ eq_refl) eq_refl eq_refl).
  - exact (Htoken _ (Error "no signing key") (Hreach _ eq_refl) eq_refl eq_refl eq_refl).
  - apply (Hattr {| getattr := fun _ => Raises (Error "no such resource") |}
             (Error "no such resource")); [| reflexivity | reflexivity].
    split; [reflexivity | by left].
  - destruct (Hreq None (<["page" := QInt 2]> ∅) (Error "reset")) as (_ & _ & Hempty).
    + vm_compute. repeat constructor.
    + apply Hempty. intros rid qs r Hh. vm_compute in Hh. inversion Hh. discriminate.
  - apply Hget; reflexivity.
Defined.
